(** * Coordinate transform: a shallow embedding of the Python sources

    Embedded files:
    - [lib/GIS/lib/ProjParser.py]                          ([parse_crs])
    - [lib/GIS/management.py]                              ([XYTableToPoint], [Project])
    - [lib/coordinate_transform/coordinate_transform.py]   ([coordinate_transform])
    - [lib/coordinate_transform/GIS/lib/PathParser.py]     ([Path])
    - [lib/coordinate_transform/GIS/management.py]         ([CopyFeatures], [CopyRaster],
                                                            [Delete])

    The projection library (pyproj) is an interface ([PyProj]).  Tables in
    memory (pandas, geopandas) are modelled by the operations the sources
    call on them; what the table libraries do with text and with files
    (the conversion of a text cell to a number, the csv text of a table and
    its parsing, the reading and writing of a geographic dataset) is an
    interface too ([TableLib]).  The file system is a [disk] of regular
    files and directories by absolute path; the disk, the console and the
    order of I/O calls are an explicit [world] threaded through a
    state-and-exception monad.  Permissions, a full disk and symbolic
    links are not modelled. *)

From Stdlib Require Import ZArith String Ascii List Bool Lia.
From Stdlib Require Import Floats DecimalString.
From Corelib Require Import PrimFloat.
From stdpp Require Import base option list strings gmap.

Local Open Scope Z_scope.
Local Open Scope string_scope.
Local Open Scope list_scope.

(** ** Python strings

    A [string] stands for a Python [str] all of whose code points are below
    256; the character [c] is the code point [N_of_ascii c]. *)

Module PyStr.

(** [str.isdecimal] on one code point below 256: only '0'..'9' have the
    Unicode property Numeric_Type=Decimal. *)
Definition isdecimal_char (c : ascii) : bool :=
  let n := N_of_ascii c in (48 <=? n)%N && (n <=? 57)%N.

(** [str.isnumeric] on one code point below 256: Numeric_Type is Decimal,
    Digit or Numeric for '0'..'9', U+00B2, U+00B3, U+00B9 (superscript
    two, three, one) and U+00BC..U+00BE (the vulgar fractions). *)
Definition isnumeric_char (c : ascii) : bool :=
  let n := N_of_ascii c in
  isdecimal_char c
  || (n =? 178)%N || (n =? 179)%N || (n =? 185)%N
  || ((188 <=? n)%N && (n <=? 190)%N).

Fixpoint all_chars (p : ascii -> bool) (s : string) : bool :=
  match s with
  | EmptyString => true
  | String c s' => p c && all_chars p s'
  end.

(** [s.isnumeric()]: at least one character, and all of them numeric. *)
Definition isnumeric (s : string) : bool :=
  match s with
  | EmptyString => false
  | String _ _ => all_chars isnumeric_char s
  end.

(** [s.isdecimal()]. *)
Definition isdecimal (s : string) : bool :=
  match s with
  | EmptyString => false
  | String _ _ => all_chars isdecimal_char s
  end.

Definition digit_value (c : ascii) : Z := Z.of_N (N_of_ascii c) - 48.

Fixpoint digits_value (acc : Z) (s : string) : Z :=
  match s with
  | EmptyString => acc
  | String c s' => digits_value (10 * acc + digit_value c) s'
  end.

(** [int(s)] for a string on which [isnumeric] holds, the only strings
    [parse_crs] converts.  Such a string carries no sign, blank or
    underscore, so [int] accepts it exactly when every character is a
    decimal digit, and raises [ValueError] otherwise ([None] here).  The
    interpreter's configurable limit on the number of digits is not
    modelled. *)
Definition int_of_numeric (s : string) : option Z :=
  if isdecimal s then Some (digits_value 0 s) else None.

End PyStr.

(** ** Python objects passed as arguments *)

Section Values.
Variable CRS : Type.

(** The dynamically typed arguments the sources inspect with [isinstance],
    [is None] and [==].  [VObj] is an object of any other class, compared
    by [==] through its identifier; bool and float, which compare equal to
    ints, are not represented. *)
Inductive value : Type :=
| VNone
| VInt (z : Z)
| VStr (s : string)
| VCRS (c : CRS)
| VObj (id : N).

End Values.

Arguments VNone {CRS}.
Arguments VInt {CRS} z.
Arguments VStr {CRS} s.
Arguments VCRS {CRS} c.
Arguments VObj {CRS} id.

(** ** Point geometries *)

Record point : Type := Point { pt_x : float; pt_y : float; pt_z : option float }.

(** ** The projection library

    What the sources use of pyproj and of the CRS handling inside geopandas.
    [from_epsg] and [from_wkt] answer [None] where pyproj raises [CRSError];
    [transform src dst] is [Transformer.from_crs(src, dst, always_xy=True)]
    applied to one point; [crs_eq c v] is [c == v], which pyproj decides. *)
Class PyProj (CRS : Type) : Type := {
  from_epsg : Z -> option CRS;
  from_wkt : string -> option CRS;
  transform : CRS -> CRS -> point -> point;
  crs_eq : CRS -> value CRS -> bool
}.

(** ** Exceptions

    One constructor per [raise] of the sources and per library failure the
    model follows; the comment gives the Python class and the message. *)
Inductive exn : Type :=
(* coordinate_transform.py *)
| InTablePathMissing        (* ValueError("in_table_path does not exist.") *)
| InXSameAsInY              (* ValueError("in_x_field same as in_y_field") *)
| InXNotString              (* ValueError("in_x_field must be a string") *)
| InXNotInTable             (* ValueError("in_x_field does not exist in the input table") *)
| InYNotString              (* ValueError("in_y_field must be a string") *)
| InYNotInTable             (* ValueError("in_y_field does not exist in the input table") *)
| OutTablePathNotString     (* ValueError("out_table_path must be a string") *)
| OutXSameAsOutY            (* ValueError("out_x_field same as out_y_field") *)
| OutXNotString             (* ValueError("out_x_field must be a string") *)
| OutYNotString             (* ValueError("out_y_field must be a string") *)
| NotOverwritten            (* Exception('The original file will not be overwritten.') *)
(* ProjParser.py *)
| InvalidCoordinateSystem   (* ValueError("Invalid coordinate system. ...") *)
(* management.py *)
| InvalidInputTable         (* ValueError("Invalid input table. ...") *)
| XFieldMissing (f : string) (* ValueError(f"The x field '{x_field}' does not exist ...") *)
| YFieldMissing (f : string) (* ValueError(f"The y field '{y_field}' does not exist ...") *)
| ZFieldMissing (f : string) (* ValueError(f"The z field '{z_field}' does not exist ...") *)
| InvalidOutputFeatureClass (* ValueError("Invalid output feature class. ...") *)
| InvalidInputDataset       (* ValueError("Invalid input dataset. ...") *)
| InvalidOutputDataset      (* ValueError("Invalid output dataset. ...") *)
(* raised inside the interpreter and the libraries *)
| IntLiteralError (s : string) (* ValueError: invalid literal for int() with base 10 *)
| CRSError                  (* pyproj.exceptions.CRSError *)
| NaiveGeometries           (* ValueError("Cannot transform naive geometries. ...") *)
| NoGeometryColumn          (* AttributeError: no active geometry column / no attribute 'x' *)
| NotNumericColumn          (* numpy: could not convert the column to float64 *)
| FileNotFound              (* FileNotFoundError: no file at the path, or the empty path *)
| IsADirectory              (* IsADirectoryError: the path is a directory *)
| NoSuchDirectory           (* OSError: Cannot save file into a non-existent directory *)
| DriverError               (* fiona / pyogrio: the driver cannot read or write the dataset *)
| ParserError               (* the file does not hold what the reader expects *)
| CrsArgumentMissing        (* ValueError("Must pass either crs or epsg.") *)
| CrsMismatch               (* ValueError: the geometry already has another CRS *)
| KeyError (label : string) (* KeyError: no column with this label *)
| EOFError.                 (* input() at end of standard input *)

Inductive result (A : Type) : Type :=
| Ok (a : A)
| Raise (e : exn).

Arguments Ok {A} a.
Arguments Raise {A} e.

(** ** [parse_crs] (ProjParser.py) *)

Section ProjParser.
Context {CRS : Type} `{!PyProj CRS}.

Definition crs_or_error (o : option CRS) : result (option CRS) :=
  match o with
  | Some c => Ok (Some c)
  | None => Raise CRSError
  end.

(** The function returns a CRS object or [None]: [option CRS]. *)
Definition parse_crs (coordinate_system : value CRS) : result (option CRS) :=
  match coordinate_system with
  | VInt z => crs_or_error (from_epsg z)
  | VStr s =>
      if PyStr.isnumeric s then
        match PyStr.int_of_numeric s with
        | Some z => crs_or_error (from_epsg z)
        | None => Raise (IntLiteralError s)
        end
      else crs_or_error (from_wkt s)
  | VCRS c => Ok (Some c)
  | VNone => Ok None
  | VObj _ => Raise InvalidCoordinateSystem
  end.

End ProjParser.


(** ** Tables (pandas, geopandas)

    A table is its ordered list of named columns.  A column is a float
    column, a text column (object dtype, every cell a [str]), or a geometry
    column, which carries the CRS tag as geopandas' GeometryArray does.
    Integer columns are not told apart from float columns, and missing
    cells of a text column are not represented; pandas keeps every column
    of a table at the same length, which the model states as [rectangular]
    where a theorem needs it. *)

Section Tables.
Context {CRS : Type}.

Inductive column : Type :=
| NumCol (xs : list float)
| ObjCol (xs : list string)
| GeomCol (crs : option CRS) (pts : list point).

Definition DataFrame : Type := list (string * column).

Definition col_len (c : column) : nat :=
  match c with
  | NumCol xs => length xs
  | ObjCol xs => length xs
  | GeomCol _ pts => length pts
  end.

(** [df.columns] *)
Definition columns (df : DataFrame) : list string := map fst df.

(** [name in df.columns] *)
Definition has_column (name : string) (df : DataFrame) : bool :=
  existsb (String.eqb name) (columns df).

(** [df[name]] on a present label (the first column so named; labels read
    from a csv file are unique). *)
Fixpoint getitem (name : string) (df : DataFrame) : option column :=
  match df with
  | [] => None
  | (n, c) :: df' => if String.eqb name n then Some c else getitem name df'
  end.

Definition replace_column (name : string) (c : column) (df : DataFrame) : DataFrame :=
  map (fun nc => if String.eqb name (fst nc) then (fst nc, c) else nc) df.

(** [df[name] = c]: an existing label keeps its place and takes the new
    values; a new label is added after the last column. *)
Definition setitem (name : string) (c : column) (df : DataFrame) : DataFrame :=
  if has_column name df then replace_column name c df else (df ++ [(name, c)]).

(** What [df.drop(columns=[name])] keeps. *)
Definition drop_column (name : string) (df : DataFrame) : DataFrame :=
  List.filter (fun nc => negb (String.eqb name (fst nc))) df.

(** The labels after [df[name] = c], and after a drop. *)
Definition add_label (name : string) (labels : list string) : list string :=
  if existsb (String.eqb name) labels then labels else (labels ++ [name]).

Definition remove_label (name : string) (labels : list string) : list string :=
  List.filter (fun n => negb (String.eqb name n)) labels.

(** Number of rows, read off the first column. *)
Definition nrows (df : DataFrame) : nat :=
  match df with
  | [] => 0%nat
  | (_, c) :: _ => col_len c
  end.

Definition rectangular (n : nat) (df : DataFrame) : Prop :=
  Forall (fun nc => col_len (snd nc) = n) df.


Fixpoint zip_xy (xs ys : list float) : list point :=
  match xs, ys with
  | x :: xs', y :: ys' => Point x y None :: zip_xy xs' ys'
  | _, _ => []
  end.

Fixpoint zip_xyz (xs ys zs : list float) : list point :=
  match xs, ys, zs with
  | x :: xs', y :: ys', z :: zs' => Point x y (Some z) :: zip_xyz xs' ys' zs'
  | _, _, _ => []
  end.

(** [df['geometry'].x] and [.y]: only a geometry column has them. *)
Definition geometry_x (df : DataFrame) : result column :=
  match getitem "geometry" df with
  | Some (GeomCol _ pts) => Ok (NumCol (map pt_x pts))
  | Some _ => Raise NoGeometryColumn
  | None => Raise (KeyError "geometry")
  end.

Definition geometry_y (df : DataFrame) : result column :=
  match getitem "geometry" df with
  | Some (GeomCol _ pts) => Ok (NumCol (map pt_y pts))
  | Some _ => Raise NoGeometryColumn
  | None => Raise (KeyError "geometry")
  end.

(** [df.drop(columns=[name])]: an absent label is a [KeyError]. *)
Definition drop (name : string) (df : DataFrame) : result DataFrame :=
  if has_column name df then Ok (drop_column name df) else Raise (KeyError name).

(** [gdf.crs]: the tag of the active geometry column, named "geometry". *)
Definition gdf_crs (gdf : DataFrame) : option CRS :=
  match getitem "geometry" gdf with
  | Some (GeomCol crs _) => crs
  | _ => None
  end.

End Tables.

Arguments column : clear implicits.
Arguments DataFrame : clear implicits.

(** ** Python string methods used by PathParser.py and management.py

    As before a [string] is a Python [str] over code points below 256; a
    name with a code point from U+0100 on is outside the model. *)

Module Str.

Definition slash : ascii := ascii_of_N 47.
Definition backslash : ascii := ascii_of_N 92.
Definition dot : ascii := ascii_of_N 46.

(** [s.replace(a, b)] for one-character [a] and [b]. *)
Fixpoint replace_char (a b : ascii) (s : string) : string :=
  match s with
  | EmptyString => EmptyString
  | String c s' => String (if Ascii.eqb c a then b else c) (replace_char a b s')
  end.

(** [s.replace(a, "")] for a one-character [a]. *)
Fixpoint remove_char (a : ascii) (s : string) : string :=
  match s with
  | EmptyString => EmptyString
  | String c s' => if Ascii.eqb c a then remove_char a s' else String c (remove_char a s')
  end.

(** [c.lower()]: the upper-case letters below 256 are A..Z, U+00C0..U+00D6
    and U+00D8..U+00DE, each 32 below its lower-case letter. *)
Definition lower_char (c : ascii) : ascii :=
  let n := N_of_ascii c in
  if ((65 <=? n) && (n <=? 90) || (192 <=? n) && (n <=? 214)
      || (216 <=? n) && (n <=? 222))%N
  then ascii_of_N (n + 32) else c.

(** [s.lower()] *)
Fixpoint lower (s : string) : string :=
  match s with
  | EmptyString => EmptyString
  | String c s' => String (lower_char c) (lower s')
  end.

(** [s.split(sep)] for a one-character [sep]: never empty, and an empty
    piece for every separator at an end or next to another. *)
Fixpoint split (sep : ascii) (s : string) : list string :=
  match s with
  | EmptyString => [EmptyString]
  | String c s' =>
      if Ascii.eqb c sep then EmptyString :: split sep s'
      else match split sep s' with
           | piece :: pieces => String c piece :: pieces
           | [] => [String c EmptyString]
           end
  end.

(** [sep.join(pieces)] for a one-character [sep]. *)
Fixpoint join (sep : ascii) (pieces : list string) : string :=
  match pieces with
  | [] => EmptyString
  | [piece] => piece
  | piece :: rest => (piece ++ String sep (join sep rest))%string
  end.

(** [s[:n]] and [s[n:]] for [0 <= n]. *)
Fixpoint take (n : nat) (s : string) : string :=
  match n, s with
  | S n', String c s' => String c (take n' s')
  | _, _ => EmptyString
  end.

Fixpoint drop (n : nat) (s : string) : string :=
  match n, s with
  | S n', String _ s' => drop n' s'
  | _, _ => s
  end.

(** [s[:-k]] for [0 < k]: all but the last [k] characters, nothing when
    there are no more than [k]. *)
Definition strip_last (k : nat) (s : string) : string :=
  take (String.length s - k) s.

(** [s.rfind(c)]: the index of the last [c], or -1. *)
Fixpoint rfind (c : ascii) (s : string) : Z :=
  match s with
  | EmptyString => -1
  | String a s' =>
      let r := rfind c s' in
      if (0 <=? r)%Z then r + 1
      else if Ascii.eqb a c then 0 else -1
  end.

(** [s.rstrip(c)] for one character. *)
Fixpoint rstrip (c : ascii) (s : string) : string :=
  match s with
  | EmptyString => EmptyString
  | String a s' =>
      match rstrip c s' with
      | EmptyString => if Ascii.eqb a c then EmptyString else String a EmptyString
      | rest => String a rest
      end
  end.

Fixpoint all_are (c : ascii) (s : string) : bool :=
  match s with
  | EmptyString => true
  | String a s' => Ascii.eqb a c && all_are c s'
  end.

Fixpoint contains (c : ascii) (s : string) : bool :=
  match s with
  | EmptyString => false
  | String a s' => Ascii.eqb a c || contains c s'
  end.

End Str.

(** ** [os.path], in its POSIX form (posixpath)

    The functions of [os.path] that work on the text of a path alone.
    [os.path.abspath], which depends on the working directory, is taken
    from the environment. *)

Module OsPath.

(** [os.path.basename(p)]: what follows the last slash. *)
Definition basename (p : string) : string :=
  Str.drop (Z.to_nat (Str.rfind Str.slash p + 1)) p.

(** [os.path.dirname(p)]: what precedes the last slash, without trailing
    slashes unless it is made of slashes only. *)
Definition dirname (p : string) : string :=
  let head := Str.take (Z.to_nat (Str.rfind Str.slash p + 1)) p in
  if negb (String.eqb head "") && negb (Str.all_are Str.slash head)
  then Str.rstrip Str.slash head
  else head.

(** [os.path.splitext(p)]: the extension starts at the last dot, provided
    the dot comes after the last slash and after a character of the file
    name that is not a dot. *)
Definition splitext (p : string) : string * string :=
  let sepIndex := Str.rfind Str.slash p in
  let dotIndex := Str.rfind Str.dot p in
  if (sepIndex <? dotIndex)%Z then
    let name_start := Z.to_nat (sepIndex + 1) in
    let before_dot := Str.take (Z.to_nat dotIndex - name_start) (Str.drop name_start p) in
    if Str.all_are Str.dot before_dot then (p, "")
    else (Str.take (Z.to_nat dotIndex) p, Str.drop (Z.to_nat dotIndex) p)
  else (p, "").

End OsPath.


(** ** The file system

    Regular files (with their content) and directories, by absolute path.
    [abspath] is [os.path.abspath], taken from the environment, of which
    one fact is used: it never returns the empty string (it joins the
    path to the working directory).  A path names what its absolute form
    names (no links); the empty path names nothing. *)

Class Os : Type := {
  abspath : string -> string;
  abspath_nonempty : forall p, abspath p <> ""
}.

Record disk : Type := Disk {
  files : gmap string string;
  dirs : gset string
}.

Inductive os_exn : Type :=
(* PathParser.py *)
| CannotDetermineType      (* ValueError("Can't determine the type of the path ...") *)
| AlreadyDirectory         (* ValueError("The path is already existed, and it is a directory, not a file.") *)
| AlreadyFile              (* ValueError("The path is already existed, and it is a file, not a directory.") *)
| InvalidType              (* ValueError("Invalid type. It must be 'auto', 'file', or 'dir'.") *)
(* management.py *)
| InvalidInputFeatures     (* ValueError("Invalid input features. It must be a path to a shapefile(shp).") *)
| InvalidOutputFeatures    (* ValueError("Invalid output feature class. It must be a path to a shapefile(shp).") *)
| MissingFile (f : string) (* ValueError(f"Invalid input features. '{src_file}' missed.") *)
| InvalidInputRaster       (* ValueError("Invalid input raster. It must be a path to a tif file.") *)
| InvalidOutputRaster      (* ValueError("Invalid output raster. It must be a path to a tif file.") *)
(* raised by os and shutil *)
| FileNotFoundError
| FileExistsError
| IsADirectoryError
| NotADirectoryError
| SameFileError.

Inductive outcome (A : Type) : Type :=
| Done (a : A)
| Failed (e : os_exn).

Arguments Done {A} a.
Arguments Failed {A} e.

Section FileSystem.
Context `{!Os}.

(** The content of the regular file that [p] names, if it names one. *)
Definition contents (d : disk) (p : string) : option string :=
  if String.eqb p "" then None else files d !! abspath p.

(** [os.path.isfile(p)] and [os.path.isdir(p)] *)
Definition isfile (d : disk) (p : string) : bool :=
  match contents d p with
  | Some _ => true
  | None => false
  end.

Definition isdir (d : disk) (p : string) : bool :=
  negb (String.eqb p "") && bool_decide (abspath p ∈ dirs d).

(** The disk after the file that [p] names has been created or replaced. *)
Definition write_file (p content : string) (d : disk) : disk :=
  Disk (<[abspath p := content]> (files d)) (dirs d).

(** [os.remove(p)] *)
Definition os_remove (p : string) (d : disk) : outcome unit * disk :=
  match contents d p with
  | Some _ => (Done tt, Disk (delete (abspath p) (files d)) (dirs d))
  | None => (Failed (if isdir d p then IsADirectoryError else FileNotFoundError), d)
  end.

(** [os.path.join(a, b)] *)
Definition os_path_join (a b : string) : string :=
  match b with
  | String c _ =>
      if Ascii.eqb c Str.slash then b
      else if String.eqb a "" || String.eqb (Str.drop (String.length a - 1) a) "/"
           then (a ++ b)%string
           else (a ++ "/" ++ b)%string
  | EmptyString =>
      if String.eqb a "" || String.eqb (Str.drop (String.length a - 1) a) "/"
      then a else (a ++ "/")%string
  end.

(** [shutil.copy(src, dst)]: into [dst] when it is a directory, else onto
    it; the source must be a regular file other than the target, and the
    target's directory must exist. *)
Definition shutil_copy (src dst : string) (d : disk) : outcome unit * disk :=
  let dst := if isdir d dst then os_path_join dst (OsPath.basename src) else dst in
  match contents d src with
  | Some content =>
      if String.eqb dst "" then (Failed FileNotFoundError, d)
      else if String.eqb (abspath src) (abspath dst) then (Failed SameFileError, d)
      else if isdir d dst then (Failed IsADirectoryError, d)
      else if isdir d (OsPath.dirname (abspath dst))
           then (Done tt, write_file dst content d)
           else if isfile d (OsPath.dirname (abspath dst))
                then (Failed NotADirectoryError, d)
                else (Failed FileNotFoundError, d)
  | None => (Failed (if isdir d src then IsADirectoryError else FileNotFoundError), d)
  end.

End FileSystem.

(** ** The table libraries on text and on files

    What the sources use of pandas, numpy and geopandas beyond tables in
    memory.  [float_of_str s] is [float(s)], which numpy applies to each
    cell of a text column it is asked to convert, [None] where it raises
    [ValueError].  [parse_csv p text] is the table [pd.read_csv(p)] builds
    from a file with this content, [None] where it raises; [csv_text p df]
    is what [df.to_csv(p, index=False)] writes (pandas chooses a
    compression from the ending of the path).  [dataset_read d p] is
    [gpd.read_file(p)] on the disk [d], and [dataset_write gdf p driver d]
    is [gdf.to_file(p, driver=driver)]: the result and the disk it leaves,
    whatever files the driver writes beside [p].  Nothing is assumed of
    these five. *)
Class TableLib (CRS : Type) : Type := {
  float_of_str : string -> option float;
  parse_csv : string -> string -> option (DataFrame CRS);
  csv_text : string -> DataFrame CRS -> string;
  dataset_read : disk -> string -> result (DataFrame CRS);
  dataset_write : DataFrame CRS -> string -> option string -> disk -> result unit * disk
}.

Section Conversion.
Context {CRS : Type} `{!TableLib CRS}.

Fixpoint floats_of_cells (cells : list string) : option (list float) :=
  match cells with
  | [] => Some []
  | cell :: rest =>
      match float_of_str cell, floats_of_cells rest with
      | Some x, Some xs => Some (x :: xs)
      | _, _ => None
      end
  end.

(** [numpy.asarray(col, dtype="float64")], as [points_from_xy] applies it:
    a float column as it is; a text column cell by cell through [float],
    failing when one cell is refused; a geometry column never. *)
Definition to_float64 (c : column CRS) : option (list float) :=
  match c with
  | NumCol xs => Some xs
  | ObjCol cells => floats_of_cells cells
  | GeomCol _ _ => None
  end.

End Conversion.

(** ** The disk, the console and the order of I/O calls *)

Inductive event : Type :=
| EvIsFile (p : string)           (* os.path.isfile(p) *)
| EvReadCsv (p : string)          (* pd.read_csv(p) *)
| EvReadFile (p : string)         (* gpd.read_file(p) *)
| EvToCsv (p : string)            (* df.to_csv(p, index=False) *)
| EvToFile (p : string)           (* gdf.to_file(p) *)
| EvPrint (msg : string)          (* print(msg) *)
| EvInput.                        (* input() *)

Record world : Type := World {
  fs : disk;                      (* regular files and directories *)
  stdin : list string;            (* the lines still to be read *)
  trace : list event              (* calls made so far, oldest first *)
}.

(** ** The monad: state over [world], exceptions as [Raise] *)

Definition M (A : Type) : Type := world -> result A * world.

Definition ret {A} (a : A) : M A := fun w => (Ok a, w).

Definition raise {A} (e : exn) : M A := fun w => (Raise e, w).

Definition bind {A B} (m : M A) (k : A -> M B) : M B :=
  fun w =>
    match m w with
    | (Ok a, w') => k a w'
    | (Raise e, w') => (Raise e, w')
    end.

Definition lift {A} (r : result A) : M A := fun w => (r, w).

Definition log (e : event) (w : world) : world :=
  World (fs w) (stdin w) (trace w ++ [e]).

Notation "'let!' x ':=' m 'in' k" := (bind m (fun x => k))
  (at level 10, x name, m at level 100, k at level 200).
Notation "'do!' m 'in' k" := (bind m (fun _ => k))
  (at level 10, m at level 100, k at level 200).

(** ** I/O primitives *)

Section IO.
Context {CRS : Type} `{!Os} `{!TableLib CRS}.

(** [os.path.isfile(p)] *)
Definition os_path_isfile (p : string) : M bool :=
  fun w => (Ok (isfile (fs w) p), log (EvIsFile p) w).

(** [pd.read_csv(p)] *)
Definition read_csv (p : string) : M (DataFrame CRS) :=
  fun w =>
    (match contents (fs w) p with
     | Some text =>
         match parse_csv p text with
         | Some t => Ok t
         | None => Raise ParserError
         end
     | None => Raise (if isdir (fs w) p then IsADirectory else FileNotFound)
     end, log (EvReadCsv p) w).

(** [gpd.read_file(p)] *)
Definition read_file (p : string) : M (DataFrame CRS) :=
  fun w => (dataset_read (fs w) p, log (EvReadFile p) w).

(** [df.to_csv(p, index=False)]: the file at [p] is created or replaced
    by the csv text of the table.  A regular file that is there is opened
    and replaced; a new file needs a path that is not empty and is no
    directory, in a directory that exists.  pandas checks the directory
    and opens the file before it writes, so a call that raises for one of
    these reasons leaves the disk as it was. *)
Definition to_csv (df : DataFrame CRS) (p : string) : M unit :=
  fun w =>
    let d := fs w in
    let written := World (write_file p (csv_text p df) d) (stdin w) (trace w ++ [EvToCsv p]) in
    match contents d p with
    | Some _ => (Ok tt, written)
    | None =>
        if String.eqb p "" then (Raise FileNotFound, log (EvToCsv p) w)
        else if negb (isdir d (OsPath.dirname (abspath p)))
             then (Raise NoSuchDirectory, log (EvToCsv p) w)
             else if isdir d p then (Raise IsADirectory, log (EvToCsv p) w)
                  else (Ok tt, written)
    end.

(** [gdf.to_file(p, driver=driver)]; the encoding that [XYTableToPoint]
    also passes is part of what the driver does. *)
Definition to_file (gdf : DataFrame CRS) (p : string) (driver : option string) : M unit :=
  fun w =>
    let (r, d') := dataset_write gdf p driver (fs w) in
    (r, World d' (stdin w) (trace w ++ [EvToFile p])).

(** [print(msg)] *)
Definition print (msg : string) : M unit :=
  fun w => (Ok tt, log (EvPrint msg) w).

(** [input()]: the next line of standard input without its newline. *)
Definition input : M string :=
  fun w =>
    match stdin w with
    | [] => (Raise EOFError, log EvInput w)
    | line :: rest => (Ok line, World (fs w) rest (trace w ++ [EvInput]))
    end.

End IO.

(** ** [XYTableToPoint] and [Project] (management.py) *)

Section Management.
Context {CRS : Type} `{!PyProj CRS} `{!Os} `{!TableLib CRS}.

(** [in_table]: a path, a pandas DataFrame, or an object of another class. *)
Inductive table_arg : Type :=
| TablePath (p : string)
| TableFrame (df : DataFrame CRS)
| TableOther.

(** [in_dataset]: a path, a GeoDataFrame, or an object of another class
    (a plain pandas DataFrame is one of those). *)
Inductive dataset_arg : Type :=
| DatasetPath (p : string)
| DatasetGeoFrame (gdf : DataFrame CRS)
| DatasetOther.

Definition getitem_or_raise (name : string) (df : DataFrame CRS) : result (column CRS) :=
  match getitem name df with
  | Some c => Ok c
  | None => Raise (KeyError name)
  end.

(** [gpd.points_from_xy(x, y)] and [gpd.points_from_xy(x, y, z)] *)
Definition points_from_xy (x y : column CRS) (z : option (column CRS)) : result (list point) :=
  match to_float64 x, to_float64 y, z with
  | Some xs, Some ys, None => Ok (zip_xy xs ys)
  | Some xs, Some ys, Some zc =>
      match to_float64 zc with
      | Some zs => Ok (zip_xyz xs ys zs)
      | None => Raise NotNumericColumn
      end
  | _, _, _ => Raise NotNumericColumn
  end.

(** [gpd.GeoDataFrame(df, geometry=pts)]: the points become the column
    "geometry", untagged, replacing a column of that name. *)
Definition GeoDataFrame (df : DataFrame CRS) (pts : list point) : DataFrame CRS :=
  setitem "geometry" (GeomCol None pts) df.

(** [gdf.set_crs(crs=crs)] *)
Definition set_crs (gdf : DataFrame CRS) (crs : option CRS) : result (DataFrame CRS) :=
  match crs with
  | None => Raise CrsArgumentMissing
  | Some c =>
      match getitem "geometry" gdf with
      | Some (GeomCol None pts) => Ok (setitem "geometry" (GeomCol (Some c) pts) gdf)
      | Some (GeomCol (Some c0) pts) =>
          if crs_eq c0 (VCRS c)
          then Ok (setitem "geometry" (GeomCol (Some c) pts) gdf)
          else Raise CrsMismatch
      | _ => Raise NoGeometryColumn
      end
  end.

(** [gdf.to_crs(crs=crs)]: every point goes through the library's
    transformation from the current CRS; an untagged geometry is refused. *)
Definition to_crs (gdf : DataFrame CRS) (crs : option CRS) : result (DataFrame CRS) :=
  match crs with
  | None => Raise CrsArgumentMissing
  | Some c =>
      match getitem "geometry" gdf with
      | Some (GeomCol None _) => Raise NaiveGeometries
      | Some (GeomCol (Some src) pts) =>
          Ok (setitem "geometry" (GeomCol (Some c) (map (transform src c) pts)) gdf)
      | _ => Raise NoGeometryColumn
      end
  end.

Definition XYTableToPoint (in_table : table_arg) (out_feature_class : value CRS)
    (x_field y_field : string) (z_field : option string)
    (coordinate_system : value CRS) : M (DataFrame CRS) :=
  let! df := match in_table with
             | TablePath p => read_csv p
             | TableFrame df => ret df
             | TableOther => raise InvalidInputTable
             end in
  if negb (has_column x_field df) then raise (XFieldMissing x_field) else
  if negb (has_column y_field df) then raise (YFieldMissing y_field) else
  do! match z_field with
      | Some zf => if negb (has_column zf df) then raise (ZFieldMissing zf) else ret tt
      | None => ret tt
      end in
  let! pts := match z_field with
              | Some zf =>
                  let! x := lift (getitem_or_raise x_field df) in
                  let! y := lift (getitem_or_raise y_field df) in
                  let! z := lift (getitem_or_raise zf df) in
                  lift (points_from_xy x y (Some z))
              | None =>
                  let! x := lift (getitem_or_raise x_field df) in
                  let! y := lift (getitem_or_raise y_field df) in
                  lift (points_from_xy x y None)
              end in
  let gdf := GeoDataFrame df pts in
  let! gdf := match coordinate_system with
              | VNone => ret gdf
              | _ => let! crs := lift (parse_crs coordinate_system) in
                     lift (set_crs gdf crs)
              end in
  do! match out_feature_class with
      | VStr p => to_file gdf p (Some "ESRI Shapefile")
      | VNone => ret tt
      | _ => raise InvalidOutputFeatureClass
      end in
  ret gdf.

Definition Project_warning : string :=
  "Warning: The output coordinate system is not specified. The output dataset will same as the input dataset.".

Definition Project (in_dataset : dataset_arg) (out_dataset : value CRS)
    (out_coor_system : value CRS) : M (DataFrame CRS) :=
  let! gdf := match in_dataset with
              | DatasetPath p => read_file p
              | DatasetGeoFrame gdf => ret gdf
              | DatasetOther => raise InvalidInputDataset
              end in
  let! gdf := match out_coor_system with
              | VNone => do! print Project_warning in ret gdf
              | _ => let! crs := lift (parse_crs out_coor_system) in
                     lift (to_crs gdf crs)
              end in
  do! match out_dataset with
      | VStr p => to_file gdf p None
      | VNone => ret tt
      | _ => raise InvalidOutputDataset
      end in
  ret gdf.

End Management.

Arguments table_arg : clear implicits.
Arguments dataset_arg : clear implicits.

(** ** [coordinate_transform] (coordinate_transform.py) *)

Section CoordinateTransform.
Context {CRS : Type} `{!PyProj CRS} `{!Os} `{!TableLib CRS}.

(** [a == b] on argument objects.  A CRS handle decides the comparison
    itself, on either side; other classes are equal to their own kind only. *)
Definition py_eq (a b : value CRS) : bool :=
  match a, b with
  | VCRS c, _ => crs_eq c b
  | _, VCRS c => crs_eq c a
  | VNone, VNone => true
  | VInt x, VInt y => Z.eqb x y
  | VStr s, VStr t => String.eqb s t
  | VObj i, VObj j => N.eqb i j
  | _, _ => false
  end.

(** The object [parse_crs] returned, passed on as an argument. *)
Definition crs_value (o : option CRS) : value CRS :=
  match o with
  | Some c => VCRS c
  | None => VNone
  end.

Definition esc : string := String (ascii_of_N 27) "".

(** The text printed at line 98, between the escape codes of yellow. *)
Definition overwrite_warning : string :=
  (esc ++ "[33m"
   ++ "Warning: The output table path is the same as the input table path. Are you sure you want to overwrite? (Y/n)"
   ++ esc ++ "[0m")%string.

(** Lines 25 to 91: check the arguments, read the table, build the points,
    project them and write their coordinates into the output fields. *)
Definition transform_table (in_table_path : string)
    (in_x_field in_y_field in_crs out_table_path out_x_field out_y_field out_crs : value CRS)
    : M (DataFrame CRS) :=
  let! isfile := os_path_isfile in_table_path in
  if negb isfile then raise InTablePathMissing else
  let! df := read_csv in_table_path in
  if py_eq in_x_field in_y_field then raise InXSameAsInY else
  let! x := match in_x_field with VStr f => ret f | _ => raise InXNotString end in
  if negb (has_column x df) then raise InXNotInTable else
  let! y := match in_y_field with VStr f => ret f | _ => raise InYNotString end in
  if negb (has_column y df) then raise InYNotInTable else
  let! in_crs := lift (parse_crs in_crs) in
  do! match out_table_path with
      | VNone => ret tt
      | VStr _ => ret tt
      | _ => raise OutTablePathNotString
      end in
  if py_eq out_x_field out_y_field then raise OutXSameAsOutY else
  let! ox := match out_x_field with VStr f => ret f | _ => raise OutXNotString end in
  let! oy := match out_y_field with VStr f => ret f | _ => raise OutYNotString end in
  let! out_crs := lift (parse_crs out_crs) in
  let! df := XYTableToPoint (TableFrame df) VNone x y None (crs_value in_crs) in
  let! df := Project (DatasetGeoFrame df) VNone (crs_value out_crs) in
  let! xs := lift (geometry_x df) in
  let df := setitem ox xs df in
  let! ys := lift (geometry_y df) in
  let df := setitem oy ys df in
  lift (drop "geometry" df).

(** Lines 93 to 105: save the table.  Line 54 has let only [None] and
    strings through. *)
Definition save_table (df : DataFrame CRS) (in_table_path : string)
    (out_table_path : value CRS) : M unit :=
  match out_table_path with
  | VNone => ret tt
  | VStr out_path =>
      if String.eqb out_path in_table_path then
        do! print overwrite_warning in
        let! line := input in
        if String.eqb line "Y" then to_csv df out_path
        else raise NotOverwritten
      else to_csv df out_path
  | _ => raise OutTablePathNotString
  end.

Definition coordinate_transform (in_table_path : string)
    (in_x_field in_y_field in_crs out_table_path out_x_field out_y_field out_crs : value CRS)
    : M (DataFrame CRS) :=
  let! df := transform_table in_table_path in_x_field in_y_field in_crs
               out_table_path out_x_field out_y_field out_crs in
  do! save_table df in_table_path out_table_path in
  ret df.

End CoordinateTransform.

(** ** Vocabulary of the statements *)


(** The calls that neither write a file nor read the console. *)
Definition looks_only (ev : event) : bool :=
  match ev with
  | EvIsFile _ | EvReadCsv _ | EvReadFile _ | EvPrint _ => true
  | _ => false
  end.

(** A computation that leaves the disk and the pending input as they are,
    whatever it returns or raises, and only adds [looks_only] calls. *)
Definition quiet {A : Type} (m : M A) : Prop :=
  forall w, exists evs,
    snd (m w) = World (fs w) (stdin w) (trace w ++ evs) /\
    forallb looks_only evs = true.

(** ** Lines 88 to 91 of coordinate_transform.py on their own *)

(** The coordinates of the geometry go to the output fields, then the
    geometry column is dropped: [df[ox] = df['geometry'].x],
    [df[oy] = df['geometry'].y], [df.drop(columns=['geometry'])]. *)
Definition flatten {CRS : Type} (ox oy : string) (df : DataFrame CRS)
    : result (DataFrame CRS) :=
  match geometry_x df with
  | Ok xs =>
      let df := setitem ox xs df in
      match geometry_y df with
      | Ok ys => drop "geometry" (setitem oy ys df)
      | Raise e => Raise e
      end
  | Raise e => Raise e
  end.

(** ** [Path] (PathParser.py) *)

Module PathParser.

Inductive path_type : Type := Dir | File.

Record Path : Type := { path : string; type : path_type }.

Section Methods.
Context `{!Os}.

(** [Path(path, type)]: [type] is "auto", "file" or "dir". *)
Definition init (d : disk) (path : string) (type : string) : outcome Path :=
  let path := Str.replace_char Str.backslash Str.slash path in
  if String.eqb type "auto" then
    if isdir d path then Done {| path := path; type := Dir |}
    else if isfile d path then Done {| path := path; type := File |}
    else Failed CannotDetermineType
  else if String.eqb type "file" then
    if isfile d path then Done {| path := path; type := File |}
    else if isdir d path then Failed AlreadyDirectory
    else Done {| path := path; type := File |}
  else if String.eqb type "dir" then
    if isdir d path then Done {| path := path; type := Dir |}
    else if isfile d path then Failed AlreadyFile
    else Done {| path := path; type := Dir |}
  else Failed InvalidType.

Definition abs_path (self : Path) : string := abspath (path self).

Definition is_dir (self : Path) : bool :=
  match type self with Dir => true | File => false end.

Definition is_file (self : Path) : bool :=
  match type self with File => true | Dir => false end.

Definition abs_parent_dir (self : Path) : string := OsPath.dirname (abs_path self).

Definition name (self : Path) : string := OsPath.basename (abs_path self).

Definition main_name (self : Path) : string :=
  fst (OsPath.splitext (OsPath.basename (abs_path self))).

(** For a directory the property returns a warning text, not an
    extension. *)
Definition extension (self : Path) : string :=
  if is_dir self then
    (esc ++ "[33mWARNING, '" ++ abs_path self ++ "' is directory" ++ esc ++ "[0m")%string
  else
    Str.lower (Str.remove_char Str.dot (snd (OsPath.splitext (name self)))).

Definition is_existed_file (d : disk) (self : Path) : bool :=
  if is_dir self then false else isfile d (abs_path self).

Definition is_existed_dir (d : disk) (self : Path) : bool :=
  if is_dir self then isdir d (abs_path self) else false.

Definition is_existed (d : disk) (self : Path) : bool :=
  if is_existed_file d self || is_existed_dir d self then true else false.

(** [l[:k]] for an int [k], negative [k] counting from the end. *)
Definition slice_to {A} (k : Z) (l : list A) : list A :=
  if (0 <=? k)%Z then firstn (Z.to_nat k) l
  else firstn (Z.to_nat (Z.of_nat (length l) + k)) l.

(** [path_list.pop()] on a list that is not empty. *)
Definition pop {A} (l : list A) : list A := removelast l.

Definition get_nth_parent_dir (self : Path) (n : Z) : option string :=
  let path_list := Str.split Str.slash (abs_path self) in
  let path_list := if is_file self then pop path_list else path_list in
  if (n <? Z.of_nat (length path_list))%Z
  then Some (Str.join Str.slash (slice_to (n + 1) path_list))
  else None.

Definition get_parent_dir_num (self : Path) : Z :=
  Z.of_nat (length (Str.split Str.slash (abs_path self))) - 1.

End Methods.

End PathParser.

(** ** [mkdirs] (PathParser.py) and the copy and delete tools of
    lib/coordinate_transform/GIS/management.py *)

Section FileTools.
Context `{!Os}.

Definition F (A : Type) : Type := disk -> outcome A * disk.

Definition done {A} (a : A) : F A := fun d => (Done a, d).

Definition fail {A} (e : os_exn) : F A := fun d => (Failed e, d).

Definition and_then {A B} (m : F A) (k : A -> F B) : F B :=
  fun d =>
    match m d with
    | (Done a, d') => k a d'
    | (Failed e, d') => (Failed e, d')
    end.

(** [Path(path, type)] in the current state of the disk. *)
Definition new_Path (path type : string) : F PathParser.Path :=
  fun d => (PathParser.init d path type, d).

(** The paths from the root down to [a], for an absolute [a]. *)
Fixpoint paths_down (prefix : string) (pieces : list string) : list string :=
  match pieces with
  | [] => []
  | piece :: rest =>
      let q := (prefix ++ "/" ++ piece)%string in
      q :: paths_down q rest
  end.

Definition ancestors_and_self (a : string) : list string :=
  paths_down "" (tl (Str.split Str.slash a)).

(** [os.makedirs(p)]: the directory and its missing parents are created;
    an existing target is an error, and so is a regular file on the way. *)
Definition os_makedirs (p : string) : F unit :=
  fun d =>
    if String.eqb p "" then (Failed FileNotFoundError, d)
    else if isfile d p || isdir d p then (Failed FileExistsError, d)
    else if existsb (isfile d) (ancestors_and_self (abspath p))
         then (Failed NotADirectoryError, d)
         else (Done tt, Disk (files d) (dirs d ∪ list_to_set (ancestors_and_self (abspath p)))).

Definition mkdirs (self : PathParser.Path) : F unit :=
  fun d =>
    let is_existed := PathParser.is_existed d self in
    if PathParser.is_dir self && negb is_existed
    then os_makedirs (PathParser.abs_path self) d
    else if PathParser.is_file self && negb is_existed
         then os_makedirs (PathParser.abs_parent_dir self) d
         else (Done tt, d).

(** [for src_file in required_files.keys(): if not Path(src_file,
    type="file").is_existed_file: raise ...] *)
Fixpoint check_required (keys : list string) : F unit :=
  match keys with
  | [] => done tt
  | src_file :: rest =>
      and_then (new_Path src_file "file") (fun pth =>
      fun d =>
        if negb (PathParser.is_existed_file d pth) then (Failed (MissingFile src_file), d)
        else check_required rest d)
  end.

(** [for src_file, dst_file in required_files.items(): shutil.copy(...)] *)
Fixpoint copy_all (pairs : list (string * string)) : F unit :=
  match pairs with
  | [] => done tt
  | (src_file, dst_file) :: rest =>
      and_then (shutil_copy src_file dst_file) (fun _ => copy_all rest)
  end.

(** [for src_file, dst_file in optional_files.items(): if Path(src_file,
    type="file").is_existed_file: shutil.copy(...)] *)
Fixpoint copy_existing (pairs : list (string * string)) : F unit :=
  match pairs with
  | [] => done tt
  | (src_file, dst_file) :: rest =>
      and_then (new_Path src_file "file") (fun pth =>
      fun d =>
        if PathParser.is_existed_file d pth
        then and_then (shutil_copy src_file dst_file) (fun _ => copy_existing rest) d
        else copy_existing rest d)
  end.

(** [for delete_file in delete_files: if Path(delete_file,
    type="file").is_existed_file: os.remove(delete_file)] *)
Fixpoint remove_existing (delete_files : list string) : F unit :=
  match delete_files with
  | [] => done tt
  | delete_file :: rest =>
      and_then (new_Path delete_file "file") (fun pth =>
      fun d =>
        if PathParser.is_existed_file d pth
        then and_then (os_remove delete_file) (fun _ => remove_existing rest) d
        else remove_existing rest d)
  end.

(** [abs_path[:-4] + suffix] *)
Definition sibling (abs suffix : string) : string :=
  (Str.strip_last 4 abs ++ suffix)%string.

(** The pair of a source and a target with the same suffix put on both. *)
Definition beside (s t suffix : string) : string * string :=
  (sibling s suffix, sibling t suffix).

Definition shp_optional_suffixes : list string :=
  [".prj"; ".sbn"; ".sbx"; ".fbn"; ".fbx"; ".ain"; ".aih"; ".ixs"; ".mxs"; ".cpg";
   ".shp.xml"].

Definition tif_optional_suffixes : list string :=
  [".tfw"; ".tif.aux.xml"; ".tif.ovr"; ".tif.xml"].

Definition CopyFeatures (in_features out_feature_class : string) : F unit :=
  and_then (new_Path in_features "file") (fun src =>
  and_then (new_Path out_feature_class "file") (fun dst =>
  fun d =>
    let src_is_shp := String.eqb (PathParser.extension src) "shp" in
    let dst_is_shp := String.eqb (PathParser.extension dst) "shp" in
    let src_is_existed_file := PathParser.is_existed_file d src in
    if negb src_is_shp || negb src_is_existed_file then (Failed InvalidInputFeatures, d)
    else if negb dst_is_shp then (Failed InvalidOutputFeatures, d)
    else
      let s := PathParser.abs_path src in
      let t := PathParser.abs_path dst in
      let required_files := [(s, t); (sibling s ".shx", sibling t ".shx");
                             (sibling s ".dbf", sibling t ".dbf")] in
      let optional_files :=
        map (fun suffix => (sibling s suffix, sibling t suffix)) shp_optional_suffixes in
      and_then (check_required (map fst required_files)) (fun _ =>
      and_then (copy_all required_files) (fun _ =>
      copy_existing optional_files)) d)).

Definition CopyRaster (in_raster out_rasterdataset : string) : F unit :=
  and_then (new_Path in_raster "file") (fun src =>
  and_then (new_Path out_rasterdataset "file") (fun dst =>
  fun d =>
    let src_is_tif := String.eqb (PathParser.extension src) "tif" in
    let dst_is_tif := String.eqb (PathParser.extension dst) "tif" in
    if negb src_is_tif || negb (PathParser.is_existed_file d src)
    then (Failed InvalidInputRaster, d)
    else if negb dst_is_tif then (Failed InvalidOutputRaster, d)
    else
      let s := PathParser.abs_path src in
      let t := PathParser.abs_path dst in
      let required_files := [(s, t)] in
      let optional_files :=
        map (fun suffix => (sibling s suffix, sibling t suffix)) tif_optional_suffixes in
      and_then (copy_all required_files) (fun _ =>
      copy_existing optional_files) d)).

Definition shp_family (abs : string) : list string :=
  abs :: map (sibling abs)
           ([".shx"; ".dbf"] ++ shp_optional_suffixes).

Definition tif_family (abs : string) : list string :=
  abs :: map (sibling abs) tif_optional_suffixes.

Definition Delete (in_data : string) : F unit :=
  and_then (new_Path in_data "file") (fun delete_path =>
    let delete_path_is_shp := String.eqb (PathParser.extension delete_path) "shp" in
    let delete_path_is_tif := String.eqb (PathParser.extension delete_path) "tif" in
    if delete_path_is_shp
    then remove_existing (shp_family (PathParser.abs_path delete_path))
    else if delete_path_is_tif
         then remove_existing (tif_family (PathParser.abs_path delete_path))
         else done tt).

End FileTools.

(** What a source and a target must be for a copy to go through: neither
    is the empty path, the source path has no backslash and is no
    directory, and the target is no directory, in a directory that
    exists. *)
Definition copyable `{!Os} (d : disk) (pair : string * string) : Prop :=
  fst pair <> "" /\ snd pair <> "" /\
  Str.contains Str.backslash (fst pair) = false /\
  isdir d (fst pair) = false /\
  isdir d (snd pair) = false /\
  isdir d (OsPath.dirname (abspath (snd pair))) = true.

(** What the target of a pair holds afterwards: the content of the source
    when there was one, else what it held. *)
Definition copied `{!Os} (d d' : disk) (pair : string * string) : Prop :=
  files d' !! abspath (snd pair) =
    match files d !! abspath (fst pair) with
    | Some content => Some content
    | None => files d !! abspath (snd pair)
    end.

(** The errors that come from [os] and [shutil], not from the tools. *)
Definition os_error (e : os_exn) : Prop :=
  e = FileNotFoundError \/ e = IsADirectoryError \/ e = NotADirectoryError \/
  e = SameFileError.

(** A small instance of the environment: the working directory is the
    root, and paths are written without "." and ".." *)
Module TestOs.

Definition absolute (p : string) : string :=
  match p with
  | String c _ => if Ascii.eqb c Str.slash then p else String Str.slash p
  | EmptyString => "/"
  end.

#[global] Instance os : Os :=
  {| abspath := absolute;
     abspath_nonempty :=
       ltac:(intros [| c p]; simpl;
             [discriminate | destruct (Ascii.eqb c Str.slash); discriminate]) |}.

(** A shapefile with its index, its table and its projection, a raster,
    and a directory that is empty. *)
Definition shelf : disk :=
  Disk {[ "/data/roads.shp" := "shp-bytes"; "/data/roads.shx" := "shx-bytes";
          "/data/roads.dbf" := "dbf-bytes"; "/data/roads.prj" := "prj-bytes";
          "/data/dem.tif" := "tif-bytes"; "/data/notes.txt" := "text" ]}
       {[ "/"; "/data"; "/out" ]}.

(** The same environment with a working directory whose name holds a
    backslash, and a shapefile in it. *)
Definition odd_cwd : string := String Str.slash (String "w" (String Str.backslash "d")).

Definition absolute_odd (p : string) : string :=
  match p with
  | String c _ => if Ascii.eqb c Str.slash then p else (odd_cwd ++ String Str.slash p)%string
  | EmptyString => odd_cwd
  end.

Definition odd : Os :=
  {| abspath := absolute_odd;
     abspath_nonempty :=
       ltac:(intros [| c p]; simpl;
             [discriminate | destruct (Ascii.eqb c Str.slash); discriminate]) |}.

Definition odd_shelf : disk :=
  Disk {[ (odd_cwd ++ "/roads.shp")%string := "shp-bytes";
          (odd_cwd ++ "/roads.shx")%string := "shx-bytes";
          (odd_cwd ++ "/roads.dbf")%string := "dbf-bytes" ]}
       {[ "/"; odd_cwd; "/out" ]}.

End TestOs.

(** ** A small instance of the libraries

    Enough to run the functions on concrete calls.  The projection library
    is a registry of two authority codes and one well-known text:
    EPSG:4326 and EPSG:3857 are registered; no other code is.  The table
    library knows the numbers written in decimal digits, reads the two csv
    texts below, writes a table as a header line and one line per row, and
    keeps a dataset in one file that it cannot read back. *)

Module TestLib.

Inductive crs : Type := WGS84 | WebMercator.

Definition crs_eqb (a b : crs) : bool :=
  match a, b with
  | WGS84, WGS84 | WebMercator, WebMercator => true
  | _, _ => false
  end.

Definition epsg (code : Z) : option crs :=
  if (code =? 4326)%Z then Some WGS84
  else if (code =? 3857)%Z then Some WebMercator
  else None.

Definition quote : string := String (ascii_of_N 34) "".

(** [GEOGCS["WGS 84"]], standing for the full text of EPSG:4326. *)
Definition wgs84_wkt : string := ("GEOGCS[" ++ quote ++ "WGS 84" ++ quote ++ "]")%string.

Definition wkt (text : string) : option crs :=
  if String.eqb text wgs84_wkt then Some WGS84 else None.

(** Equal source and target leave a point as it is; any other pair moves
    it (the actual formula plays no part in what is proved). *)
Definition move (src dst : crs) (p : point) : point :=
  if crs_eqb src dst then p
  else Point (pt_x p * 2)%float (pt_y p * 2)%float (pt_z p).

Definition equals (c : crs) (v : value crs) : bool :=
  match v with
  | VCRS c' => crs_eqb c c'
  | VInt code => match epsg code with Some c' => crs_eqb c c' | None => false end
  | VStr text => match wkt text with Some c' => crs_eqb c c' | None => false end
  | _ => false
  end.

#[global] Instance pyproj : PyProj crs :=
  {| from_epsg := epsg; from_wkt := wkt; transform := move; crs_eq := equals |}.

(** A table like [example1_input.csv]: columns x and y, one row. *)
Definition example_table : DataFrame crs :=
  [("x", NumCol [121.75%float]); ("y", NumCol [25.0625%float])].

(** What the call of [example_table] from EPSG:3857 to EPSG:4326 into the
    fields lon and lat computes. *)
Definition example_output : DataFrame crs :=
  [("x", NumCol [121.75%float]); ("y", NumCol [25.0625%float]);
   ("lon", NumCol [243.5%float]); ("lat", NumCol [50.125%float])].

(** A table that also has a column named "geometry" and a text column. *)
Definition table_with_geometry : DataFrame crs :=
  [("x", NumCol [1%float]); ("geometry", ObjCol ["POINT (1 2)"]);
   ("y", NumCol [2%float]); ("name", ObjCol ["a"])].

(** A table whose x column is text that [float] accepts. *)
Definition table_with_text : DataFrame crs :=
  [("x", ObjCol ["1_000"; "3"]); ("y", NumCol [2%float; 4%float])].

Definition nl : string := String (ascii_of_N 10) "".

Definition example_csv : string :=
  ("x,y" ++ nl ++ "121.75,25.0625" ++ nl)%string.

Definition geometry_csv : string :=
  ("x,geometry,y,name" ++ nl ++ "1,POINT (1 2),2,a" ++ nl)%string.

Definition text_csv : string :=
  ("x,y" ++ nl ++ "1_000,2" ++ nl ++ "3,4" ++ nl)%string.

Definition read_text (text : string) : option (DataFrame crs) :=
  if String.eqb text example_csv then Some example_table
  else if String.eqb text geometry_csv then Some table_with_geometry
  else if String.eqb text text_csv then Some table_with_text
  else None.

(** Digits, with single underscores between them as [float] allows. *)
Fixpoint grouped_digits (after_digit : bool) (s : string) : bool :=
  match s with
  | EmptyString => after_digit
  | String c s' =>
      if PyStr.isdecimal_char c then grouped_digits true s'
      else Ascii.eqb c (ascii_of_N 95) && after_digit && grouped_digits false s'
  end.

Definition float_of_digits (s : string) : option float :=
  if grouped_digits false s then
    let n := PyStr.digits_value 0 (Str.remove_char (ascii_of_N 95) s) in
    if (n <? 2 ^ 53)%Z then Some (PrimFloat.of_uint63 (Uint63.of_Z n)) else None
  else None.

(** A float as its mantissa and exponent in decimal: [m] "p" [e] for
    m * 2^e. *)
Definition decimal (z : Z) : string := NilZero.string_of_int (Z.to_int z).

Definition float_text (x : float) : string :=
  match Prim2SF x with
  | S754_zero _ => "0"
  | S754_infinity s => if s then "-inf" else "inf"
  | S754_nan => "nan"
  | S754_finite s m e =>
      ((if s then "-" else "") ++ decimal (Z.pos m) ++ "p" ++ decimal e)%string
  end.

Definition cell_text (c : column crs) (row : nat) : string :=
  match c with
  | NumCol xs => match nth_error xs row with Some x => float_text x | None => "" end
  | ObjCol cells => nth row cells ""
  | GeomCol _ _ => "POINT"
  end.

Definition comma : ascii := ascii_of_N 44.

Definition write_text (df : DataFrame crs) : string :=
  (Str.join comma (columns df) ++ nl ++
   String.concat ""
     (map (fun row => (Str.join comma (map (fun nc => cell_text (snd nc) row) df) ++ nl)%string)
        (seq 0 (nrows df))))%string.

Definition read_dataset (d : disk) (p : string) : result (DataFrame crs) :=
  match contents d p with
  | Some _ => Raise DriverError
  | None => Raise FileNotFound
  end.

Definition write_dataset (gdf : DataFrame crs) (p : string) (driver : option string)
    (d : disk) : result unit * disk :=
  if isdir d (OsPath.dirname (abspath p)) && negb (isdir d p)
  then (Ok tt, write_file p (write_text gdf) d)
  else (Raise DriverError, d).

#[global] Instance tables : TableLib crs :=
  {| float_of_str := float_of_digits; parse_csv := fun _ => read_text; csv_text := fun _ => write_text;
     dataset_read := read_dataset; dataset_write := write_dataset |}.

(** A disk with the working directory and one file in it. *)
Definition shelf (text : string) : disk :=
  Disk {[ "/in.csv" := text ]} {[ "/" ]}.

Definition start (text : string) (lines : list string) : world :=
  World (shelf text) lines [].

(** The world after lines 25 to 91 have run on [start text lines]. *)
Definition loaded (text : string) (lines : list string) : world :=
  World (shelf text) lines [EvIsFile "in.csv"; EvReadCsv "in.csv"].

End TestLib.

(** * Properties *)

(** ** Tables *)

Section TableFacts.
Context {CRS : Type}.
Implicit Types (df : DataFrame CRS) (c : column CRS) (name : string).

Lemma has_column_In name df : has_column name df = true <-> List.In name (columns df).
Proof.
  unfold has_column. rewrite existsb_exists. split.
  - intros (m & Hm & He). apply String.eqb_eq in He. now subst.
  - intros Hin. exists name. split; [assumption | apply String.eqb_refl].
Qed.

Lemma getitem_None name df : getitem name df = None <-> has_column name df = false.
Proof.
  unfold has_column, columns. induction df as [| [n c] df IH]; simpl.
  - tauto.
  - destruct (String.eqb name n); simpl; [split; discriminate | exact IH].
Qed.

Lemma getitem_Some_has name df c : getitem name df = Some c -> has_column name df = true.
Proof.
  intros H. destruct (has_column name df) eqn:E; [reflexivity |].
  apply getitem_None in E. congruence.
Qed.

Lemma columns_replace name c df : columns (replace_column name c df) = columns df.
Proof.
  unfold columns, replace_column. rewrite map_map. apply map_ext.
  intros [n c']. simpl. now destruct (String.eqb name n).
Qed.

Lemma columns_setitem name c df : columns (setitem name c df) = add_label name (columns df).
Proof.
  unfold setitem, add_label, has_column.
  destruct (existsb (String.eqb name) (columns df)).
  - apply columns_replace.
  - unfold columns. now rewrite map_app.
Qed.

Lemma columns_drop name df : columns (drop_column name df) = remove_label name (columns df).
Proof.
  unfold columns, drop_column, remove_label.
  induction df as [| [n c] df IH]; simpl; [reflexivity |].
  destruct (String.eqb name n); simpl; now rewrite IH.
Qed.

Lemma getitem_replace_eq name c df :
  has_column name df = true -> getitem name (replace_column name c df) = Some c.
Proof.
  unfold has_column, columns. induction df as [| [n c'] df IH]; simpl; [discriminate |].
  destruct (String.eqb name n) eqn:E; simpl.
  - now rewrite E.
  - rewrite E. exact IH.
Qed.

Lemma getitem_replace_ne name other c df :
  name <> other -> getitem name (replace_column other c df) = getitem name df.
Proof.
  intros Hne. induction df as [| [n c'] df IH]; simpl; [reflexivity |].
  destruct (String.eqb other n) eqn:E; simpl.
  - apply String.eqb_eq in E. subst n.
    destruct (String.eqb name other) eqn:E'; [apply String.eqb_eq in E'; contradiction | exact IH].
  - destruct (String.eqb name n); [reflexivity | exact IH].
Qed.

Lemma getitem_app_ne name other c df :
  name <> other -> getitem name (df ++ [(other, c)]) = getitem name df.
Proof.
  intros Hne. induction df as [| [n c'] df IH]; simpl.
  - destruct (String.eqb name other) eqn:E; [apply String.eqb_eq in E; contradiction | reflexivity].
  - destruct (String.eqb name n); [reflexivity | exact IH].
Qed.

Lemma getitem_app_new name c df :
  has_column name df = false -> getitem name (df ++ [(name, c)]) = Some c.
Proof.
  unfold has_column, columns. induction df as [| [n c'] df IH]; simpl.
  - now rewrite String.eqb_refl.
  - destruct (String.eqb name n); simpl; [discriminate | exact IH].
Qed.

Lemma getitem_setitem_eq name c df : getitem name (setitem name c df) = Some c.
Proof.
  unfold setitem. destruct (has_column name df) eqn:E.
  - now apply getitem_replace_eq.
  - now apply getitem_app_new.
Qed.

Lemma getitem_setitem_ne name other c df :
  name <> other -> getitem name (setitem other c df) = getitem name df.
Proof.
  intros Hne. unfold setitem. destruct (has_column other df).
  - now apply getitem_replace_ne.
  - now apply getitem_app_ne.
Qed.

Lemma getitem_drop_eq name df : getitem name (drop_column name df) = None.
Proof.
  unfold drop_column. induction df as [| [n c] df IH]; simpl; [reflexivity |].
  destruct (String.eqb name n) eqn:E; simpl; [exact IH | now rewrite E].
Qed.

Lemma getitem_drop_ne name other df :
  name <> other -> getitem name (drop_column other df) = getitem name df.
Proof.
  intros Hne. unfold drop_column. induction df as [| [n c] df IH]; simpl; [reflexivity |].
  destruct (String.eqb other n) eqn:E; simpl.
  - apply String.eqb_eq in E. subst n.
    destruct (String.eqb name other) eqn:E'; [apply String.eqb_eq in E'; contradiction | exact IH].
  - destruct (String.eqb name n); [reflexivity | exact IH].
Qed.

Lemma has_column_setitem name c df : has_column name (setitem name c df) = true.
Proof. apply getitem_Some_has with c. apply getitem_setitem_eq. Qed.

Lemma has_column_drop name df : has_column name (drop_column name df) = false.
Proof. apply getitem_None. apply getitem_drop_eq. Qed.

Lemma rectangular_setitem n name c df :
  col_len c = n -> rectangular n df -> rectangular n (setitem name c df).
Proof.
  intros Hc Hdf. unfold setitem, rectangular in *. destruct (has_column name df).
  - unfold replace_column. rewrite List.Forall_forall in *. intros nc Hin.
    apply in_map_iff in Hin. destruct Hin as (nc' & <- & Hin').
    destruct (String.eqb name (fst nc')); simpl; [assumption | now apply Hdf].
  - apply List.Forall_app. split; [assumption | now repeat constructor].
Qed.

Lemma rectangular_drop n name df : rectangular n df -> rectangular n (drop_column name df).
Proof.
  unfold rectangular, drop_column. rewrite !List.Forall_forall.
  intros H nc Hin. apply List.filter_In in Hin. now apply H.
Qed.

Lemma rectangular_getitem n name c df :
  rectangular n df -> getitem name df = Some c -> col_len c = n.
Proof.
  unfold rectangular. induction df as [| [m c'] df IH]; simpl; [discriminate |].
  intros Hr. apply List.Forall_cons_iff in Hr. destruct Hr as [Hhd Htl]. simpl in Hhd.
  destruct (String.eqb name m); [intros [= <-]; assumption | now apply IH].
Qed.

Lemma rectangular_nrows n name c df :
  rectangular n df -> getitem name df = Some c -> nrows df = n.
Proof.
  unfold rectangular, nrows. destruct df as [| [m c'] df]; simpl; [discriminate |].
  intros Hr _. apply List.Forall_cons_iff in Hr. now destruct Hr.
Qed.

Lemma NoDup_add_label name labels : List.NoDup labels -> List.NoDup (add_label name labels).
Proof.
  intros Hnd. unfold add_label. destruct (existsb (String.eqb name) labels) eqn:E; [assumption |].
  apply List.NoDup_app; [assumption | repeat constructor; intros [] |].
  intros m Hin [<- | []].
  assert (existsb (String.eqb name) labels = true) as E'.
  { apply existsb_exists. exists name. split; [assumption | apply String.eqb_refl]. }
  congruence.
Qed.

Lemma NoDup_remove_label name labels : List.NoDup labels -> List.NoDup (remove_label name labels).
Proof. apply List.NoDup_filter. Qed.

Lemma remove_label_not_In name labels : ~ List.In name (remove_label name labels).
Proof.
  unfold remove_label. intros Hin. apply List.filter_In in Hin.
  destruct Hin as [_ H]. now rewrite String.eqb_refl in H.
Qed.

End TableFacts.

(** ** [parse_crs] *)

Section ParseCrsFacts.
Context {CRS : Type} `{!PyProj CRS}.

Lemma all_decimal_numeric s :
  PyStr.all_chars PyStr.isdecimal_char s = true ->
  PyStr.all_chars PyStr.isnumeric_char s = true.
Proof.
  induction s as [| c s IH]; simpl; [reflexivity |].
  intros H. apply andb_true_iff in H. destruct H as [Hc Hs].
  apply andb_true_iff. split; [| now apply IH].
  unfold PyStr.isnumeric_char. now rewrite Hc.
Qed.

Lemma isdecimal_isnumeric s : PyStr.isdecimal s = true -> PyStr.isnumeric s = true.
Proof.
  destruct s as [| c s]; [discriminate |].
  unfold PyStr.isdecimal, PyStr.isnumeric. apply all_decimal_numeric.
Qed.

(** A string of decimal digits goes to the authority-code branch. *)
Lemma parse_crs_decimal s :
  PyStr.isdecimal s = true ->
  parse_crs (VStr s) = crs_or_error (from_epsg (PyStr.digits_value 0 s)).
Proof.
  intros Hd. unfold parse_crs, PyStr.int_of_numeric.
  now rewrite (isdecimal_isnumeric s Hd), Hd.
Qed.

(** A string that is not numeric goes to the well-known-text branch. *)
Lemma parse_crs_text s :
  PyStr.isnumeric s = false -> parse_crs (VStr s) = crs_or_error (from_wkt s).
Proof. intros Hn. unfold parse_crs. now rewrite Hn. Qed.

(** Only an absent value resolves to "no CRS". *)
Lemma parse_crs_None_inv v : parse_crs v = Ok None -> v = VNone.
Proof.
  destruct v as [| z | s | c | id]; simpl; try discriminate; try reflexivity.
  - destruct (from_epsg z); discriminate.
  - destruct (PyStr.isnumeric s).
    + destruct (PyStr.int_of_numeric s) as [z |]; [| discriminate].
      destruct (from_epsg z); discriminate.
    + destruct (from_wkt s); discriminate.
Qed.

(** Resolving what [parse_crs] returned gives it back. *)
Lemma parse_crs_crs_value (o : option CRS) : parse_crs (crs_value o) = Ok o.
Proof. now destruct o. Qed.

End ParseCrsFacts.

(** C3, as amended.  For an int, or a string of decimal digits, whose code
    the projection library knows, and for a non-numeric string the library
    accepts as well-known text, [parse_crs] returns the library's CRS; a
    CRS handle comes back as it is and an absent value gives "no CRS"; none
    of these raises.  When the library rejects the code or the text, its
    error leaves [parse_crs].  An object of any other class raises the
    "invalid coordinate system" error. *)
Theorem parse_crs_resolves {CRS : Type} `{!PyProj CRS} :
  (forall z c, from_epsg z = Some c -> parse_crs (VInt z) = Ok (Some c)) /\
  (forall s c, PyStr.isdecimal s = true ->
     from_epsg (PyStr.digits_value 0 s) = Some c -> parse_crs (VStr s) = Ok (Some c)) /\
  (forall s c, PyStr.isnumeric s = false ->
     from_wkt s = Some c -> parse_crs (VStr s) = Ok (Some c)) /\
  (forall c, parse_crs (VCRS c) = Ok (Some c)) /\
  parse_crs (@VNone CRS) = Ok None /\
  (forall z, from_epsg z = None -> parse_crs (VInt z) = Raise CRSError) /\
  (forall s, PyStr.isdecimal s = true ->
     from_epsg (PyStr.digits_value 0 s) = None -> parse_crs (VStr s) = Raise CRSError) /\
  (forall s, PyStr.isnumeric s = false ->
     from_wkt s = None -> parse_crs (VStr s) = Raise CRSError) /\
  (forall id, parse_crs (@VObj CRS id) = Raise InvalidCoordinateSystem).
Proof.
  repeat split; try reflexivity.
  - intros z c H. simpl. now rewrite H.
  - intros s c Hd H. rewrite parse_crs_decimal by assumption. now rewrite H.
  - intros s c Hn H. rewrite parse_crs_text by assumption. now rewrite H.
  - intros z H. simpl. now rewrite H.
  - intros s Hd H. rewrite parse_crs_decimal by assumption. now rewrite H.
  - intros s Hn H. rewrite parse_crs_text by assumption. now rewrite H.
Qed.

Lemma parse_crs_resolves_witness :
  parse_crs (VInt 4326) = Ok (Some TestLib.WGS84) /\
  parse_crs (VStr "3857") = Ok (Some TestLib.WebMercator) /\
  parse_crs (VStr TestLib.wgs84_wkt) = Ok (Some TestLib.WGS84) /\
  parse_crs (VStr "hello") = @Raise (option TestLib.crs) CRSError.
Proof.
  destruct (@parse_crs_resolves TestLib.crs TestLib.pyproj)
    as (Hint & Hdec & Hwkt & _ & _ & _ & _ & Hbad & _).
  split; [apply Hint; reflexivity |].
  split; [apply Hdec; reflexivity |].
  split; [apply Hwkt; reflexivity |].
  apply Hbad; reflexivity.
Defined.

(** C3 as stated fails: 0 is an int, and no CRS is registered under the
    code 0, so the library's error leaves [parse_crs]. *)
Lemma parse_crs_unregistered_code_raises :
  parse_crs (VInt 0) = @Raise (option TestLib.crs) CRSError /\
  ~ (forall v : value TestLib.crs,
       (forall id, v <> VObj id) -> exists r, parse_crs v = Ok r).
Proof.
  split; [reflexivity |].
  intros H. destruct (H (VInt 0)) as [r Hr]; [discriminate | discriminate Hr].
Qed.

(** C4, at the failing input.  The one-character string U+00BD (vulgar
    fraction one half) is not made of digits, yet [isnumeric] holds of it:
    [parse_crs] takes the authority-code branch and [int] raises, whatever
    the library would make of the text. *)
Theorem parse_crs_numeric_not_decimal {CRS : Type} `{!PyProj CRS} :
  let half := String (ascii_of_N 189) "" in
  PyStr.isdecimal half = false /\
  PyStr.isnumeric half = true /\
  parse_crs (VStr half) = Raise (IntLiteralError half).
Proof. repeat split. Qed.

(** ** Computations that write nothing *)

Section Quiet.
Context {CRS : Type} `{!PyProj CRS} `{!Os} `{!TableLib CRS}.

Lemma world_eta (w : world) : w = World (fs w) (stdin w) (trace w ++ []).
Proof. destruct w. simpl. now rewrite app_nil_r. Qed.

Lemma quiet_ret {A} (a : A) : quiet (ret a).
Proof. intros w. exists []. split; [apply world_eta | reflexivity]. Qed.

Lemma quiet_raise {A} (e : exn) : quiet (@raise A e).
Proof. intros w. exists []. split; [apply world_eta | reflexivity]. Qed.

Lemma quiet_lift {A} (r : result A) : quiet (lift r).
Proof. intros w. exists []. split; [apply world_eta | reflexivity]. Qed.

Lemma quiet_bind {A B} (m : M A) (k : A -> M B) :
  quiet m -> (forall a, quiet (k a)) -> quiet (bind m k).
Proof.
  intros Hm Hk w. unfold bind. destruct (Hm w) as (evs & Hw & Hevs).
  destruct (m w) as [[a | e] w1]; simpl in Hw; subst w1.
  - destruct (Hk a (World (fs w) (stdin w) (trace w ++ evs))) as (evs' & Hw' & Hevs').
    simpl in Hw'. exists (evs ++ evs'). rewrite Hw', app_assoc. split; [reflexivity |].
    rewrite forallb_app. now rewrite Hevs, Hevs'.
  - exists evs. now split.
Qed.

Lemma quiet_os_path_isfile p : quiet (os_path_isfile p).
Proof. intros w. exists [EvIsFile p]. now split. Qed.

Lemma quiet_read_csv p : quiet (read_csv p).
Proof. intros w. exists [EvReadCsv p]. now split. Qed.

Lemma quiet_print msg : quiet (print msg).
Proof. intros w. exists [EvPrint msg]. now split. Qed.

Ltac quiet_step :=
  first
    [ apply quiet_ret | apply quiet_raise | apply quiet_lift
    | apply quiet_os_path_isfile | apply quiet_read_csv | apply quiet_print
    | apply quiet_bind; [| intros ?]
    | match goal with
      | |- quiet (match ?x with _ => _ end) => destruct x
      end ].

(** Building points from a table in memory, nothing to save. *)
Lemma quiet_XYTableToPoint df x y z cs :
  quiet (XYTableToPoint (TableFrame df) VNone x y z cs).
Proof. unfold XYTableToPoint. repeat quiet_step. Qed.

(** Projecting a table in memory, nothing to save. *)
Lemma quiet_Project gdf target : quiet (Project (DatasetGeoFrame gdf) VNone target).
Proof. unfold Project. repeat quiet_step. Qed.

(** Lines 25 to 91 leave the disk as it is. *)
Lemma quiet_transform_table p ix iy ic op ox oy oc :
  quiet (transform_table p ix iy ic op ox oy oc).
Proof.
  unfold transform_table.
  repeat first [ apply quiet_XYTableToPoint | apply quiet_Project | quiet_step ].
Qed.

End Quiet.

(** ** What a successful run of lines 25 to 91 computed *)

Section TransformTable.
Context {CRS : Type} `{!PyProj CRS} `{!Os} `{!TableLib CRS}.

Lemma setitem_setitem name (c1 c2 : column CRS) df :
  setitem name c2 (setitem name c1 df) = setitem name c2 df.
Proof.
  unfold setitem at 1. rewrite has_column_setitem.
  unfold setitem. destruct (has_column name df) eqn:E.
  - unfold replace_column. rewrite map_map. apply map_ext.
    intros [n c]. simpl. destruct (String.eqb name n) eqn:E'; simpl; now rewrite E'.
  - unfold replace_column. rewrite map_app. simpl. rewrite String.eqb_refl. f_equal.
    apply getitem_None in E. clear -E.
    induction df as [| [n c] df IH]; simpl in *; [reflexivity |].
    destruct (String.eqb name n); [discriminate | now rewrite IH].
Qed.

Lemma floats_of_cells_length cells xs :
  floats_of_cells cells = Some xs -> length xs = length cells.
Proof.
  revert xs. induction cells as [| cell cells IH]; simpl; intros xs.
  - now intros [= <-].
  - destruct (float_of_str cell); [| discriminate].
    destruct (floats_of_cells cells) as [ys |]; [| discriminate].
    intros [= <-]. simpl. now rewrite (IH ys).
Qed.

(** The conversion gives one number per cell. *)
Lemma to_float64_length (c : column CRS) xs :
  to_float64 c = Some xs -> length xs = col_len c.
Proof.
  destruct c as [ys | cells | tag pts]; simpl.
  - now intros [= <-].
  - apply floats_of_cells_length.
  - discriminate.
Qed.

#[local] Arguments to_float64 : simpl never.
#[local] Arguments parse_crs : simpl never.

Ltac break_match H :=
  match type of H with
  | context [match ?x with _ => _ end] =>
      lazymatch x with
      | context [match _ with _ => _ end] => fail
      | _ => destruct x eqn:?
      end
  end.

Ltac run H :=
  repeat (simpl in H; try discriminate H; try break_match H).

(** Building the points of a table in memory: the result is the table
    with the points in the column "geometry", and the world is as it was. *)
Lemma XYTableToPoint_run (t : DataFrame CRS) x y cx cy xs ys icrs (w : world) :
  getitem x t = Some cx -> to_float64 cx = Some xs ->
  getitem y t = Some cy -> to_float64 cy = Some ys ->
  XYTableToPoint (TableFrame t) VNone x y None (crs_value icrs) w =
    (Ok (setitem "geometry" (GeomCol icrs (zip_xy xs ys)) t), w).
Proof.
  intros Hx Hcx Hy Hcy.
  unfold XYTableToPoint, bind, ret, raise, lift, getitem_or_raise, points_from_xy,
    GeoDataFrame, set_crs.
  rewrite (getitem_Some_has _ _ _ Hx), (getitem_Some_has _ _ _ Hy). simpl.
  rewrite Hx, Hy. simpl. rewrite Hcx, Hcy. simpl.
  destruct icrs as [src |]; simpl; [| reflexivity].
  unfold parse_crs. simpl. rewrite getitem_setitem_eq. now rewrite setitem_setitem.
Qed.

Lemma XYTableToPoint_Ok (t : DataFrame CRS) x y icrs gdf (w w1 : world) :
  XYTableToPoint (TableFrame t) VNone x y None (crs_value icrs) w = (Ok gdf, w1) ->
  exists cx cy xs ys,
    getitem x t = Some cx /\ to_float64 cx = Some xs /\
    getitem y t = Some cy /\ to_float64 cy = Some ys /\
    gdf = setitem "geometry" (GeomCol icrs (zip_xy xs ys)) t.
Proof.
  intros HX.
  destruct (getitem x t) as [cx |] eqn:Hx.
  2: { apply getitem_None in Hx.
       unfold XYTableToPoint, bind, ret, raise in HX. simpl in HX. rewrite Hx in HX.
       discriminate HX. }
  destruct (getitem y t) as [cy |] eqn:Hy.
  2: { apply getitem_None in Hy.
       unfold XYTableToPoint, bind, ret, raise in HX. simpl in HX.
       rewrite (getitem_Some_has _ _ _ Hx), Hy in HX. discriminate HX. }
  destruct (to_float64 cx) as [xs |] eqn:Hcx.
  2: { unfold XYTableToPoint, bind, ret, raise, lift, getitem_or_raise, points_from_xy in HX.
       simpl in HX.
       rewrite (getitem_Some_has _ _ _ Hx), (getitem_Some_has _ _ _ Hy) in HX. simpl in HX.
       rewrite Hx, Hy in HX. simpl in HX. rewrite Hcx in HX. discriminate HX. }
  destruct (to_float64 cy) as [ys |] eqn:Hcy.
  2: { unfold XYTableToPoint, bind, ret, raise, lift, getitem_or_raise, points_from_xy in HX.
       simpl in HX.
       rewrite (getitem_Some_has _ _ _ Hx), (getitem_Some_has _ _ _ Hy) in HX. simpl in HX.
       rewrite Hx, Hy in HX. simpl in HX. rewrite Hcx, Hcy in HX. discriminate HX. }
  rewrite (XYTableToPoint_run t x y cx cy xs ys icrs w Hx Hcx Hy Hcy) in HX.
  injection HX as <- _. exists cx, cy, xs, ys. now repeat split.
Qed.

(** Projecting a table in memory whose column "geometry" holds points. *)
Lemma Project_run (gdf : DataFrame CRS) tag pts ocrs (w : world) :
  getitem "geometry" gdf = Some (GeomCol tag pts) ->
  Project (DatasetGeoFrame gdf) VNone (crs_value ocrs) w =
    match ocrs, tag with
    | None, _ => (Ok gdf, log (EvPrint Project_warning) w)
    | Some dst, Some src =>
        (Ok (setitem "geometry" (GeomCol (Some dst) (map (transform src dst) pts)) gdf), w)
    | Some _, None => (Raise NaiveGeometries, w)
    end.
Proof.
  intros Hg. unfold Project, bind, ret, raise, lift, to_crs, print.
  destruct ocrs as [dst |]; simpl; [| reflexivity].
  unfold parse_crs. simpl. rewrite Hg. now destruct tag.
Qed.

(** The projected geometry, as the two calls of management.py leave it. *)
Lemma XYTableToPoint_Project_Ok t x y icrs ocrs gdf0 gdf1 (w w1 w2 : world) :
  XYTableToPoint (TableFrame t) VNone x y None (crs_value icrs) w = (Ok gdf0, w1) ->
  Project (DatasetGeoFrame gdf0) VNone (crs_value ocrs) w1 = (Ok gdf1, w2) ->
  exists cx cy xcol ycol tag pts,
    getitem x t = Some cx /\ to_float64 cx = Some xcol /\
    getitem y t = Some cy /\ to_float64 cy = Some ycol /\
    gdf1 = setitem "geometry" (GeomCol tag pts) t /\
    ((ocrs = None /\ tag = icrs /\ pts = zip_xy xcol ycol) \/
     (exists src dst, icrs = Some src /\ ocrs = Some dst /\ tag = Some dst /\
        pts = map (transform src dst) (zip_xy xcol ycol))).
Proof.
  intros HX HP.
  destruct (XYTableToPoint_Ok _ _ _ _ _ _ _ HX) as (cx & cy & xs & ys & Hx & Hcx & Hy & Hcy & ->).
  rewrite (Project_run _ icrs (zip_xy xs ys) ocrs w1) in HP by apply getitem_setitem_eq.
  destruct ocrs as [dst |]; [destruct icrs as [src |] |]; simplify_eq.
  - exists cx, cy, xs, ys, (Some dst), (map (transform src dst) (zip_xy xs ys)).
    repeat (split; [assumption |]). split; [now rewrite setitem_setitem |].
    right. exists src, dst. now repeat split.
  - exists cx, cy, xs, ys, icrs, (zip_xy xs ys).
    repeat (split; [assumption |]). split; [reflexivity |]. left. now repeat split.
Qed.

#[local] Arguments XYTableToPoint : simpl never.
#[local] Arguments Project : simpl never.
#[local] Arguments py_eq : simpl never.
#[local] Arguments setitem : simpl never.
#[local] Arguments has_column : simpl never.
#[local] Arguments contents : simpl never.
#[local] Arguments isfile : simpl never.

Lemma transform_table_Ok p ix iy ic op ox oy oc (w : world) out w' :
  transform_table p ix iy ic op ox oy oc w = (Ok out, w') ->
  exists text t x y oxs oys icrs ocrs cx cy xcol ycol tag pts,
    contents (fs w) p = Some text /\ parse_csv p text = Some t /\
    ix = VStr x /\ iy = VStr y /\ ox = VStr oxs /\ oy = VStr oys /\
    oxs <> oys /\ oxs <> "geometry" /\
    (op = VNone \/ exists q, op = VStr q) /\
    parse_crs ic = Ok icrs /\ parse_crs oc = Ok ocrs /\
    getitem x t = Some cx /\ to_float64 cx = Some xcol /\
    getitem y t = Some cy /\ to_float64 cy = Some ycol /\
    ((ocrs = None /\ tag = icrs /\ pts = zip_xy xcol ycol) \/
     (exists src dst, icrs = Some src /\ ocrs = Some dst /\ tag = Some dst /\
        pts = map (transform src dst) (zip_xy xcol ycol))) /\
    out = drop_column "geometry"
            (setitem oys (NumCol (map pt_y pts))
               (setitem oxs (NumCol (map pt_x pts))
                  (setitem "geometry" (GeomCol tag pts) t))).
Proof.
  intros Hrun.
  unfold transform_table, bind, ret, raise, lift, os_path_isfile, read_csv in Hrun.
  run Hrun.
  all: simplify_eq.
  all: match goal with
       | HX : XYTableToPoint _ _ _ _ _ _ _ = _, HP : Project _ _ _ _ = _ |- _ =>
           destruct (XYTableToPoint_Project_Ok _ _ _ _ _ _ _ _ _ _ HX HP)
             as (cx & cy & xcol & ycol & tag & pts & Hx & Hcx & Hy & Hcy & -> & Hpts)
       end.
  all: match goal with
       | Hgx : geometry_x _ = Ok ?a |- _ =>
           unfold geometry_x in Hgx; rewrite getitem_setitem_eq in Hgx;
           injection Hgx as <-
       end.
  all: match goal with
       | Hne : py_eq (VStr ?a) (VStr ?b) = false, Hgy : geometry_y (setitem ?a _ _) = Ok _ |- _ =>
           unfold py_eq in Hne; apply String.eqb_neq in Hne;
           assert (a <> "geometry") as Hgeo
             by (intros ->; unfold geometry_y in Hgy;
                 rewrite getitem_setitem_eq in Hgy; discriminate Hgy);
           unfold geometry_y in Hgy;
           rewrite getitem_setitem_ne, getitem_setitem_eq in Hgy by congruence;
           injection Hgy as <-
       end.
  all: match goal with
       | Hd : drop _ _ = Ok _ |- _ => unfold drop in Hd; break_match Hd; simplify_eq
       end.
  all: do 14 eexists; repeat (split; [first [reflexivity | eassumption | eauto] |]).
  all: reflexivity.
Qed.

End TransformTable.

(** ** The whole call *)

Section WholeCall.
Context {CRS : Type} `{!PyProj CRS} `{!Os} `{!TableLib CRS}.

Lemma coordinate_transform_eq p ix iy ic op ox oy oc (w : world) :
  coordinate_transform p ix iy ic op ox oy oc w =
  match transform_table p ix iy ic op ox oy oc w with
  | (Ok df, w1) =>
      match save_table df p op w1 with
      | (Ok _, w2) => (Ok df, w2)
      | (Raise e, w2) => (Raise e, w2)
      end
  | (Raise e, w1) => (Raise e, w1)
  end.
Proof.
  unfold coordinate_transform, bind, ret.
  destruct (transform_table p ix iy ic op ox oy oc w) as [[df | e] w1]; [| reflexivity].
  now destruct (save_table df p op w1) as [[[] | e] w2].
Qed.

(** The world in which lines 93 to 105 start. *)
Lemma transform_table_world p ix iy ic op ox oy oc (w : world) r w1 :
  transform_table p ix iy ic op ox oy oc w = (r, w1) ->
  exists evs, w1 = World (fs w) (stdin w) (trace w ++ evs) /\ forallb looks_only evs = true.
Proof.
  intros Hrun. destruct (quiet_transform_table p ix iy ic op ox oy oc w) as (evs & Hw & Hevs).
  rewrite Hrun in Hw. simpl in Hw. eauto.
Qed.


Lemma length_zip_xy xs ys : length (zip_xy xs ys) = Nat.min (length xs) (length ys).
Proof.
  revert ys. induction xs as [| x xs IH]; intros [| y ys]; simpl; try reflexivity.
  now rewrite IH.
Qed.

(** Writing over a regular file that is there succeeds. *)
Lemma to_csv_existing (df : DataFrame CRS) p text (w : world) :
  contents (fs w) p = Some text ->
  to_csv df p w =
    (Ok tt, World (write_file p (csv_text p df) (fs w)) (stdin w) (trace w ++ [EvToCsv p])).
Proof. intros Hc. unfold to_csv. now rewrite Hc. Qed.


End WholeCall.

(** C1, as amended.  When the output path is the input path, lines 25 to 91
    have computed a table and the line read from the console is not "Y",
    the call ends by raising the "not overwritten" exception: the disk is
    unchanged (one line of input is consumed, the warning is printed), and
    the caller receives the exception, not the table. *)
Theorem declined_overwrite_raises {CRS : Type} `{!PyProj CRS} `{!Os} `{!TableLib CRS}
    p ix iy ic ox oy oc (w : world) df w1 line rest :
  transform_table p ix iy ic (VStr p) ox oy oc w = (Ok df, w1) ->
  stdin w = line :: rest ->
  line <> "Y" ->
  coordinate_transform p ix iy ic (VStr p) ox oy oc w =
    (Raise NotOverwritten,
     World (fs w) rest (trace w1 ++ [EvPrint overwrite_warning; EvInput])).
Proof.
  intros Ht Hin Hline. rewrite coordinate_transform_eq, Ht.
  destruct (transform_table_world _ _ _ _ _ _ _ _ _ _ _ Ht) as (evs & -> & _).
  unfold save_table, bind, print, input, raise. rewrite String.eqb_refl. simpl.
  rewrite Hin. apply String.eqb_neq in Hline. rewrite Hline.
  now rewrite <- app_assoc.
Qed.

(** C9.  When the output path is the input path and lines 25 to 91 have
    computed a table, the call prints the warning, reads one line, and
    writes the file exactly when that line is "Y": the file at the path
    then holds the csv text of the table; any other line ends the call
    with the "not overwritten" exception and the disk as it was. *)
Theorem overwrite_needs_exact_Y {CRS : Type} `{!PyProj CRS} `{!Os} `{!TableLib CRS}
    p ix iy ic ox oy oc (w : world) df w1 line rest :
  transform_table p ix iy ic (VStr p) ox oy oc w = (Ok df, w1) ->
  stdin w = line :: rest ->
  coordinate_transform p ix iy ic (VStr p) ox oy oc w =
    if String.eqb line "Y"
    then (Ok df,
          World (write_file p (csv_text p df) (fs w)) rest
            (trace w1 ++ [EvPrint overwrite_warning; EvInput; EvToCsv p]))
    else (Raise NotOverwritten,
          World (fs w) rest (trace w1 ++ [EvPrint overwrite_warning; EvInput])).
Proof.
  intros Ht Hin. rewrite coordinate_transform_eq, Ht.
  destruct (transform_table_Ok _ _ _ _ _ _ _ _ _ _ _ Ht) as (text & t & _ & _ & _ & _ & _ & _
    & _ & _ & _ & _ & _ & _ & Hfile & _).
  destruct (transform_table_world _ _ _ _ _ _ _ _ _ _ _ Ht) as (evs & -> & _).
  unfold save_table, bind, print, input, raise. rewrite String.eqb_refl. simpl.
  rewrite Hin. destruct (String.eqb line "Y"); simpl.
  - rewrite (to_csv_existing df p text) by exact Hfile. simpl. now rewrite <- !app_assoc.
  - now rewrite <- !app_assoc.
Qed.

Lemma declined_overwrite_raises_witness :
  coordinate_transform "in.csv" (VStr "x") (VStr "y") (VInt 3857) (VStr "in.csv")
    (VStr "lon") (VStr "lat") (VInt 4326) (TestLib.start TestLib.example_csv ["n"]) =
  (Raise NotOverwritten,
   World (fs (TestLib.start TestLib.example_csv ["n"])) []
     (trace (TestLib.loaded TestLib.example_csv ["n"])
      ++ [EvPrint overwrite_warning; EvInput])).
Proof.
  apply (declined_overwrite_raises "in.csv" _ _ _ _ _ _ _ TestLib.example_output
           (TestLib.loaded TestLib.example_csv ["n"]) "n" []).
  - vm_compute. reflexivity.
  - reflexivity.
  - discriminate.
Defined.

(** C1 as stated fails: after a declined confirmation the caller gets the
    exception; the table that lines 25 to 91 computed is not returned. *)
Lemma declined_overwrite_returns_no_table :
  let call := coordinate_transform "in.csv" (VStr "x") (VStr "y") (VInt 3857) (VStr "in.csv")
                (VStr "lon") (VStr "lat") (VInt 4326) in
  let w := TestLib.start TestLib.example_csv ["n"] in
  fst (transform_table "in.csv" (VStr "x") (VStr "y") (VInt 3857) (VStr "in.csv")
         (VStr "lon") (VStr "lat") (VInt 4326) w) = Ok TestLib.example_output /\
  fst (call w) = Raise NotOverwritten /\
  ~ (exists df, fst (call w) = Ok df).
Proof.
  simpl. split; [vm_compute; reflexivity |].
  assert (fst (coordinate_transform "in.csv" (VStr "x") (VStr "y") (VInt 3857) (VStr "in.csv")
                 (VStr "lon") (VStr "lat") (VInt 4326)
                 (TestLib.start TestLib.example_csv ["n"])) = Raise NotOverwritten) as E
    by (vm_compute; reflexivity).
  split; [exact E |]. intros [df Hdf]. rewrite E in Hdf. discriminate Hdf.
Qed.

Lemma overwrite_needs_exact_Y_witness :
  coordinate_transform "in.csv" (VStr "x") (VStr "y") (VInt 3857) (VStr "in.csv")
    (VStr "lon") (VStr "lat") (VInt 4326) (TestLib.start TestLib.example_csv ["Y"]) =
  (Ok TestLib.example_output,
   World (write_file "in.csv" (csv_text "in.csv" TestLib.example_output)
            (fs (TestLib.start TestLib.example_csv ["Y"]))) []
     (trace (TestLib.loaded TestLib.example_csv ["Y"])
      ++ [EvPrint overwrite_warning; EvInput; EvToCsv "in.csv"])).
Proof.
  apply (overwrite_needs_exact_Y "in.csv" _ _ _ _ _ _ _ TestLib.example_output
           (TestLib.loaded TestLib.example_csv ["Y"]) "Y" []).
  - vm_compute. reflexivity.
  - reflexivity.
Defined.

(** C2, as amended.  When in_x_field equals in_y_field the call raises the
    "same field" error, but only after it has looked for the input file and
    read it: on a readable table the two calls made are [os.path.isfile] and
    [pd.read_csv], and nothing is printed, asked or written.  When the path
    names no file, or a file that is not a table, that failure comes
    first. *)
Theorem same_input_fields_raise_after_read {CRS : Type} `{!PyProj CRS} `{!Os} `{!TableLib CRS}
    p ix iy ic op ox oy oc (w : world) :
  py_eq ix iy = true ->
  (forall text t, contents (fs w) p = Some text -> parse_csv p text = Some t ->
     coordinate_transform p ix iy ic op ox oy oc w =
       (Raise InXSameAsInY,
        World (fs w) (stdin w) (trace w ++ [EvIsFile p; EvReadCsv p]))) /\
  (contents (fs w) p = None ->
     coordinate_transform p ix iy ic op ox oy oc w =
       (Raise InTablePathMissing,
        World (fs w) (stdin w) (trace w ++ [EvIsFile p]))) /\
  (forall text, contents (fs w) p = Some text -> parse_csv p text = None ->
     coordinate_transform p ix iy ic op ox oy oc w =
       (Raise ParserError,
        World (fs w) (stdin w) (trace w ++ [EvIsFile p; EvReadCsv p]))).
Proof.
  intros Heq.
  unfold coordinate_transform, transform_table, bind, os_path_isfile, read_csv, raise, log,
    isfile.
  repeat split.
  - intros text t Ht Hp. simpl. rewrite Ht. simpl. rewrite Ht, Hp, Heq. simpl.
    now rewrite <- app_assoc.
  - intros Hnone. simpl. now rewrite Hnone.
  - intros text Hf Hp. simpl. rewrite Hf. simpl. rewrite Hf, Hp. simpl.
    now rewrite <- app_assoc.
Qed.

Lemma same_input_fields_raise_after_read_witness :
  coordinate_transform "in.csv" (VStr "x") (VStr "x") (VInt 3857) (VStr "out.csv")
    (VStr "lon") (VStr "lat") (VInt 4326) (TestLib.start TestLib.example_csv []) =
  (Raise InXSameAsInY,
   World (fs (TestLib.start TestLib.example_csv []))
     (stdin (TestLib.start TestLib.example_csv []))
     (trace (TestLib.start TestLib.example_csv [])
      ++ [EvIsFile "in.csv"; EvReadCsv "in.csv"])).
Proof.
  apply (proj1 (same_input_fields_raise_after_read "in.csv" (VStr "x") (VStr "x") (VInt 3857)
                  (VStr "out.csv") (VStr "lon") (VStr "lat") (VInt 4326)
                  (TestLib.start TestLib.example_csv []) eq_refl)
           TestLib.example_csv TestLib.example_table).
  - vm_compute. reflexivity.
  - vm_compute. reflexivity.
Defined.

(** C2 as stated fails: with in_x_field equal to in_y_field the input file
    has been read by the time the error is raised, and where the file is
    missing the error raised is the one about the path. *)
Lemma same_input_fields_read_the_file_first :
  let call := coordinate_transform "in.csv" (VStr "x") (VStr "x") (VInt 3857) (VStr "out.csv")
                (VStr "lon") (VStr "lat") (VInt 4326) in
  fst (call (TestLib.start TestLib.example_csv [])) = Raise InXSameAsInY /\
  trace (snd (call (TestLib.start TestLib.example_csv []))) =
    [EvIsFile "in.csv"; EvReadCsv "in.csv"] /\
  call (World (Disk ∅ ∅) [] []) =
    (Raise InTablePathMissing, World (Disk ∅ ∅) [] [EvIsFile "in.csv"]).
Proof. simpl. repeat split; vm_compute; reflexivity. Qed.

(** C5.  Projecting a geometry that carries no CRS tag to a target that
    resolves to a CRS raises the "naive geometries" error of geopandas,
    whatever the output path, and nothing is printed or written.  The
    geometry that [XYTableToPoint] builds when no coordinate system is given
    is such an untagged geometry. *)
Theorem Project_untagged_source_raises {CRS : Type} `{!PyProj CRS} `{!Os} `{!TableLib CRS} :
  (forall (gdf : DataFrame CRS) pts out_dataset target c (w : world),
     getitem "geometry" gdf = Some (GeomCol None pts) ->
     parse_crs target = Ok (Some c) ->
     Project (DatasetGeoFrame gdf) out_dataset target w = (Raise NaiveGeometries, w)) /\
  (forall in_table out_feature_class x y z (w : world) gdf w',
     XYTableToPoint in_table out_feature_class x y z VNone w = (Ok gdf, w') ->
     exists pts, getitem "geometry" gdf = Some (GeomCol None pts)).
Proof.
  split.
  - intros gdf pts out_dataset target c w Hgeo Hparse.
    unfold Project, bind, ret, lift, to_crs.
    destruct target; try discriminate Hparse; rewrite Hparse, Hgeo; reflexivity.
  - intros in_table ofc x y z w gdf w' Hrun.
    unfold XYTableToPoint, bind, ret, raise, lift, GeoDataFrame, to_file in Hrun.
    repeat (simpl in Hrun; try discriminate Hrun;
            try match type of Hrun with
                | context [match ?v with _ => _ end] =>
                    lazymatch v with
                    | context [match _ with _ => _ end] => fail
                    | _ => destruct v eqn:?
                    end
                | context [let (_, _) := ?v in _] => destruct v eqn:?
                end).
    all: simplify_eq; eexists; apply getitem_setitem_eq.
Qed.

Lemma Project_untagged_source_raises_witness :
  Project (DatasetGeoFrame (GeoDataFrame TestLib.example_table
                              [Point 121.75 25.0625 None]))
    VNone (VInt 4326) (TestLib.start TestLib.example_csv []) =
  (Raise NaiveGeometries, TestLib.start TestLib.example_csv []) /\
  exists pts,
    getitem "geometry" (GeoDataFrame TestLib.example_table [Point 121.75 25.0625 None]) =
      Some (GeomCol None pts).
Proof.
  destruct (@Project_untagged_source_raises TestLib.crs TestLib.pyproj TestOs.os TestLib.tables)
    as [HP HX].
  split.
  - apply (HP _ [Point 121.75 25.0625 None] VNone (VInt 4326) TestLib.WGS84);
      vm_compute; reflexivity.
  - apply (HX (TableFrame TestLib.example_table) VNone "x" "y" None
             (TestLib.start TestLib.example_csv []) _
             (TestLib.start TestLib.example_csv [])).
    vm_compute. reflexivity.
Defined.

(** C6.  Projecting a geometry to an absent target prints the warning and
    returns the geometry itself, coordinates and CRS tag included; it does
    not raise.  With an output path the warning is printed all the same
    and the geometry itself is handed to the driver: the call returns it
    when the write returns, and ends with the driver's error when the
    write raises. *)
Theorem Project_without_target_is_identity {CRS : Type} `{!PyProj CRS} `{!Os} `{!TableLib CRS}
    (gdf : DataFrame CRS) (w : world) :
  Project (DatasetGeoFrame gdf) VNone VNone w =
    (Ok gdf, World (fs w) (stdin w) (trace w ++ [EvPrint Project_warning])) /\
  (forall p,
     Project (DatasetGeoFrame gdf) (VStr p) VNone w =
       (match fst (dataset_write gdf p None (fs w)) with
        | Ok _ => Ok gdf
        | Raise e => Raise e
        end,
        World (snd (dataset_write gdf p None (fs w))) (stdin w)
          (trace w ++ [EvPrint Project_warning; EvToFile p]))).
Proof.
  split; [reflexivity |]. intros p.
  unfold Project, bind, ret, print, to_file, log. simpl.
  destruct (dataset_write gdf p None (fs w)) as [[[] | e] d']; simpl;
    now rewrite <- app_assoc.
Qed.

Section Outcome.
Context {CRS : Type} `{!PyProj CRS} `{!Os} `{!TableLib CRS}.

(** A call that returns a table returns the one lines 25 to 91 computed. *)
Lemma coordinate_transform_Ok p ix iy ic op ox oy oc (w : world) out w' :
  coordinate_transform p ix iy ic op ox oy oc w = (Ok out, w') ->
  exists w1, transform_table p ix iy ic op ox oy oc w = (Ok out, w1).
Proof.
  rewrite coordinate_transform_eq.
  destruct (transform_table p ix iy ic op ox oy oc w) as [[df | e] w1]; [| discriminate].
  destruct (save_table df p op w1) as [[[] | e] w2]; [| discriminate].
  intros [= -> _]. now exists w1.
Qed.


End Outcome.



(** C10.  A table returned by the call has no column named "geometry".  The
    name belongs to the point column the call builds: on the table read
    from the input path, [XYTableToPoint] puts the points made of the
    converted x and y fields in the column "geometry", in the place of an
    input column of that name when there is one and leaving every other
    column as it was; and the column, then holding the projected points, is
    dropped once their coordinates have been written to the output
    fields. *)
Theorem output_has_no_geometry_column {CRS : Type} `{!PyProj CRS} `{!Os} `{!TableLib CRS}
    p ix iy ic op ox oy oc (w : world) out w' :
  coordinate_transform p ix iy ic op ox oy oc w = (Ok out, w') ->
  ~ List.In "geometry" (columns out) /\
  getitem "geometry" out = None /\
  exists text t x y icrs cx cy xs ys gdf,
    contents (fs w) p = Some text /\ parse_csv p text = Some t /\
    ix = VStr x /\ iy = VStr y /\ parse_crs ic = Ok icrs /\
    getitem x t = Some cx /\ to_float64 cx = Some xs /\
    getitem y t = Some cy /\ to_float64 cy = Some ys /\
    (forall w0, XYTableToPoint (TableFrame t) VNone x y None (crs_value icrs) w0 =
                  (Ok gdf, w0)) /\
    getitem "geometry" gdf = Some (GeomCol icrs (zip_xy xs ys)) /\
    columns gdf = add_label "geometry" (columns t) /\
    (forall name, name <> "geometry" -> getitem name gdf = getitem name t) /\
    exists tag pts oxs oys,
      ox = VStr oxs /\ oy = VStr oys /\
      ((parse_crs oc = Ok None /\ tag = icrs /\ pts = zip_xy xs ys) \/
       (exists src dst, icrs = Some src /\ parse_crs oc = Ok (Some dst) /\ tag = Some dst /\
          pts = map (transform src dst) (zip_xy xs ys))) /\
      out = drop_column "geometry"
              (setitem oys (NumCol (map pt_y pts))
                 (setitem oxs (NumCol (map pt_x pts))
                    (setitem "geometry" (GeomCol tag pts) gdf))).
Proof.
  intros Hcall. destruct (coordinate_transform_Ok _ _ _ _ _ _ _ _ _ _ _ Hcall) as [w1 Ht].
  destruct (transform_table_Ok _ _ _ _ _ _ _ _ _ _ _ Ht)
    as (text & t & x & y & oxs & oys & icrs & ocrs & cx & cy & xs & ys & tag & pts
        & Hfile & Hparse & -> & -> & -> & -> & _ & _ & _ & Hic & Hoc
        & Hx & Hcx & Hy & Hcy & Hpts & ->).
  split; [| split].
  - rewrite columns_drop. apply remove_label_not_In.
  - apply getitem_drop_eq.
  - exists text, t, x, y, icrs, cx, cy, xs, ys,
      (setitem "geometry" (GeomCol icrs (zip_xy xs ys)) t).
    repeat (split; [first [assumption | reflexivity] |]).
    split; [intros w0; now apply (XYTableToPoint_run t x y cx cy) |].
    split; [apply getitem_setitem_eq |].
    split; [apply columns_setitem |].
    split; [intros name Hname; now apply getitem_setitem_ne |].
    exists tag, pts, oxs, oys. split; [reflexivity |]. split; [reflexivity |].
    split.
    + destruct Hpts as [(-> & -> & ->) | (src & dst & -> & -> & -> & ->)].
      * left. now repeat split.
      * right. exists src, dst. now repeat split.
    + now rewrite setitem_setitem.
Qed.

Lemma output_has_no_geometry_column_witness :
  ~ List.In "geometry"
      (columns ([("x", NumCol [2%float]); ("y", NumCol [2%float]);
                 ("name", ObjCol ["a"]); ("lat", NumCol [4%float])]
                : DataFrame TestLib.crs)).
Proof.
  refine (proj1 (output_has_no_geometry_column "in.csv" (VStr "x") (VStr "y") (VInt 3857)
                   VNone (VStr "x") (VStr "lat") (VInt 4326)
                   (TestLib.start TestLib.geometry_csv []) _ _ _)).
  vm_compute. reflexivity.
Defined.

(** C7, as amended.  In a table returned by the call, with [pts] the
    projected points of the converted x and y fields: the labels are those
    of the input table, in their order, without "geometry" and followed by
    the output fields that were not among them, so an output field that
    names an input column takes that column's place and no label is
    repeated; the output x field holds the first coordinates; the output y
    field holds the second, unless it is named "geometry": then it is
    dropped with the point column and the table has no y output; every
    other input column except one named "geometry" is as it was; and the
    number of rows is unchanged. *)
Theorem output_fields_written_in_place {CRS : Type} `{!PyProj CRS} `{!Os} `{!TableLib CRS}
    p ix iy ic op ox oy oc (w : world) out w' :
  coordinate_transform p ix iy ic op (VStr ox) (VStr oy) oc w = (Ok out, w') ->
  exists text t x y cx cy xcol ycol pts,
    contents (fs w) p = Some text /\ parse_csv p text = Some t /\
    ix = VStr x /\ iy = VStr y /\
    getitem x t = Some cx /\ to_float64 cx = Some xcol /\
    getitem y t = Some cy /\ to_float64 cy = Some ycol /\
    ((parse_crs oc = Ok None /\ pts = zip_xy xcol ycol) \/
     (exists src dst, parse_crs ic = Ok (Some src) /\ parse_crs oc = Ok (Some dst) /\
        pts = map (transform src dst) (zip_xy xcol ycol))) /\
    columns out =
      remove_label "geometry"
        (add_label oy (add_label ox (add_label "geometry" (columns t)))) /\
    (List.NoDup (columns t) -> List.NoDup (columns out)) /\
    getitem ox out = Some (NumCol (map pt_x pts)) /\
    (oy <> "geometry" -> getitem oy out = Some (NumCol (map pt_y pts))) /\
    (oy = "geometry" -> getitem oy out = None) /\
    (forall name, name <> ox -> name <> oy -> name <> "geometry" ->
       getitem name out = getitem name t) /\
    (forall n, rectangular n t -> rectangular n out /\ nrows out = n).
Proof.
  intros Hcall. destruct (coordinate_transform_Ok _ _ _ _ _ _ _ _ _ _ _ Hcall) as [w1 Ht].
  destruct (transform_table_Ok _ _ _ _ _ _ _ _ _ _ _ Ht)
    as (text & t & x & y & oxs & oys & icrs & ocrs & cx & cy & xcol & ycol & tag & pts
        & Hfile & Hparse & -> & -> & [= <-] & [= <-] & Hxy & Hgeo & _ & Hic & Hoc
        & Hx & Hcx & Hy & Hcy & Hpts & ->).
  assert (getitem ox
            (drop_column "geometry"
               (setitem oy (NumCol (map pt_y pts))
                  (setitem ox (NumCol (map pt_x pts))
                     (setitem "geometry" (GeomCol tag pts) t)))) =
          Some (NumCol (map pt_x pts))) as Hox.
  { rewrite getitem_drop_ne, getitem_setitem_ne by assumption. apply getitem_setitem_eq. }
  exists text, t, x, y, cx, cy, xcol, ycol, pts.
  repeat (split; [first [assumption | reflexivity] |]).
  split; [| split; [| split; [| split; [| split; [| split; [| split]]]]]].
  - destruct Hpts as [(-> & _ & ->) | (src & dst & -> & -> & _ & ->)].
    + left. now split.
    + right. exists src, dst. now repeat split.
  - now rewrite columns_drop, !columns_setitem.
  - intros Hnd. rewrite columns_drop, !columns_setitem.
    apply NoDup_remove_label. now repeat apply NoDup_add_label.
  - exact Hox.
  - intros Hoy. rewrite getitem_drop_ne by assumption. apply getitem_setitem_eq.
  - intros ->. apply getitem_drop_eq.
  - intros name Hn1 Hn2 Hn3.
    now rewrite getitem_drop_ne, !getitem_setitem_ne by assumption.
  - intros n Hrect.
    assert (length pts = n) as Hlen.
    { pose proof (rectangular_getitem _ _ _ _ Hrect Hx) as Lx.
      pose proof (rectangular_getitem _ _ _ _ Hrect Hy) as Ly.
      rewrite <- (to_float64_length _ _ Hcx) in Lx.
      rewrite <- (to_float64_length _ _ Hcy) in Ly.
      destruct Hpts as [(_ & _ & ->) | (src & dst & _ & _ & _ & ->)];
        rewrite ?length_map, length_zip_xy, Lx, Ly; apply Nat.min_id. }
    assert (rectangular n
              (drop_column "geometry"
                 (setitem oy (NumCol (map pt_y pts))
                    (setitem ox (NumCol (map pt_x pts))
                       (setitem "geometry" (GeomCol tag pts) t))))) as Hout.
    { apply rectangular_drop.
      repeat apply rectangular_setitem; simpl; rewrite ?length_map; assumption. }
    split; [exact Hout |]. exact (rectangular_nrows _ _ _ _ Hout Hox).
Qed.

Lemma output_fields_written_in_place_witness :
  let out : DataFrame TestLib.crs :=
    [("x", NumCol [2%float]); ("y", NumCol [2%float]);
     ("name", ObjCol ["a"]); ("lat", NumCol [4%float])] in
  columns out = ["x"; "y"; "name"; "lat"] /\
  getitem "name" out = getitem "name" TestLib.table_with_geometry /\
  nrows out = 1%nat.
Proof.
  intros out.
  destruct (output_fields_written_in_place "in.csv" (VStr "x") (VStr "y") (VInt 3857)
              VNone "x" "lat" (VInt 4326) (TestLib.start TestLib.geometry_csv [])
              out (TestLib.loaded TestLib.geometry_csv []))
    as (text & t & x & y & cx & cy & xcol & ycol & pts & Hfile & Hparse & _ & _ & _ & _ & _
        & _ & _ & Hcols & _ & _ & _ & _ & Hother & Hrows).
  - vm_compute. reflexivity.
  - assert (Some TestLib.geometry_csv = Some text) as [= <-]
      by (rewrite <- Hfile; vm_compute; reflexivity).
    assert (Some TestLib.table_with_geometry = Some t) as [= <-]
      by (rewrite <- Hparse; vm_compute; reflexivity).
    split; [rewrite Hcols; reflexivity |].
    split; [apply Hother; discriminate |].
    apply Hrows. repeat constructor.
Defined.

(** C7 as stated fails: the input column "geometry", which is neither an
    output field nor a coordinate field, is not in the returned table. *)
Lemma input_geometry_column_is_lost :
  let out := [("x", NumCol [2%float]); ("y", NumCol [2%float]);
              ("name", ObjCol ["a"]); ("lat", NumCol [4%float])] in
  fst (coordinate_transform "in.csv" (VStr "x") (VStr "y") (VInt 3857) VNone
         (VStr "x") (VStr "lat") (VInt 4326)
         (TestLib.start TestLib.geometry_csv [])) = Ok out /\
  getitem "geometry" TestLib.table_with_geometry = Some (ObjCol ["POINT (1 2)"]) /\
  getitem "geometry" out = None.
Proof. simpl. repeat split; vm_compute; reflexivity. Qed.

(** * Further properties of the embedded functions *)

(** ** [parse_crs] *)

(** Resolving is stable: what [parse_crs] returned resolves to itself, so
    the second resolution inside [XYTableToPoint] and [Project] changes
    nothing; and "no CRS" is returned for an absent value only. *)
Theorem parse_crs_stable {CRS : Type} `{!PyProj CRS} (v : value CRS) (r : option CRS) :
  parse_crs v = Ok r ->
  parse_crs (crs_value r) = Ok r /\ (r = None <-> v = VNone).
Proof.
  intros Hv. split; [now destruct r |]. split.
  - intros ->. now apply parse_crs_None_inv.
  - intros ->. simpl in Hv. congruence.
Qed.

Lemma parse_crs_stable_witness :
  parse_crs (crs_value (Some TestLib.WebMercator)) = Ok (Some TestLib.WebMercator) /\
  (Some TestLib.WebMercator = None <-> @VStr TestLib.crs "3857" = VNone).
Proof. apply (parse_crs_stable (VStr "3857")). reflexivity. Defined.

(** ** [XYTableToPoint] and [Project] *)

#[local] Arguments parse_crs : simpl never.
#[local] Arguments to_float64 : simpl never.
#[local] Arguments contents : simpl never.
#[local] Arguments isfile : simpl never.
#[local] Arguments isdir : simpl never.

Ltac case_on_match H :=
  match type of H with
  | context [match ?x with _ => _ end] =>
      lazymatch x with
      | context [match _ with _ => _ end] => fail
      | _ => destruct x eqn:?
      end
  | context [let (_, _) := ?x in _] => destruct x eqn:?
  end.

Ltac execute H :=
  repeat (simpl in H; try discriminate H; try case_on_match H).

(** [XYTableToPoint] and the disk.  The call never reads the console, and
    the one thing it does to the disk is its last step, one call of the
    dataset driver on the disk as the call found it.  With an
    out_feature_class that is not a string the disk is unchanged.  When
    the call returns with a path, the driver was given the returned table
    and the driver name "ESRI Shapefile", and returned.  When the call
    raises, either the disk is unchanged or the error and the disk are
    those the driver left. *)
Theorem XYTableToPoint_files {CRS : Type} `{!PyProj CRS} `{!Os} `{!TableLib CRS}
    in_table out_feature_class x y z cs (w : world) r w' :
  XYTableToPoint in_table out_feature_class x y z cs w = (r, w') ->
  stdin w' = stdin w /\
  ((forall p, out_feature_class <> VStr p) -> fs w' = fs w) /\
  (forall gdf p, r = Ok gdf -> out_feature_class = VStr p ->
     dataset_write gdf p (Some "ESRI Shapefile") (fs w) = (Ok tt, fs w')) /\
  (forall e, r = Raise e ->
     fs w' = fs w \/
     exists p gdf, out_feature_class = VStr p /\
       dataset_write gdf p (Some "ESRI Shapefile") (fs w) = (Raise e, fs w')).
Proof.
  intros Hrun.
  unfold XYTableToPoint, bind, ret, raise, lift, read_csv, to_file, log in Hrun.
  execute Hrun.
  all: injection Hrun as <- <-; simpl.
  all: split; [reflexivity |].
  all: split; [first [ intros _; reflexivity | intros Hp; now destruct (Hp _ eq_refl) ] |].
  all: repeat match goal with u : unit |- _ => destruct u end.
  all: split; [intros g q Hg Hq; simplify_eq; assumption |].
  all: intros e' He; simplify_eq.
  all: first [ left; reflexivity
             | right; do 2 eexists; split; [reflexivity | eassumption] ].
Qed.

Lemma XYTableToPoint_files_witness :
  let gdf := GeoDataFrame TestLib.example_table [Point 121.75 25.0625 None] in
  dataset_write gdf "pts.shp" (Some "ESRI Shapefile") (fs (TestLib.start TestLib.example_csv [])) =
    (Ok tt, write_file "pts.shp" (TestLib.write_text gdf) (fs (TestLib.start TestLib.example_csv []))).
Proof.
  intros gdf.
  destruct (XYTableToPoint_files (TableFrame TestLib.example_table) (VStr "pts.shp")
              "x" "y" None VNone (TestLib.start TestLib.example_csv [])
              (Ok gdf)
              (World (write_file "pts.shp" (TestLib.write_text gdf)
                        (fs (TestLib.start TestLib.example_csv [])))
                 [] [EvToFile "pts.shp"]))
    as (_ & _ & Hok & _).
  - vm_compute. reflexivity.
  - exact (Hok gdf "pts.shp" eq_refl eq_refl).
Defined.

(** [Project] and the disk, likewise: nothing is read from the console;
    with an out_dataset that is not a string the disk is unchanged; when
    the call returns with a path, the driver was given the returned table
    with no driver name, on the disk as the call found it, and returned;
    when the call raises, either the disk is unchanged or the error and the
    disk are those the driver left. *)
Theorem Project_files {CRS : Type} `{!PyProj CRS} `{!Os} `{!TableLib CRS}
    in_dataset out_dataset target (w : world) r w' :
  Project in_dataset out_dataset target w = (r, w') ->
  stdin w' = stdin w /\
  ((forall p, out_dataset <> VStr p) -> fs w' = fs w) /\
  (forall gdf p, r = Ok gdf -> out_dataset = VStr p ->
     dataset_write gdf p None (fs w) = (Ok tt, fs w')) /\
  (forall e, r = Raise e ->
     fs w' = fs w \/
     exists p gdf, out_dataset = VStr p /\
       dataset_write gdf p None (fs w) = (Raise e, fs w')).
Proof.
  intros Hrun.
  unfold Project, bind, ret, raise, lift, read_file, to_file, print, log in Hrun.
  execute Hrun.
  all: injection Hrun as <- <-; simpl.
  all: split; [reflexivity |].
  all: split; [first [ intros _; reflexivity | intros Hp; now destruct (Hp _ eq_refl) ] |].
  all: repeat match goal with u : unit |- _ => destruct u end.
  all: split; [intros g q Hg Hq; simplify_eq; assumption |].
  all: intros e' He; simplify_eq.
  all: first [ left; reflexivity
             | right; do 2 eexists; split; [reflexivity | eassumption] ].
Qed.

Lemma Project_files_witness :
  let gdf := setitem "geometry" (GeomCol (Some TestLib.WGS84) [Point 121.75 25.0625 None])
               TestLib.example_table in
  let moved := setitem "geometry"
                 (GeomCol (Some TestLib.WebMercator) [Point 243.5 50.125 None])
                 TestLib.example_table in
  dataset_write moved "out.shp" None (fs (TestLib.start TestLib.example_csv [])) =
    (Ok tt, write_file "out.shp" (TestLib.write_text moved) (fs (TestLib.start TestLib.example_csv []))).
Proof.
  intros gdf moved.
  destruct (Project_files (DatasetGeoFrame gdf) (VStr "out.shp") (VInt 3857)
              (TestLib.start TestLib.example_csv []) (Ok moved)
              (World (write_file "out.shp" (TestLib.write_text moved)
                        (fs (TestLib.start TestLib.example_csv [])))
                 [] [EvToFile "out.shp"]))
    as (_ & _ & Hok & _).
  - vm_compute. reflexivity.
  - exact (Hok moved "out.shp" eq_refl eq_refl).
Defined.

Lemma map_pt_x_zip_xy xs ys :
  length xs = length ys -> map pt_x (zip_xy xs ys) = xs.
Proof.
  revert ys. induction xs as [| x xs IH]; intros [| y ys]; simpl; try discriminate;
    [reflexivity |].
  intros [= Hlen]. now rewrite IH.
Qed.

Lemma map_pt_y_zip_xy xs ys :
  length xs = length ys -> map pt_y (zip_xy xs ys) = ys.
Proof.
  revert ys. induction xs as [| x xs IH]; intros [| y ys]; simpl; try discriminate;
    [reflexivity |].
  intros [= Hlen]. now rewrite IH.
Qed.

Lemma zip_xyz_coordinates xs ys zs :
  length xs = length ys -> length ys = length zs ->
  map pt_x (zip_xyz xs ys zs) = xs /\
  map pt_y (zip_xyz xs ys zs) = ys /\
  map pt_z (zip_xyz xs ys zs) = map Some zs.
Proof.
  revert ys zs. induction xs as [| x xs IH]; intros [| y ys] [| z zs]; simpl;
    try discriminate; [now repeat split |].
  intros [= Hxy] [= Hyz]. destruct (IH ys zs Hxy Hyz) as (-> & -> & ->). now repeat split.
Qed.

Lemma zip_xy_flat xs ys : Forall (fun pt => pt_z pt = None) (zip_xy xs ys).
Proof.
  revert ys. induction xs as [| x xs IH]; intros [| y ys]; simpl; constructor;
    [reflexivity | apply IH].
Qed.

(** What [XYTableToPoint] returns.  The returned table is the input table
    (given in memory or read from the path) with the points as its column
    "geometry", tagged with the resolved coordinate system; every other
    column is as it was.  The points are made of the x and y (and z)
    fields as numpy converts them to float64: a float column as it is, a
    text column through [float] cell by cell.  On a table whose columns
    have one length there is one point per row and the coordinates read
    back from the points are the converted fields; without a z field the
    points have no third coordinate. *)
Theorem XYTableToPoint_builds_points {CRS : Type} `{!PyProj CRS} `{!Os} `{!TableLib CRS}
    in_table out_feature_class x y z cs (w : world) gdf w' :
  XYTableToPoint in_table out_feature_class x y z cs w = (Ok gdf, w') ->
  exists df cx cy xs ys tag pts,
    (in_table = TableFrame df \/
     exists p text, in_table = TablePath p /\
       contents (fs w) p = Some text /\ parse_csv p text = Some df) /\
    getitem x df = Some cx /\ to_float64 cx = Some xs /\
    getitem y df = Some cy /\ to_float64 cy = Some ys /\
    parse_crs cs = Ok tag /\
    gdf = setitem "geometry" (GeomCol tag pts) df /\
    (forall name, name <> "geometry" -> getitem name gdf = getitem name df) /\
    ((z = None /\ pts = zip_xy xs ys) \/
     (exists zf cz zs, z = Some zf /\ getitem zf df = Some cz /\ to_float64 cz = Some zs /\
        pts = zip_xyz xs ys zs)) /\
    (forall n, rectangular n df ->
       length pts = n /\ rectangular n gdf /\
       geometry_x gdf = Ok (NumCol xs) /\ geometry_y gdf = Ok (NumCol ys) /\
       (z = None -> Forall (fun pt => pt_z pt = None) pts)).
Proof.
  intros Hrun.
  unfold XYTableToPoint, bind, ret, raise, lift, read_csv, to_file, log,
    getitem_or_raise, points_from_xy, GeoDataFrame, set_crs in Hrun.
  execute Hrun; simplify_eq;
    rewrite ?getitem_setitem_eq in *; simplify_eq;
    rewrite ?setitem_setitem;
    match goal with
    | |- context [setitem "geometry" (GeomCol ?tag ?pts) ?df] =>
        match goal with
        | Hx : getitem x df = Some ?cx, Hy : getitem y df = Some ?cy,
          Hcx : to_float64 ?cx = Some ?xs, Hcy : to_float64 ?cy = Some ?ys |- _ =>
            exists df, cx, cy, xs, ys, tag, pts
        end
    end.
  all: split;
    [first [ left; reflexivity
           | right; do 2 eexists; split; [reflexivity |]; split; eassumption ] |].
  all: do 4 (split; [assumption |]).
  all: split; [first [ reflexivity | assumption ] |].
  all: split; [reflexivity |].
  all: split; [intros name Hname; now apply getitem_setitem_ne |].
  all: split;
    [ first [ left; split; reflexivity
            | right; do 3 eexists; split; [reflexivity |]; split; [eassumption |];
              split; [eassumption | reflexivity] ] |].
  all: intros n Hrect.
  all: repeat match goal with
         | Hg : getitem _ _ = Some ?c, Hc : to_float64 ?c = Some _ |- _ =>
             apply (rectangular_getitem _ _ _ _ Hrect) in Hg;
             apply to_float64_length in Hc; rewrite Hg in Hc
         end.
  all: unfold geometry_x, geometry_y; rewrite getitem_setitem_eq.
  all: match goal with
       | |- context [zip_xyz ?a ?b ?c] =>
           destruct (zip_xyz_coordinates a b c) as (Ex & Ey & Ez); [congruence | congruence |];
           assert (length (zip_xyz a b c) = n) as Hlen
             by (rewrite <- (length_map pt_x), Ex; assumption);
           rewrite Ex, Ey
       | |- context [zip_xy ?a ?b] =>
           assert (length (zip_xy a b) = n) as Hlen
             by (rewrite length_zip_xy; lia);
           rewrite (map_pt_x_zip_xy a b), (map_pt_y_zip_xy a b) by congruence
       end.
  all: split; [exact Hlen |].
  all: split; [apply rectangular_setitem; [exact Hlen | assumption] |].
  all: split; [reflexivity |]; split; [reflexivity |].
  all: first [ intros _; apply zip_xy_flat | intros [=] ].
Qed.

Lemma XYTableToPoint_builds_points_witness :
  let gdf := setitem "geometry"
               (GeomCol (Some TestLib.WGS84) [Point 1000 2 None; Point 3 4 None])
               TestLib.table_with_text in
  geometry_x gdf = Ok (NumCol [1000%float; 3%float]) /\
  geometry_y gdf = Ok (NumCol [2%float; 4%float]).
Proof.
  intros gdf.
  destruct (XYTableToPoint_builds_points (TableFrame TestLib.table_with_text) VNone
              "x" "y" None (VInt 4326) (TestLib.start TestLib.text_csv [])
              gdf (TestLib.start TestLib.text_csv []))
    as (df & cx & cy & xs & ys & tag & pts & Hin & Hx & Hcx & Hy & Hcy & _ & _ & _ & _ & Hrows).
  - vm_compute. reflexivity.
  - destruct Hin as [[= <-] | (p & text & [=] & _)].
    destruct (Hrows 2%nat) as (_ & _ & Hgx & Hgy & _); [repeat constructor |].
    vm_compute in Hx, Hy. injection Hx as <-. injection Hy as <-.
    vm_compute in Hcx, Hcy. injection Hcx as <-. injection Hcy as <-.
    split; assumption.
Defined.

(** What [Project] returns for a tagged geometry and a target that
    resolves: the points moved by the library's transformation from the
    current CRS to the target, tagged with the target; the same labels in
    the same order, one point per point, every other column as it was; and
    nothing printed, read or written when there is no output path. *)
Theorem Project_reprojects {CRS : Type} `{!PyProj CRS} `{!Os} `{!TableLib CRS}
    (gdf : DataFrame CRS) src pts target dst (w : world) :
  getitem "geometry" gdf = Some (GeomCol (Some src) pts) ->
  parse_crs target = Ok (Some dst) ->
  exists out,
    Project (DatasetGeoFrame gdf) VNone target w = (Ok out, w) /\
    getitem "geometry" out = Some (GeomCol (Some dst) (map (transform src dst) pts)) /\
    gdf_crs out = Some dst /\
    columns out = columns gdf /\
    (forall name, name <> "geometry" -> getitem name out = getitem name gdf) /\
    (forall n, rectangular n gdf -> rectangular n out).
Proof.
  intros Hgeo Hparse.
  exists (setitem "geometry" (GeomCol (Some dst) (map (transform src dst) pts)) gdf).
  split; [| split; [| split; [| split; [| split]]]].
  - unfold Project, bind, ret, lift, to_crs.
    destruct target; try (rewrite Hparse, Hgeo; reflexivity).
    discriminate Hparse.
  - apply getitem_setitem_eq.
  - unfold gdf_crs. now rewrite getitem_setitem_eq.
  - rewrite columns_setitem. unfold add_label.
    apply getitem_Some_has in Hgeo. unfold has_column in Hgeo. now rewrite Hgeo.
  - intros name Hname. now apply getitem_setitem_ne.
  - intros n Hrect. apply rectangular_setitem; [| assumption].
    simpl. rewrite length_map.
    exact (rectangular_getitem _ _ _ _ Hrect Hgeo).
Qed.

Lemma Project_reprojects_witness :
  exists out,
    Project (DatasetGeoFrame
               (setitem "geometry" (GeomCol (Some TestLib.WebMercator) [Point 1 2 None])
                  TestLib.example_table))
      VNone (VStr "4326") (TestLib.start TestLib.example_csv []) =
      (Ok out, TestLib.start TestLib.example_csv []) /\
    getitem "geometry" out =
      Some (GeomCol (Some TestLib.WGS84)
              (map (transform TestLib.WebMercator TestLib.WGS84) [Point 1 2 None])).
Proof.
  destruct (Project_reprojects
              (setitem "geometry" (GeomCol (Some TestLib.WebMercator) [Point 1 2 None])
                 TestLib.example_table)
              TestLib.WebMercator [Point 1 2 None] (VStr "4326") TestLib.WGS84
              (TestLib.start TestLib.example_csv []))
    as (out & Hrun & Hgeo & _).
  - vm_compute. reflexivity.
  - vm_compute. reflexivity.
  - exists out. split; assumption.
Defined.

(** ** The disk *)

Section DiskFacts.
Context `{!Os}.

Lemma contents_nonempty (d : disk) p text : contents d p = Some text -> p <> "".
Proof. unfold contents. intros Hc ->. discriminate Hc. Qed.

Lemma contents_abs (d : disk) p : p <> "" -> contents d p = files d !! abspath p.
Proof. intros Hp. unfold contents. now rewrite (proj2 (String.eqb_neq p "") Hp). Qed.

Lemma contents_abspath (d : disk) p : contents d (abspath p) = files d !! abspath (abspath p).
Proof. apply contents_abs, abspath_nonempty. Qed.

Lemma isfile_nonempty (d : disk) p : isfile d p = true -> p <> "".
Proof.
  unfold isfile. destruct (contents d p) eqn:Hc; [| discriminate].
  intros _. exact (contents_nonempty _ _ _ Hc).
Qed.

Lemma isfile_abspath (d : disk) p :
  (forall q, abspath (abspath q) = abspath q) ->
  isfile d p = true -> isfile d (abspath p) = true.
Proof.
  intros Hidem Hp. pose proof (isfile_nonempty _ _ Hp) as Hne.
  unfold isfile in *. rewrite contents_abspath, Hidem. now rewrite contents_abs in Hp.
Qed.

Lemma isfile_kept (d d1 : disk) p :
  (forall q, is_Some (files d !! q) -> is_Some (files d1 !! q)) ->
  isfile d p = true -> isfile d1 p = true.
Proof.
  intros Hkeep Hp. pose proof (isfile_nonempty _ _ Hp) as Hne.
  unfold isfile in *. rewrite contents_abs in * by assumption.
  destruct (files d !! abspath p) eqn:E; [| discriminate Hp].
  destruct (Hkeep (abspath p)) as [c' ->]; [rewrite E; eauto | reflexivity].
Qed.

Lemma isdir_nonempty (d : disk) p : isdir d p = true -> p <> "".
Proof. unfold isdir. intros Hd ->. discriminate Hd. Qed.

Lemma isdir_abs (d : disk) p : p <> "" -> isdir d p = bool_decide (abspath p ∈ dirs d).
Proof. intros Hp. unfold isdir. now rewrite (proj2 (String.eqb_neq p "") Hp). Qed.




End DiskFacts.

(** ** [coordinate_transform]: what a call with well-formed arguments does *)

Section Run.
Context {CRS : Type} `{!PyProj CRS} `{!Os} `{!TableLib CRS}.

(** Lines 25 to 91 on a readable table, two coordinate fields that convert
    to numbers and arguments of the right classes. *)
Lemma transform_table_run p x y ic op ox oy oc (w : world) text t cx cy xs ys icrs ocrs :
  contents (fs w) p = Some text ->
  parse_csv p text = Some t ->
  x <> y ->
  getitem x t = Some cx -> to_float64 cx = Some xs ->
  getitem y t = Some cy -> to_float64 cy = Some ys ->
  parse_crs ic = Ok icrs ->
  (op = VNone \/ exists q, op = VStr q) ->
  ox <> oy ->
  parse_crs oc = Ok ocrs ->
  transform_table p (VStr x) (VStr y) ic op (VStr ox) (VStr oy) oc w =
    let w1 := World (fs w) (stdin w) (trace w ++ [EvIsFile p; EvReadCsv p]) in
    match ocrs, icrs with
    | None, _ =>
        (flatten ox oy (setitem "geometry" (GeomCol icrs (zip_xy xs ys)) t),
         World (fs w) (stdin w)
           (trace w ++ [EvIsFile p; EvReadCsv p; EvPrint Project_warning]))
    | Some dst, Some src =>
        (flatten ox oy
           (setitem "geometry"
              (GeomCol (Some dst) (map (transform src dst) (zip_xy xs ys))) t), w1)
    | Some _, None => (Raise NaiveGeometries, w1)
    end.
Proof.
  intros Hfile Hparse Hxy Hx Hcx Hy Hcy Hic Hop Hoxy Hoc.
  apply String.eqb_neq in Hxy. apply String.eqb_neq in Hoxy.
  unfold transform_table, bind, os_path_isfile, read_csv, raise, log, isfile.
  simpl. rewrite Hfile. simpl. rewrite Hfile, Hparse.
  rewrite Hxy.
  rewrite (getitem_Some_has _ _ _ Hx), (getitem_Some_has _ _ _ Hy). simpl.
  rewrite Hic.
  assert (match op with
          | VNone | VStr _ => ret tt
          | _ => fun w0 : world => (Raise OutTablePathNotString, w0)
          end = ret tt) as -> by (destruct Hop as [-> | [q ->]]; reflexivity).
  unfold ret at 1. rewrite Hoxy, Hoc.
  rewrite (XYTableToPoint_run t x y cx cy xs ys icrs) by assumption.
  rewrite (Project_run _ icrs (zip_xy xs ys) ocrs) by apply getitem_setitem_eq.
  unfold flatten, lift, log.
  destruct ocrs as [dst |]; [destruct icrs as [src |] |]; simpl;
    rewrite ?setitem_setitem, <- ?app_assoc; simpl.
  - destruct (geometry_x _); [| reflexivity]. now destruct (geometry_y _).
  - reflexivity.
  - destruct (geometry_x _); [| reflexivity]. now destruct (geometry_y _).
Qed.

(** Lines 25 to 91 when a coordinate field does not convert. *)
Lemma transform_table_not_numeric p x y ic op ox oy oc (w : world) text t cx cy icrs ocrs :
  contents (fs w) p = Some text ->
  parse_csv p text = Some t ->
  x <> y ->
  getitem x t = Some cx ->
  getitem y t = Some cy ->
  to_float64 cx = None \/ to_float64 cy = None ->
  parse_crs ic = Ok icrs ->
  (op = VNone \/ exists q, op = VStr q) ->
  ox <> oy ->
  parse_crs oc = Ok ocrs ->
  transform_table p (VStr x) (VStr y) ic op (VStr ox) (VStr oy) oc w =
    (Raise NotNumericColumn,
     World (fs w) (stdin w) (trace w ++ [EvIsFile p; EvReadCsv p])).
Proof.
  intros Hfile Hparse Hxy Hx Hy Htext Hic Hop Hoxy Hoc.
  apply String.eqb_neq in Hxy. apply String.eqb_neq in Hoxy.
  unfold transform_table, bind, os_path_isfile, read_csv, raise, log, isfile.
  simpl. rewrite Hfile. simpl. rewrite Hfile, Hparse.
  rewrite Hxy.
  rewrite (getitem_Some_has _ _ _ Hx), (getitem_Some_has _ _ _ Hy). simpl.
  rewrite Hic.
  assert (match op with
          | VNone | VStr _ => ret tt
          | _ => fun w0 : world => (Raise OutTablePathNotString, w0)
          end = ret tt) as -> by (destruct Hop as [-> | [q ->]]; reflexivity).
  unfold ret at 1. rewrite Hoxy, Hoc.
  unfold XYTableToPoint, bind, ret, raise, lift, getitem_or_raise, points_from_xy.
  rewrite (getitem_Some_has _ _ _ Hx), (getitem_Some_has _ _ _ Hy). simpl.
  rewrite Hx, Hy. simpl. rewrite <- app_assoc. simpl.
  destruct Htext as [Hc | Hc]; rewrite Hc; [reflexivity |].
  now destruct (to_float64 cx).
Qed.

(** The three ways lines 88 to 91 can end. *)
Lemma flatten_geometry (df : DataFrame CRS) tag pts ox oy :
  getitem "geometry" df = Some (GeomCol tag pts) ->
  ox <> oy ->
  flatten ox oy df =
    if String.eqb ox "geometry" then Raise NoGeometryColumn
    else Ok (drop_column "geometry"
               (setitem oy (NumCol (map pt_y pts)) (setitem ox (NumCol (map pt_x pts)) df))).
Proof.
  intros Hgeo Hoxy. unfold flatten, geometry_x, geometry_y, drop. rewrite Hgeo.
  destruct (String.eqb_spec ox "geometry") as [-> | Hne].
  - now rewrite getitem_setitem_eq.
  - rewrite getitem_setitem_ne, Hgeo by congruence.
    assert (has_column "geometry"
              (setitem oy (NumCol (map pt_y pts)) (setitem ox (NumCol (map pt_x pts)) df))
            = true) as ->; [| reflexivity].
    destruct (String.eqb_spec oy "geometry") as [-> | Hne'].
    + apply has_column_setitem.
    + apply getitem_Some_has with (GeomCol tag pts).
      now rewrite !getitem_setitem_ne by congruence.
Qed.




End Run.



(** With no input coordinate system and a target that resolves, the call
    cannot project: on a readable table and otherwise well-formed arguments
    it raises the "naive geometries" error after the file check and the
    read, and writes nothing. *)
Theorem absent_source_crs_raises {CRS : Type} `{!PyProj CRS} `{!Os} `{!TableLib CRS}
    p x y op ox oy oc (w : world) text t cx cy xs ys dst :
  contents (fs w) p = Some text ->
  parse_csv p text = Some t ->
  x <> y ->
  getitem x t = Some cx -> to_float64 cx = Some xs ->
  getitem y t = Some cy -> to_float64 cy = Some ys ->
  (op = VNone \/ exists q, op = VStr q) ->
  ox <> oy ->
  parse_crs oc = Ok (Some dst) ->
  coordinate_transform p (VStr x) (VStr y) VNone op (VStr ox) (VStr oy) oc w =
    (Raise NaiveGeometries,
     World (fs w) (stdin w) (trace w ++ [EvIsFile p; EvReadCsv p])).
Proof.
  intros Hfile Hparse Hxy Hx Hcx Hy Hcy Hop Hoxy Hoc.
  rewrite coordinate_transform_eq.
  now rewrite (transform_table_run p x y VNone op ox oy oc w text t cx cy xs ys
                 None (Some dst)).
Qed.

Lemma absent_source_crs_raises_witness :
  coordinate_transform "in.csv" (VStr "x") (VStr "y") VNone (VStr "out.csv")
    (VStr "lon") (VStr "lat") (VInt 4326) (TestLib.start TestLib.example_csv []) =
  (Raise NaiveGeometries,
   World (fs (TestLib.start TestLib.example_csv []))
     (stdin (TestLib.start TestLib.example_csv []))
     (trace (TestLib.start TestLib.example_csv [])
      ++ [EvIsFile "in.csv"; EvReadCsv "in.csv"])).
Proof.
  apply (absent_source_crs_raises "in.csv" "x" "y" (VStr "out.csv") "lon" "lat" (VInt 4326)
           (TestLib.start TestLib.example_csv []) TestLib.example_csv TestLib.example_table
           (NumCol [121.75%float]) (NumCol [25.0625%float])
           [121.75%float] [25.0625%float] TestLib.WGS84);
    first [ discriminate | right; now exists "out.csv" | vm_compute; reflexivity ].
Defined.

(** With no output coordinate system the call copies: on a readable table
    whose columns have one length, whatever the input coordinate system
    resolves to, the output fields receive the values of the input
    coordinate fields as converted to numbers (unchanged for a float
    column), the "not specified" warning is the one thing printed, and
    with no output path nothing is written. *)
Theorem absent_target_crs_copies_coordinates {CRS : Type} `{!PyProj CRS} `{!Os} `{!TableLib CRS}
    p x y ic ox oy (w : world) text t cx cy xs ys icrs n :
  contents (fs w) p = Some text ->
  parse_csv p text = Some t ->
  rectangular n t ->
  x <> y ->
  getitem x t = Some cx -> to_float64 cx = Some xs ->
  getitem y t = Some cy -> to_float64 cy = Some ys ->
  parse_crs ic = Ok icrs ->
  ox <> oy ->
  ox <> "geometry" ->
  exists out,
    coordinate_transform p (VStr x) (VStr y) ic VNone (VStr ox) (VStr oy) VNone w =
      (Ok out,
       World (fs w) (stdin w)
         (trace w ++ [EvIsFile p; EvReadCsv p; EvPrint Project_warning])) /\
    getitem ox out = Some (NumCol xs) /\
    (oy <> "geometry" -> getitem oy out = Some (NumCol ys)).
Proof.
  intros Hfile Hparse Hrect Hxy Hx Hcx Hy Hcy Hic Hoxy Hgeo.
  assert (length xs = length ys) as Hlen.
  { pose proof (rectangular_getitem _ _ _ _ Hrect Hx) as Lx.
    pose proof (rectangular_getitem _ _ _ _ Hrect Hy) as Ly.
    rewrite (to_float64_length _ _ Hcx), (to_float64_length _ _ Hcy). congruence. }
  eexists. split.
  - rewrite coordinate_transform_eq.
    rewrite (transform_table_run p x y ic VNone ox oy VNone w text t cx cy xs ys icrs None)
      by (try assumption; try reflexivity; now left).
    cbv zeta.
    rewrite (flatten_geometry _ icrs (zip_xy xs ys))
      by (try assumption; apply getitem_setitem_eq).
    apply String.eqb_neq in Hgeo. rewrite Hgeo. reflexivity.
  - rewrite map_pt_x_zip_xy, map_pt_y_zip_xy by assumption. split.
    + rewrite getitem_drop_ne, getitem_setitem_ne by assumption. apply getitem_setitem_eq.
    + intros Hoy. rewrite getitem_drop_ne by assumption. apply getitem_setitem_eq.
Qed.

Lemma absent_target_crs_copies_coordinates_witness :
  exists out,
    coordinate_transform "in.csv" (VStr "x") (VStr "y") (VInt 3857) VNone
      (VStr "lon") (VStr "lat") VNone (TestLib.start TestLib.example_csv []) =
      (Ok out,
       World (fs (TestLib.start TestLib.example_csv []))
         (stdin (TestLib.start TestLib.example_csv []))
         (trace (TestLib.start TestLib.example_csv [])
          ++ [EvIsFile "in.csv"; EvReadCsv "in.csv"; EvPrint Project_warning])) /\
    getitem "lon" out = Some (NumCol [121.75%float]) /\
    ("lat" <> "geometry" -> getitem "lat" out = Some (NumCol [25.0625%float])).
Proof.
  apply (absent_target_crs_copies_coordinates "in.csv" "x" "y" (VInt 3857) "lon" "lat"
           (TestLib.start TestLib.example_csv []) TestLib.example_csv TestLib.example_table
           (NumCol [121.75%float]) (NumCol [25.0625%float])
           [121.75%float] [25.0625%float] (Some TestLib.WebMercator) 1%nat);
    first [ discriminate | repeat constructor | vm_compute; reflexivity ].
Defined.

Lemma drop_setitem_same {CRS : Type} name (c : column CRS) df :
  drop_column name (setitem name c df) = drop_column name df.
Proof.
  unfold setitem, drop_column. destruct (has_column name df).
  - unfold replace_column. induction df as [| [n c'] df IH]; simpl; [reflexivity |].
    destruct (String.eqb name n) eqn:E; simpl; rewrite E; simpl; now rewrite IH.
  - rewrite List.filter_app. simpl. rewrite String.eqb_refl. simpl. apply app_nil_r.
Qed.

Lemma has_column_drop_ne {CRS : Type} name other (df : DataFrame CRS) :
  name <> other -> has_column name (drop_column other df) = has_column name df.
Proof.
  intros Hne. destruct (has_column name df) eqn:E.
  - destruct (getitem name df) as [c |] eqn:G; [| apply getitem_None in G; congruence].
    apply getitem_Some_has with c. now rewrite getitem_drop_ne.
  - apply getitem_None. rewrite getitem_drop_ne by assumption. now apply getitem_None.
Qed.

Lemma drop_setitem_ne {CRS : Type} name other (c : column CRS) df :
  name <> other ->
  drop_column other (setitem name c df) = setitem name c (drop_column other df).
Proof.
  intros Hne. unfold setitem. rewrite has_column_drop_ne by assumption.
  destruct (has_column name df).
  - unfold drop_column, replace_column.
    induction df as [| [n c'] df IH]; simpl; [reflexivity |].
    destruct (String.eqb name n) eqn:E; simpl.
    + apply String.eqb_eq in E. subst n.
      assert (String.eqb other name = false) as -> by (apply String.eqb_neq; congruence).
      simpl. rewrite String.eqb_refl. now rewrite IH.
    + destruct (String.eqb other n); simpl; [| rewrite E]; now rewrite IH.
  - unfold drop_column. rewrite List.filter_app. simpl.
    assert (String.eqb other name = false) as -> by (apply String.eqb_neq; congruence).
    reflexivity.
Qed.

(** The name "geometry" as an output field.  On a readable table and
    otherwise well-formed arguments: with out_x_field "geometry" the call
    raises (the x coordinates replace the points, which then have no y to
    read) and writes nothing; with out_y_field "geometry" lines 25 to 91
    return, but the y coordinates are dropped with the column: the table
    has the x output and no column for y. *)
Theorem geometry_as_output_field {CRS : Type} `{!PyProj CRS} `{!Os} `{!TableLib CRS}
    p x y ic op oc (w : world) text t cx cy xs ys src dst name :
  contents (fs w) p = Some text ->
  parse_csv p text = Some t ->
  x <> y ->
  getitem x t = Some cx -> to_float64 cx = Some xs ->
  getitem y t = Some cy -> to_float64 cy = Some ys ->
  parse_crs ic = Ok (Some src) ->
  parse_crs oc = Ok (Some dst) ->
  (op = VNone \/ exists q, op = VStr q) ->
  name <> "geometry" ->
  let pts := map (transform src dst) (zip_xy xs ys) in
  coordinate_transform p (VStr x) (VStr y) ic op (VStr "geometry") (VStr name) oc w =
    (Raise NoGeometryColumn,
     World (fs w) (stdin w) (trace w ++ [EvIsFile p; EvReadCsv p])) /\
  transform_table p (VStr x) (VStr y) ic op (VStr name) (VStr "geometry") oc w =
    (Ok (drop_column "geometry" (setitem name (NumCol (map pt_x pts)) t)),
     World (fs w) (stdin w) (trace w ++ [EvIsFile p; EvReadCsv p])).
Proof.
  intros Hfile Hparse Hxy Hx Hcx Hy Hcy Hic Hoc Hop Hname pts.
  split.
  - rewrite coordinate_transform_eq.
    rewrite (transform_table_run p x y ic op "geometry" name oc w text t cx cy xs ys
               (Some src) (Some dst))
      by (try assumption; congruence).
    cbv zeta.
    now rewrite (flatten_geometry _ (Some dst) pts)
      by (try apply getitem_setitem_eq; congruence).
  - rewrite (transform_table_run p x y ic op name "geometry" oc w text t cx cy xs ys
               (Some src) (Some dst))
      by assumption.
    cbv zeta.
    rewrite (flatten_geometry _ (Some dst) pts) by (try assumption; apply getitem_setitem_eq).
    rewrite (proj2 (String.eqb_neq name "geometry") Hname). do 2 f_equal.
    rewrite drop_setitem_same, !drop_setitem_ne, drop_setitem_same by congruence.
    symmetry. now apply drop_setitem_ne.
Qed.

Lemma geometry_as_output_field_witness :
  coordinate_transform "in.csv" (VStr "x") (VStr "y") (VInt 3857) VNone
    (VStr "geometry") (VStr "lat") (VInt 4326) (TestLib.start TestLib.example_csv []) =
  (Raise NoGeometryColumn,
   World (fs (TestLib.start TestLib.example_csv []))
     (stdin (TestLib.start TestLib.example_csv []))
     (trace (TestLib.start TestLib.example_csv [])
      ++ [EvIsFile "in.csv"; EvReadCsv "in.csv"])).
Proof.
  refine (proj1 (geometry_as_output_field "in.csv" "x" "y" (VInt 3857) VNone (VInt 4326)
                   (TestLib.start TestLib.example_csv []) TestLib.example_csv
                   TestLib.example_table (NumCol [121.75%float]) (NumCol [25.0625%float])
                   [121.75%float] [25.0625%float] TestLib.WebMercator TestLib.WGS84 "lat"
                   _ _ _ _ _ _ _ _ _ _ _));
    first [ discriminate | now left | vm_compute; reflexivity ].
Defined.

(** A coordinate field that does not convert.  On a readable table, when
    both coordinate fields exist but numpy cannot convert one of them to
    float64 (a text column with a cell that [float] refuses, or a column
    of points), a call with otherwise well-formed arguments raises the
    conversion error of the point construction after the file check and
    the read, and writes nothing. *)
Theorem text_coordinate_field_raises {CRS : Type} `{!PyProj CRS} `{!Os} `{!TableLib CRS}
    p x y ic op ox oy oc (w : world) text t cx cy icrs ocrs :
  contents (fs w) p = Some text ->
  parse_csv p text = Some t ->
  x <> y ->
  getitem x t = Some cx ->
  getitem y t = Some cy ->
  to_float64 cx = None \/ to_float64 cy = None ->
  parse_crs ic = Ok icrs ->
  (op = VNone \/ exists q, op = VStr q) ->
  ox <> oy ->
  parse_crs oc = Ok ocrs ->
  coordinate_transform p (VStr x) (VStr y) ic op (VStr ox) (VStr oy) oc w =
    (Raise NotNumericColumn,
     World (fs w) (stdin w) (trace w ++ [EvIsFile p; EvReadCsv p])).
Proof.
  intros Hfile Hparse Hxy Hx Hy Htext Hic Hop Hoxy Hoc.
  rewrite coordinate_transform_eq.
  now rewrite (transform_table_not_numeric p x y ic op ox oy oc w text t cx cy icrs ocrs).
Qed.

Lemma text_coordinate_field_raises_witness :
  coordinate_transform "in.csv" (VStr "x") (VStr "name") (VInt 3857) VNone
    (VStr "lon") (VStr "lat") (VInt 4326) (TestLib.start TestLib.geometry_csv []) =
  (Raise NotNumericColumn,
   World (fs (TestLib.start TestLib.geometry_csv []))
     (stdin (TestLib.start TestLib.geometry_csv []))
     (trace (TestLib.start TestLib.geometry_csv [])
      ++ [EvIsFile "in.csv"; EvReadCsv "in.csv"])).
Proof.
  apply (text_coordinate_field_raises "in.csv" "x" "name" (VInt 3857) VNone "lon" "lat"
           (VInt 4326) (TestLib.start TestLib.geometry_csv []) TestLib.geometry_csv
           TestLib.table_with_geometry (NumCol [1%float]) (ObjCol ["a"])
           (Some TestLib.WebMercator) (Some TestLib.WGS84));
    first [ discriminate | now left | right; vm_compute; reflexivity
          | vm_compute; reflexivity ].
Defined.

(** End of input at the confirmation.  When the output path is the input
    path, lines 25 to 91 have computed a table and standard input has no
    line left, the call ends with the end-of-file error of [input()] after
    printing the warning, and writes nothing. *)
Theorem end_of_input_at_confirmation {CRS : Type} `{!PyProj CRS} `{!Os} `{!TableLib CRS}
    p ix iy ic ox oy oc (w : world) df w1 :
  transform_table p ix iy ic (VStr p) ox oy oc w = (Ok df, w1) ->
  stdin w = [] ->
  coordinate_transform p ix iy ic (VStr p) ox oy oc w =
    (Raise EOFError,
     World (fs w) [] (trace w1 ++ [EvPrint overwrite_warning; EvInput])).
Proof.
  intros Ht Hin. rewrite coordinate_transform_eq, Ht.
  destruct (transform_table_world _ _ _ _ _ _ _ _ _ _ _ Ht) as (evs & -> & _).
  unfold save_table, bind, print, input, raise, log. rewrite String.eqb_refl. simpl.
  rewrite Hin. simpl. now rewrite <- app_assoc.
Qed.

Lemma end_of_input_at_confirmation_witness :
  coordinate_transform "in.csv" (VStr "x") (VStr "y") (VInt 3857) (VStr "in.csv")
    (VStr "lon") (VStr "lat") (VInt 4326) (TestLib.start TestLib.example_csv []) =
  (Raise EOFError,
   World (fs (TestLib.start TestLib.example_csv [])) []
     (trace (TestLib.loaded TestLib.example_csv [])
      ++ [EvPrint overwrite_warning; EvInput])).
Proof.
  apply (end_of_input_at_confirmation "in.csv" _ _ _ _ _ _ _ TestLib.example_output
           (TestLib.loaded TestLib.example_csv [])).
  - vm_compute. reflexivity.
  - reflexivity.
Defined.



(** ** Strings and [os.path] *)

Lemma append_cons c (s t : string) : (String c s ++ t)%string = String c (s ++ t)%string.
Proof. reflexivity. Qed.

Lemma append_empty (t : string) : ("" ++ t)%string = t.
Proof. reflexivity. Qed.

Ltac push_append := rewrite ?append_cons, ?append_empty.

Lemma take_drop n s : (Str.take n s ++ Str.drop n s)%string = s.
Proof.
  revert s. induction n as [| n IH]; intros [| c s]; simpl; push_append; try reflexivity.
  now rewrite IH.
Qed.

Lemma length_append (s t : string) :
  String.length (s ++ t)%string = (String.length s + String.length t)%nat.
Proof.
  induction s as [| c s IH]; push_append; simpl; [reflexivity | now rewrite IH].
Qed.

Lemma take_append_exact (s t : string) : Str.take (String.length s) (s ++ t)%string = s.
Proof.
  induction s as [| c s IH]; push_append; simpl; [now destruct t | now rewrite IH].
Qed.

Lemma drop_append_exact (s t : string) : Str.drop (String.length s) (s ++ t)%string = t.
Proof.
  induction s as [| c s IH]; push_append; simpl; [now destruct t | exact IH].
Qed.

Lemma append_assoc (s t u : string) : ((s ++ t) ++ u)%string = (s ++ (t ++ u))%string.
Proof.
  induction s as [| c s IH]; push_append; [reflexivity | now rewrite IH].
Qed.

Lemma length_lower s : String.length (Str.lower s) = String.length s.
Proof. induction s as [| c s IH]; simpl; [reflexivity | now rewrite IH]. Qed.

Lemma lower_char_idempotent c : Str.lower_char (Str.lower_char c) = Str.lower_char c.
Proof. destruct c as [[] [] [] [] [] [] [] []]; reflexivity. Qed.

Lemma lower_idempotent s : Str.lower (Str.lower s) = Str.lower s.
Proof.
  induction s as [| c s IH]; simpl; [reflexivity |].
  now rewrite lower_char_idempotent, IH.
Qed.

Lemma lower_char_keeps_marks c :
  (Ascii.eqb (Str.lower_char c) Str.dot = Ascii.eqb c Str.dot) /\
  (Ascii.eqb (Str.lower_char c) Str.slash = Ascii.eqb c Str.slash).
Proof. destruct c as [[] [] [] [] [] [] [] []]; split; reflexivity. Qed.

Lemma contains_lower c s :
  c = Str.dot \/ c = Str.slash ->
  Str.contains c (Str.lower s) = Str.contains c s.
Proof.
  intros Hc. induction s as [| a s IH]; simpl; [reflexivity |].
  rewrite IH. destruct (lower_char_keeps_marks a) as [Hd Hs].
  destruct Hc as [-> | ->]; now rewrite ?Hd, ?Hs.
Qed.

Lemma contains_remove_char a s : Str.contains a (Str.remove_char a s) = false.
Proof.
  induction s as [| c s IH]; simpl; [reflexivity |].
  destruct (Ascii.eqb c a) eqn:E; simpl; [exact IH | now rewrite E].
Qed.

Lemma contains_remove_char_other a b s :
  Str.contains b s = false -> Str.contains b (Str.remove_char a s) = false.
Proof.
  induction s as [| c s IH]; simpl; [reflexivity |].
  intros H. apply orb_false_iff in H. destruct H as [Hc Hs].
  destruct (Ascii.eqb c a); simpl; [now apply IH | now rewrite Hc, IH].
Qed.

Lemma remove_char_absent a s : Str.contains a s = false -> Str.remove_char a s = s.
Proof.
  induction s as [| c s IH]; simpl; [reflexivity |].
  intros H. apply orb_false_iff in H. destruct H as [Hc Hs]. now rewrite Hc, IH.
Qed.

Lemma contains_replace_char a b s :
  a <> b -> Str.contains a (Str.replace_char a b s) = false.
Proof.
  intros Hab. induction s as [| c s IH]; simpl; [reflexivity |]. rewrite IH.
  destruct (Ascii.eqb c a) eqn:E; [| now rewrite E].
  destruct (Ascii.eqb b a) eqn:E'; [apply Ascii.eqb_eq in E'; congruence | reflexivity].
Qed.

Lemma replace_char_absent a b s :
  Str.contains a s = false -> Str.replace_char a b s = s.
Proof.
  induction s as [| c s IH]; simpl; [reflexivity |].
  intros H. apply orb_false_iff in H. destruct H as [Hc Hs]. now rewrite Hc, IH.
Qed.

Lemma contains_append c s t :
  Str.contains c (s ++ t)%string = Str.contains c s || Str.contains c t.
Proof.
  induction s as [| a s IH]; push_append; simpl; [reflexivity |]. now rewrite IH, orb_assoc.
Qed.

Lemma contains_take c n s : Str.contains c s = false -> Str.contains c (Str.take n s) = false.
Proof.
  revert s. induction n as [| n IH]; intros [| a s]; simpl; try reflexivity.
  intros H. apply orb_false_iff in H. destruct H as [Ha Hs]. now rewrite Ha, IH.
Qed.

Lemma contains_drop c n s : Str.contains c s = false -> Str.contains c (Str.drop n s) = false.
Proof.
  revert s. induction n as [| n IH]; intros [| a s]; simpl; try (intros; assumption).
  intros H. apply orb_false_iff in H. destruct H as [Ha Hs]. now apply IH.
Qed.

(** [rfind]: either the character is absent, or the text splits at its
    last occurrence. *)
Lemma rfind_spec c s :
  (Str.rfind c s = -1 /\ Str.contains c s = false) \/
  (exists before after,
     s = (before ++ String c after)%string /\
     Str.rfind c s = Z.of_nat (String.length before) /\
     Str.contains c after = false).
Proof.
  induction s as [| a s IH]; simpl; [now left |].
  destruct IH as [[Hr Hc] | (before & after & Hs & Hr & Hc)].
  - rewrite Hr. simpl. destruct (Ascii.eqb a c) eqn:E.
    + right. apply Ascii.eqb_eq in E. subst a. exists "", s. now repeat split.
    + left. now rewrite Hc.
  - right. rewrite Hr.
    destruct (0 <=? Z.of_nat (String.length before))%Z eqn:E; [| lia].
    exists (String a before), after. subst s. push_append. simpl.
    repeat split; [lia | assumption].
Qed.


Lemma split_nonempty sep s : Str.split sep s <> [].
Proof.
  destruct s as [| c s]; simpl; [discriminate |].
  destruct (Ascii.eqb c sep); [discriminate |]. now destruct (Str.split sep s).
Qed.

Lemma join_cons sep piece rest :
  rest <> [] ->
  Str.join sep (piece :: rest) = (piece ++ String sep (Str.join sep rest))%string.
Proof. now destruct rest. Qed.

Lemma join_split sep s : Str.join sep (Str.split sep s) = s.
Proof.
  induction s as [| c s IH]; simpl; [reflexivity |].
  pose proof (split_nonempty sep s) as Hne.
  destruct (Ascii.eqb c sep) eqn:E.
  - apply Ascii.eqb_eq in E. subst c. rewrite join_cons by assumption. now rewrite IH.
  - destruct (Str.split sep s) as [| piece pieces]; [congruence |].
    destruct pieces as [| piece' pieces].
    + simpl in *. now rewrite IH.
    + rewrite join_cons in * by discriminate. push_append. now rewrite IH.
Qed.

Lemma split_no_sep sep s : Str.contains sep s = false -> Str.split sep s = [s].
Proof.
  induction s as [| c s IH]; simpl; [reflexivity |].
  intros H. apply orb_false_iff in H. destruct H as [Hc Hs]. now rewrite Hc, IH.
Qed.

Lemma split_append_sep sep before after :
  Str.split sep (before ++ String sep after)%string =
  (Str.split sep before ++ Str.split sep after)%list.
Proof.
  induction before as [| c before IH]; push_append; simpl.
  - now rewrite Ascii.eqb_refl.
  - rewrite IH. destruct (Ascii.eqb c sep); [reflexivity |].
    pose proof (split_nonempty sep before) as Hne.
    now destruct (Str.split sep before).
Qed.

Lemma join_snoc sep pieces piece :
  pieces <> [] ->
  Str.join sep (pieces ++ [piece]) = (Str.join sep pieces ++ String sep piece)%string.
Proof.
  induction pieces as [| p pieces IH]; [congruence |]. intros _.
  destruct pieces as [| p' pieces]; [reflexivity |].
  change ((p :: p' :: pieces) ++ [piece])%list with (p :: ((p' :: pieces) ++ [piece]))%list.
  rewrite !join_cons by (try discriminate; now destruct pieces).
  rewrite IH by discriminate. now rewrite append_assoc.
Qed.

Lemma drop_past (before after : string) c :
  Str.drop (S (String.length before)) (before ++ String c after)%string = after.
Proof.
  induction before as [| a before IH]; push_append; simpl; [now destruct after | exact IH].
Qed.

Lemma take_upto (before after : string) c :
  Str.take (S (String.length before)) (before ++ String c after)%string =
  (before ++ String c "")%string.
Proof.
  induction before as [| a before IH]; push_append; [now destruct after |].
  exact (f_equal (String a) IH).
Qed.

(** A path splits at its last slash into its directory part and its
    name, and the name is the last piece of the path. *)
Lemma basename_split p :
  (Str.contains Str.slash p = false /\ OsPath.basename p = p /\
   Str.split Str.slash p = [p]) \/
  (exists before,
     p = (before ++ String Str.slash (OsPath.basename p))%string /\
     Str.contains Str.slash (OsPath.basename p) = false /\
     Str.split Str.slash p = (Str.split Str.slash before ++ [OsPath.basename p])%list).
Proof.
  unfold OsPath.basename.
  destruct (rfind_spec Str.slash p) as [[Hr Hc] | (before & after & Hp & Hr & Hc)].
  - left. rewrite Hr. simpl. split; [assumption |]. split; [reflexivity |].
    now apply split_no_sep.
  - right. exists before. rewrite Hr.
    replace (Z.to_nat (Z.of_nat (String.length before) + 1))
      with (S (String.length before)) by lia.
    subst p. rewrite drop_past.
    split; [reflexivity |]. split; [assumption |].
    rewrite split_append_sep. now rewrite (split_no_sep _ after).
Qed.

Lemma rfind_absent c s : Str.contains c s = false -> Str.rfind c s = -1.
Proof.
  intros H. destruct (rfind_spec c s) as [[Hr _] | (before & after & -> & _ & _)];
    [assumption |].
  rewrite contains_append in H. simpl in H. rewrite Ascii.eqb_refl in H.
  now rewrite orb_true_r in H.
Qed.

(** [os.path.splitext] on a file name: no extension, or the name cut at
    its last dot, which does not follow leading dots only. *)
Lemma splitext_name name :
  Str.contains Str.slash name = false ->
  OsPath.splitext name = (name, "") \/
  (exists stem e,
     name = (stem ++ String Str.dot e)%string /\
     OsPath.splitext name = (stem, String Str.dot e) /\
     Str.contains Str.dot e = false /\
     Str.all_are Str.dot stem = false).
Proof.
  intros Hslash. unfold OsPath.splitext. rewrite (rfind_absent _ _ Hslash).
  destruct (rfind_spec Str.dot name) as [[Hr _] | (stem & e & Hname & Hr & He)].
  - left. now rewrite Hr.
  - rewrite Hr.
    assert ((-1 <? Z.of_nat (String.length stem))%Z = true) as -> by lia.
    replace (Z.to_nat (-1 + 1)) with 0%nat by lia.
    rewrite Nat2Z.id, Nat.sub_0_r.
    assert (Str.drop 0 name = name) as -> by now destruct name.
    subst name. rewrite take_append_exact.
    destruct (Str.all_are Str.dot stem) eqn:Hdots; [now left |].
    right. exists stem, e. rewrite drop_append_exact. now repeat split.
Qed.

(** ** [Path] *)

Section PathFacts.
Context `{!Os}.

(** The extension of a file path, for paths over code points below U+0100
    (the strings of this model, on which [lower] keeps the length).  It
    holds no dot and no slash and is in
    lower case; and when it is not empty, the absolute path ends with a dot
    and the extension in some mix of cases, the main name is what precedes
    that dot in the name, and cutting as many characters as the extension
    has, and one more, from the absolute path leaves exactly what precedes
    the dot: for the extension "shp", [abs_path[:-4]] is the path without
    ".shp". *)
Theorem extension_is_lowered_suffix (self : PathParser.Path) :
  PathParser.type self = PathParser.File ->
  let e := PathParser.extension self in
  Str.contains Str.dot e = false /\
  Str.contains Str.slash e = false /\
  Str.lower e = e /\
  (e <> "" ->
   exists stem e',
     PathParser.abs_path self = (stem ++ String Str.dot e')%string /\
     Str.lower e' = e /\
     String.length e' = String.length e /\
     Str.strip_last (S (String.length e)) (PathParser.abs_path self) = stem /\
     PathParser.name self = (PathParser.main_name self ++ String Str.dot e')%string).
Proof.
  intros Hfile e. subst e.
  unfold PathParser.extension, PathParser.is_dir, PathParser.main_name, PathParser.name.
  rewrite Hfile.
  set (a := PathParser.abs_path self).
  assert (Str.contains Str.slash (OsPath.basename a) = false) as Hname
    by (destruct (basename_split a) as [(Hc & -> & _) | (before & _ & Hc & _)]; assumption).
  destruct (splitext_name _ Hname) as [-> | (stem & e' & Hsplit & -> & He' & _)]; simpl.
  - repeat split; congruence.
  - rewrite (remove_char_absent _ _ He').
    assert (Str.contains Str.slash e' = false) as Hslash.
    { rewrite Hsplit, contains_append in Hname. simpl in Hname.
      apply orb_false_iff in Hname. now destruct Hname. }
    split; [now rewrite contains_lower by (now left) |].
    split; [now rewrite contains_lower by (now right) |].
    split; [apply lower_idempotent |].
    intros _.
    assert (exists dir, a = (dir ++ OsPath.basename a)%string) as [dir Ha].
    { destruct (basename_split a) as [(_ & Hb & _) | (before & Hb & _)].
      - exists "". now rewrite Hb.
      - exists (before ++ String Str.slash "")%string. rewrite append_assoc. exact Hb. }
    exists (dir ++ stem)%string, e'.
    split; [rewrite Ha at 1; rewrite Hsplit; now rewrite append_assoc |].
    split; [reflexivity |]. split; [now rewrite length_lower |].
    split; [| exact Hsplit].
    unfold Str.strip_last. rewrite Ha at 1 2. rewrite Hsplit, <- append_assoc.
    rewrite length_append, length_lower. simpl.
    replace (String.length (dir ++ stem) + S (String.length e') - S (String.length e'))%nat
      with (String.length (dir ++ stem)) by lia.
    apply take_append_exact.
Qed.

(** The constructor and the disk.  A path that was built holds no
    backslash.  Built with "auto" it names something that exists; built
    with "file" or "dir" it may name nothing yet, and naming nothing never
    makes these two fail.  Where no path is a file and a directory at once,
    the type of a built path never contradicts the disk. *)
Theorem init_agrees_with_disk (d : disk) (p ty : string) (self : PathParser.Path) :
  PathParser.init d p ty = Done self ->
  PathParser.path self = Str.replace_char Str.backslash Str.slash p /\
  Str.contains Str.backslash (PathParser.path self) = false /\
  (ty = "auto" ->
   isdir d (PathParser.path self) = true \/ isfile d (PathParser.path self) = true) /\
  (isdir d (PathParser.path self) && isfile d (PathParser.path self) = false ->
   (isdir d (PathParser.path self) = true -> PathParser.type self = PathParser.Dir) /\
   (isfile d (PathParser.path self) = true -> PathParser.type self = PathParser.File)).
Proof.
  unfold PathParser.init. intros Hinit.
  assert (PathParser.path self = Str.replace_char Str.backslash Str.slash p) as Hpath.
  { repeat match type of Hinit with
           | context [if ?b then _ else _] => destruct b
           end; try discriminate Hinit; now injection Hinit as <-. }
  split; [exact Hpath |].
  split; [rewrite Hpath; now apply contains_replace_char |].
  rewrite Hpath. set (q := Str.replace_char Str.backslash Str.slash p) in *.
  destruct (String.eqb ty "auto") eqn:Eauto.
  - destruct (isdir d q) eqn:Edir; [| destruct (isfile d q) eqn:Efile; [| discriminate Hinit]];
      injection Hinit as <-; simpl.
    + split; [now left |]. intros Hf. split; [reflexivity | congruence].
    + split; [now right |]. intros _. split; [discriminate | reflexivity].
  - split; [intros ->; discriminate Eauto |].
    destruct (String.eqb ty "file").
    + destruct (isfile d q) eqn:Efile; [| destruct (isdir d q) eqn:Edir; [discriminate Hinit |]];
        injection Hinit as <-; simpl; intros Hex; split; try reflexivity; try discriminate.
      intros Hd. rewrite Hd in Hex. discriminate Hex.
    + destruct (String.eqb ty "dir"); [| discriminate Hinit].
      destruct (isdir d q) eqn:Edir; [| destruct (isfile d q) eqn:Efile; [discriminate Hinit |]];
        injection Hinit as <-; simpl; intros Hex; split; try reflexivity; try discriminate.
      intros Hf. rewrite Hf in Hex. discriminate Hex.
Qed.

End PathFacts.

Lemma init_agrees_with_disk_witness :
  Str.contains Str.backslash "data/roads.shp" = false.
Proof.
  refine (proj1 (proj2 (@init_agrees_with_disk TestOs.os TestOs.shelf
                          (String "d" (String "a" (String "t" (String "a"
                             (String Str.backslash "roads.shp")))))
                          "auto"
                          {| PathParser.path := "data/roads.shp";
                             PathParser.type := PathParser.File |} _))).
  vm_compute. reflexivity.
Defined.

Lemma extension_is_lowered_suffix_witness :
  Str.lower "shp" = "shp".
Proof.
  refine (proj1 (proj2 (proj2 (@extension_is_lowered_suffix TestOs.os
                                 {| PathParser.path := "/data/roads.SHP";
                                    PathParser.type := PathParser.File |} _)))).
  reflexivity.
Defined.

Lemma join_firstn_prefix sep m pieces :
  exists rest, Str.join sep pieces = (Str.join sep (firstn m pieces) ++ rest)%string.
Proof.
  revert m. induction pieces as [| piece pieces IH]; intros m.
  - exists "". now destruct m.
  - destruct m as [| m]; [exists (Str.join sep (piece :: pieces)); reflexivity |].
    destruct pieces as [| piece' pieces].
    + exists "". destruct m; simpl; induction piece; push_append; congruence.
    + destruct (IH m) as [rest Hrest].
      destruct m as [| m].
      * exists (String sep (Str.join sep (piece' :: pieces))). reflexivity.
      * change (firstn (S (S m)) (piece :: piece' :: pieces))
          with (piece :: piece' :: firstn m pieces).
        change (firstn (S m) (piece' :: pieces)) with (piece' :: firstn m pieces) in Hrest.
        rewrite (join_cons sep piece (piece' :: pieces)) by discriminate.
        rewrite (join_cons sep piece (piece' :: firstn m pieces)) by discriminate.
        rewrite Hrest. exists rest. rewrite append_assoc. reflexivity.
Qed.

Section ParentDirs.
Context `{!Os}.

(** The levels of a path.  [get_parent_dir_num] is one less than the
    number of pieces between the slashes of the absolute path.  Whatever
    [get_nth_parent_dir] returns for a level from 0 on is a beginning of the
    absolute path.  For a directory path the last level, the one the count
    gives, is the absolute path itself, and there is none beyond.  For a
    file path with a slash the levels stop one short: the count gives none,
    and the level before it is the directory part, which a slash and the
    name complete to the absolute path. *)
Theorem levels_of_a_path (self : PathParser.Path) :
  let a := PathParser.abs_path self in
  let k := PathParser.get_parent_dir_num self in
  0 <= k /\
  (forall n r, 0 <= n -> PathParser.get_nth_parent_dir self n = Some r ->
     exists rest, a = (r ++ rest)%string) /\
  (PathParser.type self = PathParser.Dir ->
     PathParser.get_nth_parent_dir self k = Some a /\
     forall n, k < n -> PathParser.get_nth_parent_dir self n = None) /\
  (PathParser.type self = PathParser.File ->
     Str.contains Str.slash a = true ->
     PathParser.get_nth_parent_dir self k = None /\
     exists parent,
       PathParser.get_nth_parent_dir self (k - 1) = Some parent /\
       a = (parent ++ String Str.slash (PathParser.name self))%string).
Proof.
  intros a k. subst k.
  unfold PathParser.get_parent_dir_num, PathParser.get_nth_parent_dir, PathParser.name,
    PathParser.is_file, PathParser.slice_to, PathParser.pop.
  fold a.
  pose proof (split_nonempty Str.slash a) as Hne.
  assert (1 <= length (Str.split Str.slash a))%nat as Hlen
    by (destruct (Str.split Str.slash a); [congruence | simpl; lia]).
  split; [lia |]. split; [| split].
  - intros n r Hn Hr.
    assert ((0 <=? n + 1)%Z = true) as Hpos by lia. rewrite Hpos in Hr.
    destruct (PathParser.type self).
    + destruct (n <? _)%Z; [| discriminate Hr]. injection Hr as <-.
      destruct (join_firstn_prefix Str.slash (Z.to_nat (n + 1)) (Str.split Str.slash a))
        as [rest Hrest].
      exists rest. now rewrite <- Hrest, join_split.
    + destruct (n <? _)%Z; [| discriminate Hr]. injection Hr as <-.
      destruct (basename_split a) as [(_ & _ & Hs) | (before & Ha & _ & Hs)].
      * rewrite Hs. simpl. exists a. now destruct (Z.to_nat (n + 1)).
      * rewrite Hs, removelast_last.
        destruct (join_firstn_prefix Str.slash (Z.to_nat (n + 1)) (Str.split Str.slash before))
          as [rest Hrest].
        exists (rest ++ String Str.slash (OsPath.basename a))%string.
        rewrite <- append_assoc, <- Hrest, join_split. exact Ha.
  - intros ->. split.
    + assert ((Z.of_nat (length (Str.split Str.slash a)) - 1 <?
               Z.of_nat (length (Str.split Str.slash a)))%Z = true) as -> by lia.
      assert ((0 <=? Z.of_nat (length (Str.split Str.slash a)) - 1 + 1)%Z = true) as -> by lia.
      replace (Z.to_nat (Z.of_nat (length (Str.split Str.slash a)) - 1 + 1))
        with (length (Str.split Str.slash a)) by lia.
      now rewrite firstn_all, join_split.
    + intros n Hn.
      assert ((n <? Z.of_nat (length (Str.split Str.slash a)))%Z = false) as -> by lia.
      reflexivity.
  - intros -> Hslash.
    destruct (basename_split a) as [(Hc & _) | (before & Ha & _ & Hs)]; [congruence |].
    rewrite Hs, removelast_last, length_app. simpl.
    pose proof (split_nonempty Str.slash before) as Hne'.
    assert (1 <= length (Str.split Str.slash before))%nat as Hlen'
      by (destruct (Str.split Str.slash before); [congruence | simpl; lia]).
    split.
    + assert ((Z.of_nat (length (Str.split Str.slash before) + 1) - 1 <?
               Z.of_nat (length (Str.split Str.slash before)))%Z = false) as ->
        by (apply Z.ltb_ge; lia).
      reflexivity.
    + exists before.
      assert ((Z.of_nat (length (Str.split Str.slash before) + 1) - 1 - 1 <?
               Z.of_nat (length (Str.split Str.slash before)))%Z = true) as ->
        by (apply Z.ltb_lt; lia).
      assert ((0 <=? Z.of_nat (length (Str.split Str.slash before) + 1) - 1 - 1 + 1)%Z = true)
        as -> by (apply Z.leb_le; lia).
      replace (Z.to_nat (Z.of_nat (length (Str.split Str.slash before) + 1) - 1 - 1 + 1))
        with (length (Str.split Str.slash before)) by lia.
      rewrite firstn_all, join_split. split; [reflexivity | exact Ha].
Qed.

End ParentDirs.

Lemma levels_of_a_path_witness :
  exists parent,
    @PathParser.get_nth_parent_dir TestOs.os
      {| PathParser.path := "/data/roads.shp"; PathParser.type := PathParser.File |}
      (@PathParser.get_parent_dir_num TestOs.os
         {| PathParser.path := "/data/roads.shp"; PathParser.type := PathParser.File |} - 1)
    = Some parent /\
    "/data/roads.shp" = (parent ++ String Str.slash "roads.shp")%string.
Proof.
  exact (proj2 (proj2 (proj2 (proj2 (@levels_of_a_path TestOs.os
           {| PathParser.path := "/data/roads.shp"; PathParser.type := PathParser.File |})))
           eq_refl eq_refl)).
Defined.

Section Mkdirs.
Context `{!Os}.

Lemma paths_down_reaches prefix pieces :
  pieces <> [] ->
  List.In (prefix ++ String Str.slash (Str.join Str.slash pieces))%string
    (paths_down prefix pieces).
Proof.
  revert prefix. induction pieces as [| piece pieces IH]; [congruence |]. intros prefix _.
  destruct pieces as [| piece' pieces]; [left; reflexivity |].
  right. rewrite join_cons by discriminate.
  specialize (IH (prefix ++ "/" ++ piece)%string ltac:(discriminate)).
  now rewrite !append_assoc in IH.
Qed.

(** [mkdirs].  On a path that exists nothing is done.  On a directory path
    that does not exist, with no regular file on the way, the directory
    exists afterwards, the files are untouched and every directory there
    was is still there (the path being in absolute form and starting with a
    slash).  On a file path that does not exist but whose parent directory
    does, [os.makedirs] is called on that existing directory and raises
    "file exists", and nothing is created. *)
Theorem mkdirs_behaviour (self : PathParser.Path) (d : disk) :
  (PathParser.is_existed d self = true -> mkdirs self d = (Done tt, d)) /\
  (PathParser.type self = PathParser.Dir ->
   PathParser.is_existed d self = false ->
   isfile d (PathParser.abs_path self) = false ->
   existsb (isfile d) (ancestors_and_self (abspath (PathParser.abs_path self))) = false ->
   abspath (PathParser.abs_path self) = PathParser.abs_path self ->
   (exists rest, PathParser.abs_path self = String Str.slash rest) ->
   exists d',
     mkdirs self d = (Done tt, d') /\
     PathParser.is_existed_dir d' self = true /\
     files d' = files d /\ dirs d ⊆ dirs d') /\
  (PathParser.type self = PathParser.File ->
   PathParser.is_existed d self = false ->
   isdir d (PathParser.abs_parent_dir self) = true ->
   mkdirs self d = (Failed FileExistsError, d)).
Proof.
  unfold mkdirs, os_makedirs, PathParser.is_existed, PathParser.is_existed_file,
    PathParser.is_existed_dir, PathParser.is_dir, PathParser.is_file.
  split; [| split].
  - destruct (PathParser.type self); simpl; rewrite ?orb_false_r;
      intros Hex; destruct (_ : bool) in Hex |- *; try discriminate Hex; reflexivity.
  - intros -> Hex Hfile Hway Habs [rest Hrest]. simpl in *.
    destruct (isdir d (PathParser.abs_path self)) eqn:Hdir; [discriminate Hex |].
    assert (PathParser.abs_path self <> "") as Hne0 by (rewrite Hrest; discriminate).
    simpl. rewrite (proj2 (String.eqb_neq _ _) Hne0), Hfile, Hway. simpl.
    eexists. split; [reflexivity |]. simpl.
    split; [| split; [reflexivity | set_solver]].
    rewrite isdir_abs by assumption. simpl. rewrite Habs. apply bool_decide_eq_true.
    apply elem_of_union_r, elem_of_list_to_set.
    unfold ancestors_and_self. rewrite Hrest. simpl.
    pose proof (split_nonempty Str.slash rest) as Hne.
    pose proof (paths_down_reaches "" (Str.split Str.slash rest) Hne) as Hin.
    rewrite join_split in Hin. apply list_elem_of_In. exact Hin.
  - intros -> Hex Hparent. simpl in *.
    destruct (isfile d (PathParser.abs_path self)) eqn:Hfile; [discriminate Hex |].
    simpl. rewrite (proj2 (String.eqb_neq _ _) (isdir_nonempty _ _ Hparent)).
    now rewrite Hparent, orb_true_r.
Qed.

End Mkdirs.

Lemma mkdirs_behaviour_witness :
  @mkdirs TestOs.os {| PathParser.path := "/out/new.txt"; PathParser.type := PathParser.File |}
    TestOs.shelf = (Failed FileExistsError, TestOs.shelf).
Proof.
  apply (proj2 (proj2 (@mkdirs_behaviour TestOs.os
                         {| PathParser.path := "/out/new.txt";
                            PathParser.type := PathParser.File |} TestOs.shelf)));
    vm_compute; reflexivity.
Defined.

(** ** [Delete] *)

Section DeleteFacts.
Context `{!Os}.

Lemma new_Path_plain f (d : disk) :
  Str.contains Str.backslash f = false ->
  isdir d f = false ->
  new_Path f "file" d =
    (Done {| PathParser.path := f; PathParser.type := PathParser.File |}, d).
Proof.
  intros Hb Hd. unfold new_Path, PathParser.init. simpl.
  rewrite (replace_char_absent _ _ _ Hb), Hd. now destruct (isfile d f).
Qed.

(** The loop of [Delete] only removes, and only the listed files. *)
Lemma remove_existing_frame l (d : disk) r d' :
  remove_existing l d = (r, d') ->
  dirs d' = dirs d /\
  (forall q c, files d' !! q = Some c -> files d !! q = Some c) /\
  (forall q, ~ List.In q (map abspath l) -> files d' !! q = files d !! q).
Proof.
  revert d. induction l as [| f l IH]; intros d Hrun.
  - injection Hrun as <- <-. now repeat split.
  - simpl in Hrun. unfold and_then at 1, new_Path in Hrun.
    destruct (PathParser.init d f "file") as [pth | e]; [| injection Hrun as <- <-; now repeat split].
    destruct (PathParser.is_existed_file d pth).
    + unfold and_then, os_remove in Hrun.
      destruct (contents d f) as [c0 |] eqn:Ef;
        [| injection Hrun as <- <-; now repeat split].
      destruct (IH _ Hrun) as (Hdirs & Hsub & Hout). simpl in *.
      split; [exact Hdirs |]. split.
      * intros q c Hq. apply Hsub in Hq.
        destruct (decide (abspath f = q)) as [<- | Hne];
          [now rewrite lookup_delete_eq in Hq | now rewrite lookup_delete_ne in Hq].
      * intros q Hq. rewrite Hout by tauto. apply lookup_delete_ne. tauto.
    + destruct (IH _ Hrun) as (Hdirs & Hsub & Hout).
      split; [exact Hdirs |]. split; [exact Hsub |].
      intros q Hq. apply Hout. simpl in Hq. tauto.
Qed.

(** [Delete] never creates or changes anything: whatever its outcome, the
    directories are what they were, every file there is afterwards was
    there before with the same content, and a file is untouched unless its
    absolute path is that of the given path with ".shp" or ".tif" cut off
    and one of the listed endings added, or that of the given path
    itself. *)
Theorem Delete_only_removes (in_data : string) (d : disk) r d' :
  Delete in_data d = (r, d') ->
  let a := abspath (Str.replace_char Str.backslash Str.slash in_data) in
  dirs d' = dirs d /\
  (forall q c, files d' !! q = Some c -> files d !! q = Some c) /\
  (forall q, ~ List.In q (map abspath (shp_family a ++ tif_family a)) ->
     files d' !! q = files d !! q).
Proof.
  intros Hrun a. unfold Delete, and_then at 1, new_Path in Hrun.
  destruct (PathParser.init d in_data "file") as [pth | e] eqn:Einit;
    [| injection Hrun as <- <-; now repeat split].
  assert (PathParser.abs_path pth = a) as Ha.
  { unfold PathParser.abs_path, a. f_equal.
    unfold PathParser.init in Einit. simpl in Einit.
    repeat match type of Einit with
           | context [if ?b then _ else _] => destruct b
           end; try discriminate Einit; now injection Einit as <-. }
  rewrite Ha in Hrun.
  destruct (String.eqb (PathParser.extension pth) "shp").
  - destruct (remove_existing_frame _ _ _ _ Hrun) as (Hd & Hsub & Hout).
    split; [exact Hd |]. split; [exact Hsub |].
    intros q Hq. apply Hout. rewrite map_app, in_app_iff in Hq. tauto.
  - destruct (String.eqb (PathParser.extension pth) "tif").
    + destruct (remove_existing_frame _ _ _ _ Hrun) as (Hd & Hsub & Hout).
      split; [exact Hd |]. split; [exact Hsub |].
      intros q Hq. apply Hout. rewrite map_app, in_app_iff in Hq. tauto.
    + injection Hrun as <- <-. now repeat split.
Qed.

Lemma remove_existing_all l (d : disk) :
  (forall q, abspath (abspath q) = abspath q) ->
  Forall (fun f => f <> "" /\ Str.contains Str.backslash f = false /\ isdir d f = false) l ->
  exists d',
    remove_existing l d = (Done tt, d') /\
    Forall (fun f => isfile d' f = false) l.
Proof.
  intros Hidem. revert d. induction l as [| f l IH]; intros d Hl.
  - exists d. now split.
  - apply List.Forall_cons_iff in Hl. destruct Hl as [(Hne & Hb & Hd) Hl].
    simpl. unfold and_then at 1. rewrite (new_Path_plain f d Hb Hd).
    unfold PathParser.is_existed_file, PathParser.abs_path, isfile. simpl.
    rewrite contents_abspath, Hidem, <- (contents_abs d f Hne).
    assert (forall d1 d',
              remove_existing l d1 = (Done tt, d') ->
              files d1 !! abspath f = None -> isfile d' f = false) as Hstays.
    { intros d1 d' Hrun Hnone.
      destruct (remove_existing_frame _ _ _ _ Hrun) as (_ & Hsub & _).
      unfold isfile. rewrite contents_abs by assumption.
      destruct (files d' !! abspath f) as [c' |] eqn:E'; [| reflexivity].
      apply Hsub in E'. congruence. }
    assert (forall d1, dirs d1 = dirs d ->
              Forall (fun f0 => f0 <> "" /\ Str.contains Str.backslash f0 = false /\
                                isdir d1 f0 = false) l) as Hl'.
    { intros d1 Hdirs. rewrite List.Forall_forall in *. intros f0 Hf0.
      destruct (Hl f0 Hf0) as (H1 & H2 & H3). repeat split; try assumption.
      unfold isdir in *. now rewrite Hdirs. }
    destruct (contents d f) as [c |] eqn:Ef.
    + unfold and_then, os_remove. rewrite Ef.
      set (d1 := Disk (delete (abspath f) (files d)) (dirs d)).
      destruct (IH d1) as (d' & Hrun & Hgone); [now apply Hl' |].
      exists d'. split; [exact Hrun |]. constructor; [| exact Hgone].
      apply (Hstays d1 d' Hrun). simpl. apply lookup_delete_eq.
    + destruct (IH d) as (d' & Hrun & Hgone); [exact Hl |].
      exists d'. split; [exact Hrun |]. constructor; [| exact Hgone].
      apply (Hstays d d' Hrun). now rewrite <- contents_abs.
Qed.

Lemma sibling_nonempty a suffix : suffix <> "" -> sibling a suffix <> "".
Proof.
  intros Hs. unfold sibling. destruct (Str.strip_last 4 a); simpl; [assumption | discriminate].
Qed.

Lemma contains_sibling c a suffix :
  Str.contains c a = false -> Str.contains c suffix = false ->
  Str.contains c (sibling a suffix) = false.
Proof.
  intros Ha Hs. unfold sibling, Str.strip_last.
  now rewrite contains_append, contains_take, Hs.
Qed.

(** [Delete] on a shapefile or a raster.  Where the absolute path holds no
    backslash and none of the paths of the family is a directory, [Delete]
    of a path with extension "shp" ends normally and leaves none of the
    fourteen files of the family: the path itself and the path with ".shp"
    cut off and .shx, .dbf, .prj, ... added; likewise for "tif" and its
    five.  With any other extension nothing is deleted. *)
Theorem Delete_removes_family (in_data : string) (d : disk) (self : PathParser.Path) :
  (forall q, abspath (abspath q) = abspath q) ->
  PathParser.init d in_data "file" = Done self ->
  let a := PathParser.abs_path self in
  let e := PathParser.extension self in
  Str.contains Str.backslash a = false ->
  (e = "shp" ->
   Forall (fun f => isdir d f = false) (shp_family a) ->
   exists d',
     Delete in_data d = (Done tt, d') /\
     Forall (fun f => isfile d' f = false) (shp_family a)) /\
  (e = "tif" ->
   Forall (fun f => isdir d f = false) (tif_family a) ->
   exists d',
     Delete in_data d = (Done tt, d') /\
     Forall (fun f => isfile d' f = false) (tif_family a)) /\
  (e <> "shp" -> e <> "tif" -> Delete in_data d = (Done tt, d)).
Proof.
  intros Hidem Hinit a e Hback. subst e.
  assert (Delete in_data d =
          (if String.eqb (PathParser.extension self) "shp"
           then remove_existing (shp_family a)
           else if String.eqb (PathParser.extension self) "tif"
                then remove_existing (tif_family a)
                else done tt) d) as ->
    by (unfold Delete, and_then at 1, new_Path; now rewrite Hinit).
  assert (forall l,
            Forall (fun s => s <> "" /\ Str.contains Str.backslash s = false) l ->
            Forall (fun f => isdir d f = false) (a :: map (sibling a) l) ->
            Forall (fun f => f <> "" /\ Str.contains Str.backslash f = false /\
                             isdir d f = false)
              (a :: map (sibling a) l)) as Hfam.
  { intros l Hl Hdirs. rewrite List.Forall_forall in *. intros f Hf.
    split; [| split; [| now apply Hdirs]].
    - destruct Hf as [<- | Hf]; [apply abspath_nonempty |].
      apply in_map_iff in Hf. destruct Hf as (s & <- & Hs).
      apply sibling_nonempty. now apply Hl.
    - destruct Hf as [<- | Hf]; [assumption |].
      apply in_map_iff in Hf. destruct Hf as (s & <- & Hs).
      apply contains_sibling; [assumption | now apply Hl]. }
  split; [| split].
  - intros He Hdirs. rewrite He, String.eqb_refl.
    apply remove_existing_all; [exact Hidem |].
    apply Hfam; [| exact Hdirs]. repeat constructor; discriminate.
  - intros He Hdirs. rewrite He.
    change (String.eqb "tif" "shp") with false. rewrite String.eqb_refl.
    apply remove_existing_all; [exact Hidem |].
    apply Hfam; [| exact Hdirs]. repeat constructor; discriminate.
  - intros Hshp Htif.
    apply String.eqb_neq in Hshp. apply String.eqb_neq in Htif.
    now rewrite Hshp, Htif.
Qed.

End DeleteFacts.

Lemma Delete_only_removes_witness :
  dirs (snd (@Delete TestOs.os "/data/roads.shp" TestOs.shelf)) = dirs TestOs.shelf.
Proof.
  refine (proj1 (@Delete_only_removes TestOs.os "/data/roads.shp" TestOs.shelf
                   (fst (@Delete TestOs.os "/data/roads.shp" TestOs.shelf)) _ _)).
  now destruct (@Delete TestOs.os "/data/roads.shp" TestOs.shelf).
Defined.

Lemma Delete_removes_family_witness :
  exists d',
    @Delete TestOs.os "/data/roads.shp" TestOs.shelf = (Done tt, d') /\
    Forall (fun f => @isfile TestOs.os d' f = false)
      (shp_family (@abspath TestOs.os "/data/roads.shp")).
Proof.
  refine (proj1 (@Delete_removes_family TestOs.os "/data/roads.shp" TestOs.shelf
                   {| PathParser.path := "/data/roads.shp";
                      PathParser.type := PathParser.File |} _ _ _) _ _).
  - intros [| c q]; [reflexivity |]. simpl. unfold TestOs.absolute.
    destruct (Ascii.eqb c Str.slash) eqn:E; simpl; rewrite ?E; reflexivity.
  - vm_compute. reflexivity.
  - vm_compute. reflexivity.
  - vm_compute. reflexivity.
  - repeat (apply List.Forall_cons; [vm_compute; reflexivity |]). apply List.Forall_nil.
Defined.

(** ** [CopyFeatures] and [CopyRaster] *)

Section CopyFacts.
Context `{!Os}.

(** [shutil.copy] adds or replaces one file and nothing else. *)
Lemma shutil_copy_frame src dst (d : disk) r d' :
  shutil_copy src dst d = (r, d') ->
  dirs d' = dirs d /\
  (forall q, is_Some (files d !! q) -> is_Some (files d' !! q)) /\
  (forall e, r = Failed e ->
     d' = d /\
     (e = FileNotFoundError \/ e = IsADirectoryError \/ e = NotADirectoryError \/
      e = SameFileError)).
Proof.
  unfold shutil_copy.
  set (dst' := if isdir d dst then os_path_join dst (OsPath.basename src) else dst).
  intros Hrun.
  assert (forall e, (r, d') = (Failed e, d) ->
            (e = FileNotFoundError \/ e = IsADirectoryError \/ e = NotADirectoryError \/
             e = SameFileError) ->
            dirs d' = dirs d /\
            (forall q, is_Some (files d !! q) -> is_Some (files d' !! q)) /\
            (forall e', r = Failed e' ->
               d' = d /\
               (e' = FileNotFoundError \/ e' = IsADirectoryError \/
                e' = NotADirectoryError \/ e' = SameFileError))) as Hfail.
  { intros e [= -> ->] He. split; [reflexivity |]. split; [tauto |].
    intros e' [= <-]. now split. }
  destruct (contents d src) as [content |].
  - destruct (String.eqb dst' ""); [apply (Hfail _ (eq_sym Hrun)); tauto |].
    destruct (String.eqb (abspath src) (abspath dst')); [apply (Hfail _ (eq_sym Hrun)); tauto |].
    destruct (isdir d dst'); [apply (Hfail _ (eq_sym Hrun)); tauto |].
    destruct (isdir d (OsPath.dirname (abspath dst'))).
    + injection Hrun as <- <-. unfold write_file. simpl.
      split; [reflexivity |]. split; [| intros e' [=]].
      intros q Hq. destruct (decide (abspath dst' = q)) as [<- | Hne].
      * rewrite lookup_insert_eq. eauto.
      * now rewrite lookup_insert_ne.
    + destruct (isfile d (OsPath.dirname (abspath dst')));
        apply (Hfail _ (eq_sym Hrun)); tauto.
  - destruct (isdir d src); apply (Hfail _ (eq_sym Hrun)); tauto.
Qed.

Lemma init_file_failure (d : disk) p e :
  PathParser.init d p "file" = Failed e -> e = AlreadyDirectory.
Proof.
  unfold PathParser.init. simpl.
  repeat match goal with
         | |- context [if ?b then _ else _] => destruct b
         end; congruence.
Qed.

Lemma check_required_frame keys (d : disk) r d' :
  check_required keys d = (r, d') ->
  d' = d /\ (forall e, r = Failed e -> e = AlreadyDirectory \/ exists f, e = MissingFile f).
Proof.
  revert d. induction keys as [| f keys IH]; intros d Hrun.
  - injection Hrun as <- <-. split; [reflexivity | intros e [=]].
  - simpl in Hrun. unfold and_then at 1, new_Path in Hrun.
    destruct (PathParser.init d f "file") as [pth | e0] eqn:Einit.
    + destruct (negb (PathParser.is_existed_file d pth)).
      * injection Hrun as <- <-. split; [reflexivity |]. intros e [= <-]. right. eauto.
      * now apply IH.
    + injection Hrun as <- <-. split; [reflexivity |]. intros e [= <-]. left.
      exact (init_file_failure _ _ _ Einit).
Qed.

Lemma copy_all_frame pairs (d : disk) r d' :
  copy_all pairs d = (r, d') ->
  dirs d' = dirs d /\
  (forall q, is_Some (files d !! q) -> is_Some (files d' !! q)) /\
  (forall e, r = Failed e -> os_error e).
Proof.
  revert d. induction pairs as [| [s t] pairs IH]; intros d Hrun.
  - injection Hrun as <- <-. split; [reflexivity |]. split; [tauto | intros e [=]].
  - simpl in Hrun. unfold and_then at 1 in Hrun.
    destruct (shutil_copy s t d) as [[[] | e0] d1] eqn:Ecopy;
      destruct (shutil_copy_frame _ _ _ _ _ Ecopy) as (Hd & Hkeep & Hfail).
    + destruct (IH _ Hrun) as (Hd' & Hkeep' & Hfail').
      split; [congruence |]. split; [auto | exact Hfail'].
    + injection Hrun as <- <-. split; [exact Hd |]. split; [exact Hkeep |].
      intros e [= <-]. exact (proj2 (Hfail e0 eq_refl)).
Qed.

Lemma copy_existing_frame pairs (d : disk) r d' :
  copy_existing pairs d = (r, d') ->
  dirs d' = dirs d /\
  (forall q, is_Some (files d !! q) -> is_Some (files d' !! q)) /\
  (forall e, r = Failed e -> os_error e \/ e = AlreadyDirectory).
Proof.
  revert d. induction pairs as [| [s t] pairs IH]; intros d Hrun.
  - injection Hrun as <- <-. split; [reflexivity |]. split; [tauto | intros e [=]].
  - simpl in Hrun. unfold and_then at 1, new_Path in Hrun.
    destruct (PathParser.init d s "file") as [pth | e0] eqn:Einit.
    + destruct (PathParser.is_existed_file d pth); [| now apply IH].
      unfold and_then in Hrun.
      destruct (shutil_copy s t d) as [[[] | e1] d1] eqn:Ecopy;
        destruct (shutil_copy_frame _ _ _ _ _ Ecopy) as (Hd & Hkeep & Hfail).
      * destruct (IH _ Hrun) as (Hd' & Hkeep' & Hfail').
        split; [congruence |]. split; [auto | exact Hfail'].
      * injection Hrun as <- <-. split; [exact Hd |]. split; [exact Hkeep |].
        intros e [= <-]. left. exact (proj2 (Hfail e1 eq_refl)).
    + injection Hrun as <- <-. split; [reflexivity |]. split; [tauto |].
      intros e [= <-]. right. exact (init_file_failure _ _ _ Einit).
Qed.

(** [CopyFeatures] never deletes and never creates a directory: whatever
    its outcome, every file there was is still there and the directories
    are what they were.  And its own three errors (invalid input, invalid
    output, a required file missed) are raised before anything is copied:
    when it ends with one of them the disk is unchanged. *)
Theorem CopyFeatures_is_careful (in_features out_feature_class : string) (d : disk) r d' :
  CopyFeatures in_features out_feature_class d = (r, d') ->
  dirs d' = dirs d /\
  (forall q, is_Some (files d !! q) -> is_Some (files d' !! q)) /\
  (forall e, r = Failed e ->
     e = InvalidInputFeatures \/ e = InvalidOutputFeatures \/ (exists f, e = MissingFile f) ->
     d' = d).
Proof.
  unfold CopyFeatures. intros Hrun.
  unfold and_then at 1, new_Path in Hrun.
  destruct (PathParser.init d in_features "file") as [src | e0] eqn:Esrc.
  2: { injection Hrun as <- <-. split; [reflexivity |]. split; [tauto |].
       intros e [= <-]. apply init_file_failure in Esrc. subst e0.
       intros [[=] | [[=] | [f [=]]]]. }
  unfold and_then at 1 in Hrun.
  destruct (PathParser.init d out_feature_class "file") as [dst | e0] eqn:Edst.
  2: { injection Hrun as <- <-. split; [reflexivity |]. split; [tauto |].
       intros e [= <-]. apply init_file_failure in Edst. subst e0.
       intros [[=] | [[=] | [f [=]]]]. }
  destruct (negb (String.eqb (PathParser.extension src) "shp")
            || negb (PathParser.is_existed_file d src)).
  { injection Hrun as <- <-. split; [reflexivity |]. split; [tauto | reflexivity]. }
  destruct (negb (String.eqb (PathParser.extension dst) "shp")).
  { injection Hrun as <- <-. split; [reflexivity |]. split; [tauto | reflexivity]. }
  cbv zeta in Hrun. unfold and_then at 1 in Hrun.
  match type of Hrun with
  | context [check_required ?keys d] =>
      destruct (check_required keys d) as [[[] | e1] d1] eqn:Echeck;
        destruct (check_required_frame _ _ _ _ Echeck) as [-> Hcheck]
  end.
  2: { injection Hrun as <- <-. split; [reflexivity |]. split; [tauto | reflexivity]. }
  unfold and_then at 1 in Hrun.
  match type of Hrun with
  | context [copy_all ?pairs d] =>
      destruct (copy_all pairs d) as [[[] | e2] d2] eqn:Eall;
        destruct (copy_all_frame _ _ _ _ Eall) as (Hd2 & Hkeep2 & Hfail2)
  end.
  - destruct (copy_existing_frame _ _ _ _ Hrun) as (Hd3 & Hkeep3 & Hfail3).
    split; [congruence |]. split; [auto |].
    intros e -> He. exfalso.
    destruct (Hfail3 e eq_refl) as [Hos | Hdir];
      [unfold os_error in Hos |]; destruct He as [-> | [-> | [f ->]]];
      try discriminate Hdir; intuition discriminate.
  - injection Hrun as <- <-. split; [exact Hd2 |]. split; [exact Hkeep2 |].
    intros e [= <-] He. exfalso. specialize (Hfail2 e2 eq_refl). unfold os_error in Hfail2.
    destruct He as [-> | [-> | [f ->]]]; intuition discriminate.
Qed.

Lemma shutil_copy_onto src dst (d : disk) content :
  contents d src = Some content ->
  dst <> "" ->
  abspath src <> abspath dst ->
  isdir d dst = false ->
  isdir d (OsPath.dirname (abspath dst)) = true ->
  shutil_copy src dst d = (Done tt, write_file dst content d).
Proof.
  intros Hsrc Hdst0 Hne Hdst Hparent. unfold shutil_copy. rewrite Hdst. cbv zeta iota.
  rewrite Hsrc, Hdst, Hparent. apply String.eqb_neq in Hne. apply String.eqb_neq in Hdst0.
  now rewrite Hdst0, Hne.
Qed.

Lemma copy_existing_ok pairs (d : disk) :
  (forall q, abspath (abspath q) = abspath q) ->
  Forall (copyable d) pairs ->
  (forall f g, List.In f (map fst pairs) -> List.In g (map snd pairs) ->
     abspath f <> abspath g) ->
  List.NoDup (map (fun pair => abspath (snd pair)) pairs) ->
  exists d',
    copy_existing pairs d = (Done tt, d') /\
    dirs d' = dirs d /\
    (forall q, ~ List.In q (map (fun pair => abspath (snd pair)) pairs) ->
       files d' !! q = files d !! q) /\
    Forall (copied d d') pairs.
Proof.
  intros Hidem. revert d. induction pairs as [| [s t] pairs IH]; intros d Hok Hdisj Hnodup.
  - exists d. repeat split; constructor.
  - apply List.Forall_cons_iff in Hok.
    destruct Hok as [(Hs0 & Ht0 & Hb & Hds & Hdt & Hparent) Hok].
    simpl in Hs0, Ht0, Hb, Hds, Hdt, Hparent.
    apply List.NoDup_cons_iff in Hnodup. destruct Hnodup as [Hfresh Hnodup].
    simpl. unfold and_then at 1. rewrite (new_Path_plain s d Hb Hds).
    unfold PathParser.is_existed_file, PathParser.abs_path, isfile at 1. simpl.
    rewrite contents_abspath, Hidem.
    assert (forall d1, dirs d1 = dirs d -> Forall (copyable d1) pairs) as Hok'.
    { intros d1 Hd1. eapply List.Forall_impl; [| exact Hok].
      intros pair (H1 & H2 & H3 & H4 & H5 & H6). unfold copyable, isdir in *.
      now rewrite Hd1. }
    assert (forall f g, List.In f (map fst pairs) -> List.In g (map snd pairs) ->
              abspath f <> abspath g) as Hdisj'
      by (intros f g Hf Hg; apply Hdisj; simpl; tauto).
    destruct (files d !! abspath s) as [content |] eqn:Es.
    + unfold and_then.
      rewrite (shutil_copy_onto s t d content) by
        (try assumption; first [now rewrite contents_abs | apply Hdisj; simpl; tauto]).
      unfold write_file.
      set (d1 := Disk (<[abspath t := content]> (files d)) (dirs d)).
      destruct (IH d1 (Hok' d1 eq_refl) Hdisj' Hnodup) as (d' & Hrun & Hd & Hout & Hall).
      exists d'. split; [exact Hrun |]. split; [exact Hd |]. split.
      * intros q Hq. simpl in Hq. rewrite Hout by tauto. simpl.
        apply lookup_insert_ne. tauto.
      * constructor.
        -- unfold copied. simpl. rewrite Es, Hout by exact Hfresh. simpl.
           apply lookup_insert_eq.
        -- rewrite List.Forall_forall in *. intros [f g] Hin.
           specialize (Hall _ Hin). unfold copied in *. simpl in *.
           assert (abspath f <> abspath t) as Hft
             by (apply Hdisj; simpl; [right; apply in_map_iff; now exists (f, g) | now left]).
           assert (abspath g <> abspath t) as Hgt.
           { intros Heq. apply Hfresh. rewrite <- Heq.
             apply in_map_iff. now exists (f, g). }
           rewrite !lookup_insert_ne in Hall by congruence. exact Hall.
    + destruct (IH d Hok Hdisj' Hnodup) as (d' & Hrun & Hd & Hout & Hall).
      exists d'. split; [exact Hrun |]. split; [exact Hd |]. split.
      * intros q Hq. apply Hout. simpl in Hq. tauto.
      * constructor; [| exact Hall].
        unfold copied. simpl. rewrite Es. apply Hout. exact Hfresh.
Qed.

Lemma check_required_ok keys (d : disk) :
  (forall q, abspath (abspath q) = abspath q) ->
  Forall (fun f => Str.contains Str.backslash f = false /\ isdir d f = false /\
                   isfile d f = true) keys ->
  check_required keys d = (Done tt, d).
Proof.
  intros Hidem. induction keys as [| f keys IH]; intros Hkeys; [reflexivity |].
  apply List.Forall_cons_iff in Hkeys. destruct Hkeys as [(Hb & Hd & Hf) Hkeys].
  simpl. unfold and_then. rewrite (new_Path_plain f d Hb Hd).
  unfold PathParser.is_existed_file, PathParser.abs_path. simpl.
  rewrite (isfile_abspath d f Hidem Hf). simpl. now apply IH.
Qed.

Lemma copy_all_cons s t pairs :
  copy_all ((s, t) :: pairs) = and_then (shutil_copy s t) (fun _ => copy_all pairs).
Proof. reflexivity. Qed.

Lemma copy_existing_cons s t pairs :
  copy_existing ((s, t) :: pairs) =
    and_then (new_Path s "file") (fun pth d =>
      if PathParser.is_existed_file d pth
      then and_then (shutil_copy s t) (fun _ => copy_existing pairs) d
      else copy_existing pairs d).
Proof. reflexivity. Qed.

Lemma copy_all_as_existing pairs (d : disk) :
  (forall q, abspath (abspath q) = abspath q) ->
  Forall (fun pair => Str.contains Str.backslash (fst pair) = false /\
                      isdir d (fst pair) = false /\ isfile d (fst pair) = true) pairs ->
  copy_all pairs d = copy_existing pairs d.
Proof.
  intros Hidem. revert d. induction pairs as [| [s t] pairs IH]; intros d Hpairs;
    [reflexivity |].
  apply List.Forall_cons_iff in Hpairs. destruct Hpairs as [(Hb & Hd & Hf) Hpairs].
  unfold fst in Hb, Hd, Hf. rewrite copy_all_cons, copy_existing_cons.
  unfold and_then at 2. rewrite (new_Path_plain s d Hb Hd).
  unfold PathParser.is_existed_file, PathParser.abs_path. simpl.
  assert (isfile d (abspath s) = true) as -> by (now apply isfile_abspath).
  unfold and_then.
  destruct (shutil_copy s t d) as [[[] | e] d1] eqn:Ecopy; [| reflexivity].
  destruct (shutil_copy_frame _ _ _ _ _ Ecopy) as (Hdirs & Hkeep & _).
  apply IH. eapply List.Forall_impl; [| exact Hpairs].
  intros pair (H1 & H2 & H3). split; [exact H1 |]. split.
  - unfold isdir in *. now rewrite Hdirs.
  - now apply (isfile_kept d d1).
Qed.

Lemma copy_existing_app l1 l2 (d : disk) :
  copy_existing (l1 ++ l2) d = and_then (copy_existing l1) (fun _ => copy_existing l2) d.
Proof.
  revert d. induction l1 as [| [s t] l1 IH]; intros d; [reflexivity |].
  change (((s, t) :: l1) ++ l2) with ((s, t) :: (l1 ++ l2)).
  rewrite !copy_existing_cons. unfold and_then, new_Path.
  destruct (PathParser.init d s "file") as [pth | e]; [| reflexivity].
  destruct (PathParser.is_existed_file d pth); [| apply IH].
  destruct (shutil_copy s t d) as [[[] | e] d1]; [| reflexivity].
  apply IH.
Qed.

(** Copying a family of files: the required pairs, then the optional. *)
Lemma copy_family_ok required optional (d : disk) :
  (forall q, abspath (abspath q) = abspath q) ->
  Forall (copyable d) (required ++ optional) ->
  Forall (fun pair => isfile d (fst pair) = true) required ->
  (forall f g, List.In f (map fst (required ++ optional)) ->
     List.In g (map snd (required ++ optional)) -> abspath f <> abspath g) ->
  List.NoDup (map (fun pair => abspath (snd pair)) (required ++ optional)) ->
  exists d',
    and_then (copy_all required) (fun _ => copy_existing optional) d = (Done tt, d') /\
    dirs d' = dirs d /\
    (forall q, ~ List.In q (map (fun pair => abspath (snd pair)) (required ++ optional)) ->
       files d' !! q = files d !! q) /\
    Forall (copied d d') (required ++ optional).
Proof.
  intros Hidem Hok Hreq Hdisj Hnodup.
  destruct (copy_existing_ok _ d Hidem Hok Hdisj Hnodup) as (d' & Hrun & Hrest).
  exists d'. split; [| exact Hrest].
  rewrite copy_existing_app in Hrun. unfold and_then in *.
  rewrite copy_all_as_existing; [exact Hrun | exact Hidem |].
  apply List.Forall_app in Hok. destruct Hok as [Hok _].
  rewrite List.Forall_forall in *. intros pair Hin.
  destruct (Hok _ Hin) as (_ & _ & H1 & H2 & _). repeat split; auto.
Qed.

Lemma init_file_type (d : disk) p self :
  PathParser.init d p "file" = Done self -> PathParser.type self = PathParser.File.
Proof.
  unfold PathParser.init. simpl.
  repeat match goal with
         | |- context [if ?b then _ else _] => destruct b
         end; intros [= <-]; reflexivity.
Qed.

Lemma copy_beside_ok s t required optional (d : disk) :
  (forall q, abspath (abspath q) = abspath q) ->
  s <> "" -> t <> "" ->
  Str.contains Str.backslash s = false ->
  Forall (fun suffix => suffix <> "" /\ Str.contains Str.backslash suffix = false)
    (required ++ optional) ->
  Forall (fun f => isdir d f = false) (s :: map (sibling s) (required ++ optional)) ->
  Forall (fun f => isfile d f = true) (s :: map (sibling s) required) ->
  Forall (fun g => isdir d g = false /\ isdir d (OsPath.dirname (abspath g)) = true)
    (t :: map (sibling t) (required ++ optional)) ->
  (forall f g, List.In f (s :: map (sibling s) (required ++ optional)) ->
     List.In g (t :: map (sibling t) (required ++ optional)) -> abspath f <> abspath g) ->
  List.NoDup (map abspath (t :: map (sibling t) (required ++ optional))) ->
  exists d',
    and_then (copy_all ((s, t) :: map (beside s t) required))
      (fun _ => copy_existing (map (beside s t) optional)) d = (Done tt, d') /\
    dirs d' = dirs d /\
    (forall q, ~ List.In q (map abspath (t :: map (sibling t) (required ++ optional))) ->
       files d' !! q = files d !! q) /\
    copied d d' (s, t) /\
    Forall (fun suffix => copied d d' (beside s t suffix)) (required ++ optional).
Proof.
  intros Hidem Hs0 Ht0 Hs Hsuffixes Hsd Hsf Htd Hdisj Hnodup.
  set (pairs := ((s, t) :: map (beside s t) required) ++ map (beside s t) optional).
  assert (pairs = (s, t) :: map (beside s t) (required ++ optional)) as Hpairs
    by (unfold pairs; now rewrite map_app).
  assert (map fst pairs = s :: map (sibling s) (required ++ optional)) as Hfst
    by (rewrite Hpairs; simpl; now rewrite map_map).
  assert (map snd pairs = t :: map (sibling t) (required ++ optional)) as Hsnd
    by (rewrite Hpairs; simpl; now rewrite map_map).
  assert (map (fun pair => abspath (snd pair)) pairs =
          map abspath (t :: map (sibling t) (required ++ optional))) as Hkeys
    by (rewrite <- Hsnd; now rewrite map_map).
  destruct (copy_family_ok ((s, t) :: map (beside s t) required) (map (beside s t) optional) d)
    as (d' & Hrun & Hd & Hout & Hall); try assumption.
  - fold pairs. rewrite List.Forall_forall in *. intros [f g] Hin.
    assert (List.In f (map fst pairs)) as Hf by (apply in_map_iff; now exists (f, g)).
    assert (List.In g (map snd pairs)) as Hg by (apply in_map_iff; now exists (f, g)).
    rewrite Hfst in Hf. rewrite Hsnd in Hg.
    destruct (Htd _ Hg) as [Hg1 Hg2].
    unfold copyable. simpl.
    split; [| split; [| split; [| split; [now apply Hsd | now split]]]].
    + destruct Hf as [<- | Hf]; [assumption |].
      apply in_map_iff in Hf. destruct Hf as (suffix & <- & Hsuffix).
      apply sibling_nonempty. now apply Hsuffixes.
    + destruct Hg as [<- | Hg]; [assumption |].
      apply in_map_iff in Hg. destruct Hg as (suffix & <- & Hsuffix).
      apply sibling_nonempty. now apply Hsuffixes.
    + destruct Hf as [<- | Hf]; [assumption |].
      apply in_map_iff in Hf. destruct Hf as (suffix & <- & Hsuffix).
      apply contains_sibling; [assumption | now apply Hsuffixes].
  - rewrite List.Forall_forall in *. intros [f g] Hin. simpl.
    apply Hsf. destruct Hin as [[= <- <-] | Hin]; [now left |]. right.
    apply in_map_iff in Hin. destruct Hin as (suffix & [= <- <-] & Hsuffix).
    now apply in_map.
  - fold pairs. now rewrite Hfst, Hsnd.
  - fold pairs. now rewrite Hkeys.
  - fold pairs in Hout, Hall. rewrite Hkeys in Hout. rewrite Hpairs in Hall.
    apply List.Forall_cons_iff in Hall. destruct Hall as [Hhead Htail].
    exists d'. repeat split; try assumption.
    rewrite List.Forall_forall in *. intros suffix Hsuffix. apply Htail. now apply in_map.
Qed.

(** [CopyFeatures] on a shapefile.  Let the source and the target paths
    both have the extension "shp", and call family of a path the path
    itself and the path with ".shp" cut off and .shx, .dbf, .prj, ... added.
    When the absolute path of the source holds no backslash, the source,
    its .shx and its .dbf are files, no path of either family is a
    directory, the directories of the targets exist, no target is a source
    and the targets are distinct, [CopyFeatures] ends normally; each target
    then
    holds the content of its source where the source exists and what it
    held before where it does not (an optional file the source lacks is
    left at the target); and nothing else has changed. *)
Theorem CopyFeatures_copies (in_features out_feature_class : string) (d : disk)
    (src dst : PathParser.Path) :
  (forall q, abspath (abspath q) = abspath q) ->
  PathParser.init d in_features "file" = Done src ->
  PathParser.init d out_feature_class "file" = Done dst ->
  PathParser.extension src = "shp" ->
  PathParser.extension dst = "shp" ->
  let s := PathParser.abs_path src in
  let t := PathParser.abs_path dst in
  Str.contains Str.backslash s = false ->
  Forall (fun f => isdir d f = false) (shp_family s) ->
  Forall (fun f => isfile d f = true) [s; sibling s ".shx"; sibling s ".dbf"] ->
  Forall (fun g => isdir d g = false /\ isdir d (OsPath.dirname (abspath g)) = true)
    (shp_family t) ->
  (forall f g, List.In f (shp_family s) -> List.In g (shp_family t) ->
     abspath f <> abspath g) ->
  List.NoDup (map abspath (shp_family t)) ->
  exists d',
    CopyFeatures in_features out_feature_class d = (Done tt, d') /\
    dirs d' = dirs d /\
    (forall q, ~ List.In q (map abspath (shp_family t)) -> files d' !! q = files d !! q) /\
    copied d d' (s, t) /\
    Forall (fun suffix => copied d d' (sibling s suffix, sibling t suffix))
      ([".shx"; ".dbf"] ++ shp_optional_suffixes).
Proof.
  intros Hidem Hsrc Hdst Hes Het s t Hback Hsd Hsf Htd Hdisj Hnodup.
  assert (isfile d s = true) as Hs by (apply List.Forall_cons_iff in Hsf; tauto).
  destruct (copy_beside_ok s t [".shx"; ".dbf"] shp_optional_suffixes d)
    as (d' & Hrun & Hrest); try assumption; try apply abspath_nonempty;
    [repeat (apply List.Forall_cons; [split; [discriminate | reflexivity] |]);
     apply List.Forall_nil |].
  exists d'. split; [| exact Hrest].
  unfold CopyFeatures, and_then at 1 2, new_Path. rewrite Hsrc, Hdst.
  rewrite Hes, Het, String.eqb_refl.
  unfold PathParser.is_existed_file, PathParser.is_dir.
  rewrite (init_file_type _ _ _ Hsrc). fold s t. rewrite Hs.
  cbv beta iota zeta. simpl negb. simpl orb. cbv iota.
  unfold and_then at 1.
  assert (check_required (map fst [(s, t); (sibling s ".shx", sibling t ".shx");
                                   (sibling s ".dbf", sibling t ".dbf")]) d = (Done tt, d))
    as ->.
  { apply check_required_ok; [exact Hidem |].
    rewrite List.Forall_forall in *. intros f Hf.
    assert (List.In f (shp_family s)) as Hfam
      by (unfold shp_family; simpl in *; tauto).
    split; [| split; [now apply Hsd | now apply Hsf]].
    simpl in Hf. destruct Hf as [<- | [<- | [<- | []]]];
      [assumption | apply contains_sibling | apply contains_sibling]; auto. }
  exact Hrun.
Qed.

(** [CopyRaster] on a raster.  Let the source and the target paths both
    have the extension "tif", the family of a path being the path itself
    and the path with ".tif" cut off and .tfw, .tif.aux.xml, .tif.ovr,
    .tif.xml added.  When the absolute path of the source holds no
    backslash, the source is a file, no path of either family is a
    directory, the directories of the targets exist, no target is a source
    and the targets are distinct, [CopyRaster] ends normally; each target
    then holds the content
    of its source where the source exists and what it held before where it
    does not; and nothing else has changed. *)
Theorem CopyRaster_copies (in_raster out_rasterdataset : string) (d : disk)
    (src dst : PathParser.Path) :
  (forall q, abspath (abspath q) = abspath q) ->
  PathParser.init d in_raster "file" = Done src ->
  PathParser.init d out_rasterdataset "file" = Done dst ->
  PathParser.extension src = "tif" ->
  PathParser.extension dst = "tif" ->
  let s := PathParser.abs_path src in
  let t := PathParser.abs_path dst in
  Str.contains Str.backslash s = false ->
  Forall (fun f => isdir d f = false) (tif_family s) ->
  isfile d s = true ->
  Forall (fun g => isdir d g = false /\ isdir d (OsPath.dirname (abspath g)) = true)
    (tif_family t) ->
  (forall f g, List.In f (tif_family s) -> List.In g (tif_family t) ->
     abspath f <> abspath g) ->
  List.NoDup (map abspath (tif_family t)) ->
  exists d',
    CopyRaster in_raster out_rasterdataset d = (Done tt, d') /\
    dirs d' = dirs d /\
    (forall q, ~ List.In q (map abspath (tif_family t)) -> files d' !! q = files d !! q) /\
    copied d d' (s, t) /\
    Forall (fun suffix => copied d d' (sibling s suffix, sibling t suffix))
      tif_optional_suffixes.
Proof.
  intros Hidem Hsrc Hdst Hes Het s t Hback Hsd Hs Htd Hdisj Hnodup.
  destruct (copy_beside_ok s t [] tif_optional_suffixes d)
    as (d' & Hrun & Hrest); try assumption; try apply abspath_nonempty;
    [repeat (apply List.Forall_cons; [split; [discriminate | reflexivity] |]);
     apply List.Forall_nil | now constructor |].
  exists d'. split; [| exact Hrest].
  unfold CopyRaster, and_then at 1 2, new_Path. rewrite Hsrc, Hdst.
  rewrite Hes, Het, String.eqb_refl.
  unfold PathParser.is_existed_file, PathParser.is_dir.
  rewrite (init_file_type _ _ _ Hsrc). fold s t. rewrite Hs.
  exact Hrun.
Qed.

(** A backslash in the absolute path.  [CopyFeatures] checks the required
    files through [Path], which replaces every backslash by a slash: when
    the source is a shapefile that exists but the path so rewritten names
    nothing, the call ends with the "missed" error on the source itself,
    and nothing is copied.  So a shapefile in a directory whose name holds a
    backslash cannot be copied. *)
Theorem CopyFeatures_backslash_in_path (in_features out_feature_class : string) (d : disk)
    (src dst : PathParser.Path) :
  (forall q, abspath (abspath q) = abspath q) ->
  PathParser.init d in_features "file" = Done src ->
  PathParser.init d out_feature_class "file" = Done dst ->
  PathParser.extension src = "shp" ->
  PathParser.extension dst = "shp" ->
  let s := PathParser.abs_path src in
  let rewritten := Str.replace_char Str.backslash Str.slash s in
  isfile d s = true ->
  isdir d rewritten = false ->
  isfile d (abspath rewritten) = false ->
  CopyFeatures in_features out_feature_class d = (Failed (MissingFile s), d) /\
  Str.contains Str.backslash s = true.
Proof.
  intros Hidem Hsrc Hdst Hes Het s rewritten Hs Hdir Hnone.
  split.
  - unfold CopyFeatures, and_then at 1 2, new_Path. rewrite Hsrc, Hdst.
    rewrite Hes, Het, String.eqb_refl.
    unfold PathParser.is_existed_file at 1, PathParser.is_dir.
    rewrite (init_file_type _ _ _ Hsrc). fold s. rewrite Hs.
    cbv beta iota zeta. simpl negb. simpl orb. cbv iota.
    unfold and_then at 1. simpl map. simpl check_required.
    unfold and_then at 1, new_Path.
    assert (PathParser.init d s "file" =
            Done {| PathParser.path := rewritten; PathParser.type := PathParser.File |}) as ->.
    { unfold PathParser.init. simpl. fold rewritten. rewrite Hdir.
      now destruct (isfile d rewritten). }
    unfold PathParser.is_existed_file, PathParser.is_dir, PathParser.abs_path. simpl.
    now rewrite Hnone.
  - destruct (Str.contains Str.backslash s) eqn:Hb; [reflexivity | exfalso].
    unfold rewritten in Hnone. rewrite (replace_char_absent _ _ _ Hb) in Hnone.
    pose proof (isfile_nonempty _ _ Hs) as Hne.
    unfold isfile in Hs, Hnone. rewrite contents_abspath in Hnone.
    unfold s, PathParser.abs_path in Hs, Hnone.
    rewrite contents_abspath in Hs. repeat rewrite Hidem in Hs. repeat rewrite Hidem in Hnone.
    destruct (files d !! abspath (PathParser.path src)); [discriminate Hnone | discriminate Hs].
Qed.

End CopyFacts.

Lemma absolute_idempotent q : TestOs.absolute (TestOs.absolute q) = TestOs.absolute q.
Proof.
  destruct q as [| c q]; [reflexivity |]. simpl.
  destruct (Ascii.eqb c Str.slash) eqn:E; simpl; rewrite ?E; reflexivity.
Qed.

Lemma CopyFeatures_is_careful_witness :
  dirs (snd (@CopyFeatures TestOs.os "/data/roads.shp" "/out/roads.shp" TestOs.shelf)) =
  dirs TestOs.shelf.
Proof.
  refine (proj1 (@CopyFeatures_is_careful TestOs.os "/data/roads.shp" "/out/roads.shp"
                   TestOs.shelf
                   (fst (@CopyFeatures TestOs.os "/data/roads.shp" "/out/roads.shp"
                           TestOs.shelf)) _ _)).
  now destruct (@CopyFeatures TestOs.os "/data/roads.shp" "/out/roads.shp" TestOs.shelf).
Defined.

Ltac each_by_evaluation :=
  repeat (apply List.Forall_cons; [vm_compute; auto |]); try apply List.Forall_nil.

Lemma CopyFeatures_copies_witness :
  exists d',
    @CopyFeatures TestOs.os "/data/roads.shp" "/out/roads.shp" TestOs.shelf = (Done tt, d') /\
    files d' !! "/out/roads.shp" = Some "shp-bytes" /\
    files d' !! "/out/roads.cpg" = None.
Proof.
  destruct (@CopyFeatures_copies TestOs.os "/data/roads.shp" "/out/roads.shp" TestOs.shelf
              {| PathParser.path := "/data/roads.shp"; PathParser.type := PathParser.File |}
              {| PathParser.path := "/out/roads.shp"; PathParser.type := PathParser.File |})
    as (d' & Hrun & _ & _ & Hmain & Hrest).
  - exact absolute_idempotent.
  - vm_compute. reflexivity.
  - vm_compute. reflexivity.
  - vm_compute. reflexivity.
  - vm_compute. reflexivity.
  - vm_compute. reflexivity.
  - each_by_evaluation.
  - each_by_evaluation.
  - each_by_evaluation.
  - intros f g Hf Hg.
    assert (String.prefix "/data/" (@abspath TestOs.os f) = true) as Hpf
      by (vm_compute in Hf; repeat destruct Hf as [<- | Hf]; [reflexivity .. | destruct Hf]).
    assert (String.prefix "/data/" (@abspath TestOs.os g) = false) as Hpg
      by (vm_compute in Hg; repeat destruct Hg as [<- | Hg]; [reflexivity .. | destruct Hg]).
    congruence.
  - vm_compute. repeat (apply List.NoDup_cons; [simpl; intuition discriminate |]).
    apply List.NoDup_nil.
  - exists d'. split; [exact Hrun |]. split; [exact Hmain |].
    rewrite List.Forall_forall in Hrest. apply (Hrest ".cpg"). simpl. tauto.
Defined.

Lemma CopyRaster_copies_witness :
  exists d',
    @CopyRaster TestOs.os "/data/dem.tif" "/out/dem.tif" TestOs.shelf = (Done tt, d') /\
    files d' !! "/out/dem.tif" = Some "tif-bytes".
Proof.
  destruct (@CopyRaster_copies TestOs.os "/data/dem.tif" "/out/dem.tif" TestOs.shelf
              {| PathParser.path := "/data/dem.tif"; PathParser.type := PathParser.File |}
              {| PathParser.path := "/out/dem.tif"; PathParser.type := PathParser.File |})
    as (d' & Hrun & _ & _ & Hmain & _).
  - exact absolute_idempotent.
  - vm_compute. reflexivity.
  - vm_compute. reflexivity.
  - vm_compute. reflexivity.
  - vm_compute. reflexivity.
  - vm_compute. reflexivity.
  - each_by_evaluation.
  - vm_compute. reflexivity.
  - each_by_evaluation.
  - intros f g Hf Hg.
    assert (String.prefix "/data/" (@abspath TestOs.os f) = true) as Hpf
      by (vm_compute in Hf; repeat destruct Hf as [<- | Hf]; [reflexivity .. | destruct Hf]).
    assert (String.prefix "/data/" (@abspath TestOs.os g) = false) as Hpg
      by (vm_compute in Hg; repeat destruct Hg as [<- | Hg]; [reflexivity .. | destruct Hg]).
    congruence.
  - vm_compute. repeat (apply List.NoDup_cons; [simpl; intuition discriminate |]).
    apply List.NoDup_nil.
  - exists d'. split; [exact Hrun | exact Hmain].
Defined.

Lemma CopyFeatures_backslash_in_path_witness :
  @CopyFeatures TestOs.odd "roads.shp" "/out/roads.shp" TestOs.odd_shelf =
    (Failed (MissingFile (TestOs.odd_cwd ++ "/roads.shp")%string), TestOs.odd_shelf).
Proof.
  refine (proj1 (@CopyFeatures_backslash_in_path TestOs.odd "roads.shp" "/out/roads.shp"
                   TestOs.odd_shelf
                   {| PathParser.path := "roads.shp"; PathParser.type := PathParser.File |}
                   {| PathParser.path := "/out/roads.shp"; PathParser.type := PathParser.File |}
                   _ _ _ _ _ _ _ _));
    try (vm_compute; reflexivity).
  intros [| c q]; [reflexivity |]. simpl.
  destruct (Ascii.eqb c Str.slash) eqn:E; simpl; rewrite ?E; reflexivity.
Defined.
